(** * datacube-qgis: the query/export pipeline

    A shallow embedding of [datacube_query/utils.py] and of
    [datacube_query/algs/query.py] (class [DataCubeQueryAlgorithm]).

    Python dictionaries are finite maps with string keys, Python values are
    an inductive type with Python's truthiness, and the calls into the data
    cube engine, the raster library and the host's feedback object are
    recorded, in order, in a trace of events. *)

From Stdlib Require Import ZArith NArith Floats.
From stdpp Require Import gmap strings list fin_maps.

(** ** Python values, exceptions and effects *)

Module Py.

(** The values that flow through the dictionaries of the plugin (settings
    decoded from JSON, query terms, raster profiles). [VOpaque] stands for
    an object of a library that the plugin only passes on. *)
#[warnings="-register-all"]
Inductive value : Type :=
| VNone
| VBool (b : bool)
| VInt (z : Z)
| VFloat (f : float)
| VStr (s : string)
| VTuple (items : list value)
| VList (items : list value)
| VDict (items : list (string * value))
| VOpaque (name : string).

(** A float is false exactly when it compares equal to zero. *)
Definition float_truthy (f : float) : bool := negb (PrimFloat.eqb f 0%float).

Definition is_nil {A} (l : list A) : bool :=
  match l with [] => true | _ :: _ => false end.

(** [bool(v)] *)
Definition truthy (v : value) : bool :=
  match v with
  | VNone => false
  | VBool b => b
  | VInt z => negb (z =? 0)%Z
  | VFloat f => float_truthy f
  | VStr s => negb (String.eqb s EmptyString)
  | VTuple l | VList l => negb (is_nil l)
  | VDict d => negb (is_nil d)
  | VOpaque _ => true
  end.

(** [all(l)] *)
Definition all (l : list value) : bool := forallb truthy l.

(** [str(x)] for an argument that is either [None] or a string. *)
Definition str_of (x : option string) : string :=
  match x with
  | None => "None"
  | Some s => s
  end.

Inductive exn_class : Type :=
| RuntimeError | KeyError | TypeError | ValueError | IndexError
| AssertionError | ZeroDivisionError | OverflowError
| NameError | AttributeError
| NoDataError | TooManyDatasetsError
| OSError              (* with its subclasses and its alias IOError *)
| InvalidCRSError
| OtherError (name : string).

(** An exception: its class and [str(err)]. *)
Record exn : Type := Exn { exn_cls : exn_class; exn_msg : string }.

Inductive res (A : Type) : Type :=
| Ok (a : A)
| Raise (e : exn).
Arguments Ok {A} a.
Arguments Raise {A} e.

(** A computation reads and extends the trace of the calls made so far
    and returns a value or raises. *)
Definition M (E A : Type) : Type := list E -> list E * res A.

(** The sequence of two steps of which the first may raise. *)
Definition res_bind {A B} (r : res A) (k : A -> res B) : res B :=
  match r with
  | Ok a => k a
  | Raise e => Raise e
  end.

(** A list comprehension whose element expression may raise. *)
Fixpoint comprehension {A B} (f : A -> res B) (l : list A) : res (list B) :=
  match l with
  | [] => Ok []
  | x :: rest =>
      match f x with
      | Ok y =>
          match comprehension f rest with
          | Ok ys => Ok (y :: ys)
          | Raise e => Raise e
          end
      | Raise e => Raise e
      end
  end.

Definition ret {E A} (a : A) : M E A := fun t => (t, Ok a).

Definition raise {E A} (e : exn) : M E A := fun t => (t, Raise e).

Definition bind {E A B} (c : M E A) (k : A -> M E B) : M E B :=
  fun t =>
    match c t with
    | (t', Ok a) => k a t'
    | (t', Raise e) => (t', Raise e)
    end.

(** One call into a collaborator, recorded at the end of the trace. *)
Definition emit {E} (e : E) : M E unit := fun t => (t ++ [e], Ok tt).

(** The outcome of a call whose result the collaborator decides. *)
Definition lift {E A} (r : res A) : M E A := fun t => (t, r).

(** [try: c except <classes accepted by handles>: ...]: the outcome of
    [c] with a handled exception turned into a value. *)
Definition try_except {E A} (handles : exn -> bool) (c : M E A)
  : M E (exn + A) :=
  fun t =>
    match c t with
    | (t', Ok a) => (t', Ok (inr a))
    | (t', Raise e) => if handles e then (t', Ok (inl e)) else (t', Raise e)
    end.

(** [try: c finally: cleanup], as the exit of a [with] block runs it. *)
Definition finally {E A} (c : M E A) (cleanup : M E unit) : M E A :=
  fun t =>
    match c t with
    | (t', r) => ((cleanup t').1, r)
    end.

(** [float(n)] for a natural number; exact below 2^53. *)
Definition float_of_N (n : N) : float := PrimFloat.of_uint63 (Uint63.of_Z (Z.of_N n)).

(** [int(f)]: truncation towards zero. Python raises on an infinity or a
    NaN, for which this gives zero. *)
Definition int_of_float (f : float) : Z :=
  match Prim2SF f with
  | S754_finite s m e =>
      let v := (if 0 <=? e then Z.pos m * 2 ^ e else Z.pos m `div` 2 ^ (- e))%Z in
      if s then (- v)%Z else v
  | _ => 0%Z
  end.

(** [d[k]] *)
Definition getitem {V} (d : gmap string V) (k : string) : res V :=
  match d !! k with
  | Some v => Ok v
  | None => Raise (Exn KeyError k)
  end.

(** [del d[k]] *)
Definition delitem {V} (d : gmap string V) (k : string) : res (gmap string V) :=
  match d !! k with
  | Some _ => Ok (delete k d)
  | None => Raise (Exn KeyError k)
  end.

(** [d.update(o)]: the keys of [o] win. *)
Definition update {V} (d o : gmap string V) : gmap string V := o ∪ d.

(** [dict(k1=v1, ...)] and dictionary displays. *)
Definition dict_of {V} (items : list (string * V)) : gmap string V :=
  foldl (fun d kv => <[kv.1 := kv.2]> d) ∅ items.

End Py.

Import Py.

Declare Scope py_scope.
Delimit Scope py_scope with py.
Notation "'let!' x ':=' c 'in' k" := (bind c (fun x => k))
  (at level 10, x name, c at level 100, k at level 200) : py_scope.
Notation "'do!' c 'in' k" := (bind c (fun _ => k))
  (at level 10, c at level 100, k at level 200) : py_scope.
Notation "'let?' x ':=' r 'in' k" := (res_bind r (fun x => k))
  (at level 10, x name, r at level 100, k at level 200) : py_scope.
Open Scope py_scope.

(** ** [datacube_query/utils.py] *)

Module Utils.

(** [rasterio.enums.Resampling] *)
Inductive Resampling : Type :=
| nearest | bilinear | cubic | cubic_spline | lanczos | average | mode | gauss.

(** A [numpy.dtype]: its kind (one character) and its size in bytes. *)
Record np_dtype : Type := Dtype { kind : string; itemsize : N }.

#[global] Instance np_dtype_eq_dec : EqDecision np_dtype.
Proof. solve_decision. Defined.

(** A data variable of an [xarray.Dataset]: its dtype, its [nodata]
    attribute when it has one, and whether its array is a lazy dask array. *)
Record DataArray : Type :=
  { da_dtype : np_dtype; da_nodata : option value; da_dask : bool }.

(** What the plugin reads of an [xarray.Dataset] loaded from the data cube. *)
Record Dataset : Type :=
  { data_vars : list (string * DataArray);
    dims : gmap string N;
    crs_dimensions : string * string;      (* dataset.crs.dimensions *)
    crs_str : string;                      (* dataset.crs.crs_str *)
    affine : value;
    time : list Z }.                       (* the time coordinate, in ns *)

(** The data cube a configuration connects to: the search terms of a query,
    the eager search of the index, and the load. Each may raise. *)
Record Datacube : Type :=
  { search_terms : gmap string value -> res (gmap string value);
    search_eager : gmap string value -> res (list string);
    load : gmap string value -> res Dataset }.

(** The calls this module makes into the data cube engine and the raster
    library. *)
Inductive event : Type :=
| DatacubeOpen (config : option string) (app : string)
| QueryNew (query : gmap string value)
| SearchEager (terms : gmap string value)
| Load (query : gmap string value)
| RioOpen (filename mode : string) (profile : gmap string value)
| RasterBuildOverviews (filename : string) (factors : value) (resampling : Resampling)
| RasterUpdateTags (filename : string) (bidx : option Z) (ns : option string)
    (tags : gmap string value)
| RasterWrite (filename : string) (bandnum : nat) (var : string)
    (time_index : option nat) (computed : bool)
| RioClose (filename : string).

(** [with rio.open(filename, mode, **profile) as raster: body] *)
Definition with_rio_open {A} (filename mode : string) (profile : gmap string value)
    (body : M event A) : M event A :=
  do! emit (RioOpen filename mode profile) in
  finally body (emit (RioClose filename)).

(** The module calls [log_message] and neither defines nor imports this
    name: looking it up raises, before the arguments of the call are
    evaluated. *)
Definition log_message {A} : res A :=
  Raise (Exn NameError "name 'log_message' is not defined").

(** [adict.iteritems()]. The plugin runs on Python 3 (its algorithm class
    calls [super()] without arguments), where a dictionary has no such
    method: looking it up raises. *)
Definition iteritems {V} (adict : gmap string V) : res (list (string * V)) :=
  Raise (Exn AttributeError "'dict' object has no attribute 'iteritems'").

Section Utils.

(** [defaults.py] and the libraries' functions, which this module imports:
    [check_dtype] of the raster library, [str(dtype)], [np.dtype(kind +
    str(n))] and [dataset.astype(dtype)], [str.lower], and
    [datacube.Datacube]. *)
Context (GTIFF_OVR_DEFAULTS GTIFF_DEFAULTS : gmap string value)
        (GTIFF_OVR_RESAMPLING : gmap string Resampling)
        (check_dtype : np_dtype -> bool)
        (dtype_str : np_dtype -> string)
        (np_dtype_of : string -> N -> res np_dtype)
        (astype : Dataset -> np_dtype -> Dataset)
        (str_lower : string -> string)
        (datacube_Datacube : option string -> res Datacube).

(** [GTIFF_OVR_RESAMPLING[key]] *)
Definition resampling_of (key : value) : res Resampling :=
  match key with
  | VStr name => getitem GTIFF_OVR_RESAMPLING name
  | VList _ | VDict _ => Raise (Exn TypeError "unhashable type")
  | _ => Raise (Exn KeyError "resampling")
  end.

Definition build_overviews (filename : string)
    (overview_options : option (gmap string value)) : M event unit :=
  let options := GTIFF_OVR_DEFAULTS in
  let options :=
    match overview_options with
    | Some o => update options o
    | None => options
    end in
  let! internal_storage := lift (getitem options "internal_storage") in
  let mode := if truthy internal_storage then "r+" else "r" in
  let! key := lift (getitem options "resampling") in
  let! resampling := lift (resampling_of key) in
  with_rio_open filename mode ∅
    (let! factors := lift (getitem options "factors") in
     do! emit (RasterBuildOverviews filename factors resampling) in
     let! name := lift (getitem options "resampling") in
     emit (RasterUpdateTags filename None (Some "rio_overview")
             {["resampling" := name]})).

Definition calc_stats (filename : string) (stats_options : value) : M event unit :=
  ret tt.

(** [date.fromtimestamp] and [strftime] belong to the interpreter: they
    read the local time zone, and raise for a timestamp out of their
    range. *)
Definition datetime_to_str (strftime_local : Z -> string -> res string)
    (datetime64 : Z) (str_format : string) : res string :=
  let dt := (datetime64 `div` 1000000000)%Z in
  strftime_local dt str_format.

(** [dict(product=product, x=(xmin, xmax), y=(ymin, ymax), time=date_range,
    crs=str(query_crs))] *)
Definition search_query (product : string) (date_range : value)
    (extent : float * float * float * float) (query_crs : option string)
    : gmap string value :=
  let '(xmin, ymin, xmax, ymax) := extent in
  dict_of [("product", VStr product);
           ("x", VTuple [VFloat xmin; VFloat xmax]);
           ("y", VTuple [VFloat ymin; VFloat ymax]);
           ("time", date_range);
           ("crs", VStr (str_of query_crs))].

(** The assignments to [query] between the search and the load. *)
Definition load_query (query : gmap string value) (measurements dask_chunks : value)
    (output_crs : option string) (output_res : option value) : gmap string value :=
  let query := <["measurements" := measurements]> query in
  let query := <["dask_chunks" := dask_chunks]> query in
  let query := <["group_by" := VStr "solar_day"]> query in
  let query :=
    match output_crs with
    | Some c => <["output_crs" := VStr c]> query
    | None => query
    end in
  match output_res with
  | Some r => <["resolution" := r]> query
  | None => query
  end.

Definition run_query (product : string) (measurements date_range : value)
    (extent : float * float * float * float) (query_crs : option string)
    (output_crs : option string) (output_res : option value)
    (config : option string) (dask_chunks : value) : M event Dataset :=
  do! emit (DatacubeOpen config "QGIS Plugin") in
  let! dc := lift (datacube_Datacube config) in
  let query := search_query product date_range extent query_crs in
  do! emit (QueryNew query) in
  let! terms := lift (search_terms dc query) in
  do! emit (SearchEager terms) in
  let! datasets := lift (search_eager dc terms) in
  if is_nil datasets then raise (Exn RuntimeError "No datasets found")
  else
    let query := load_query query measurements dask_chunks output_crs output_res in
    do! lift (log_message : res unit) in
    do! emit (Load query) in
    lift (load dc query).

(** The loop runs over what [iteritems] returns. The keys are strings, so
    that [k.lower()] raises no [TypeError]. *)
Definition lcase_dict (adict : gmap string value) : res (gmap string value) :=
  let? items := iteritems adict in
  Ok (foldl (fun ret_dict kv => <[str_lower kv.1 := kv.2]> ret_dict) ∅ items).

(** Upcast to the next dtype of the same kind. [np.dtype] raises when
    there is no dtype of that name. [astype] loses the attributes: those of
    the dataset (its CRS) and of each data variable (its [nodata]) are put
    back, the latter by the name of the variable. *)
Definition upcast (dataset : Dataset) (old_dtype : np_dtype)
    : res (Dataset * np_dtype) :=
  let? dtype := np_dtype_of (kind old_dtype) (itemsize old_dtype * 2) in
  let datavar_attrs : gmap string (option value) :=
    list_to_map (map (fun var => (var.1, da_nodata var.2)) (data_vars dataset)) in
  let cast := astype dataset dtype in
  let? vars :=
    comprehension
      (fun var : string * DataArray =>
         let? attrs := getitem datavar_attrs var.1 in
         Ok (var.1, {| da_dtype := da_dtype var.2;
                       da_nodata := match attrs with
                                    | Some nodata => Some nodata
                                    | None => da_nodata var.2
                                    end;
                       da_dask := da_dask var.2 |}))
      (data_vars cast) in
  Ok ({| data_vars := vars;
         dims := dims cast;
         crs_dimensions := crs_dimensions dataset;
         crs_str := crs_str dataset;
         affine := affine dataset;
         time := time cast |}, dtype).

Definition update_tags (filename : string) (bidx : Z) (ns : option string)
    (kwargs : gmap string value) : M event unit :=
  with_rio_open filename "r+" ∅
    (emit (RasterUpdateTags filename (Some bidx) ns kwargs)).

(** [v > dim] for a raster dimension [dim]. *)
Definition gt_dim (v : value) (dim : N) : res bool :=
  match v with
  | VInt z => Ok (Z.of_N dim <? z)%Z
  | VBool b => Ok (Z.of_N dim <? Z.b2z b)%Z
  | VFloat f => Ok (PrimFloat.ltb (float_of_N dim) f)
  | _ => Raise (Exn TypeError "'>' not supported")
  end.

(** The truth of [block and block > dim]. *)
Definition block_exceeds (block : value) (dim : N) : res bool :=
  if truthy block then gt_dim block dim else Ok false.

(** The profile before its keys are lowered: the defaults, the dataset's
    own entries, the caller's overrides. *)
Definition merged_profile (dataset : Dataset) (dimx dimy : N) (dtype : np_dtype)
    (profile_override : gmap string value) : gmap string value :=
  let profile := GTIFF_DEFAULTS in
  let profile :=
    update profile
      (dict_of [("width", VInt (Z.of_N dimx));
                ("height", VInt (Z.of_N dimy));
                ("affine", affine dataset);
                ("crs", VStr (crs_str dataset));
                ("count", VInt (Z.of_nat (length (data_vars dataset))));
                ("dtype", VStr (dtype_str dtype))]) in
  update profile profile_override.

(** The loop over the bands. Its [profile.update] of [nodata] changes only
    the local dictionary, after the file was opened. *)
Fixpoint write_bands (filename : string) (time_index : option nat) (bandnum : nat)
    (vars : list (string * DataArray)) : M event unit :=
  match vars with
  | [] => ret tt
  | (name, data) :: rest =>
      do! emit (RasterWrite filename bandnum name time_index (da_dask data)) in
      write_bands filename time_index (S bandnum) rest
  end.

Definition write_geotiff (filename : string) (dataset : Dataset)
    (time_index : option nat) (profile_override : option (gmap string value))
    : M event unit :=
  let profile_override := default ∅ profile_override in
  let dtypes := remove_dups (map (fun var => da_dtype var.2) (data_vars dataset)) in
  match dtypes with
  | [dtype] =>
      let! checked :=
        if check_dtype dtype then ret (dataset, dtype)
        else lift (upcast dataset dtype) in
      let '(dataset, dtype) := checked in
      let! dimx := lift (getitem (dims dataset) (crs_dimensions dataset).2) in
      let! dimy := lift (getitem (dims dataset) (crs_dimensions dataset).1) in
      let profile := merged_profile dataset dimx dimy dtype profile_override in
      let! profile := lift (lcase_dict profile) in
      let blockx := default VNone (profile !! "blockxsize") in
      let blocky := default VNone (profile !! "blockysize") in
      let! too_wide := lift (block_exceeds blockx dimx) in
      let! too_big :=
        if too_wide then ret true else lift (block_exceeds blocky dimy) in
      let! profile :=
        if too_big then
          let! profile := lift (delitem profile "blockxsize") in
          let! profile := lift (delitem profile "blockysize") in
          ret (<["tiled" := VBool false]> profile)
        else ret profile in
      with_rio_open filename "w" profile
        (write_bands filename time_index 1 (data_vars dataset))
  | _ => raise (Exn AssertionError EmptyString)
  end.

(** *** Properties of [build_overviews] and [calc_stats] *)

Lemma lookup_update {V} (d o : gmap string V) (k : string) :
  update d o !! k = match o !! k with Some v => Some v | None => d !! k end.
Proof.
  unfold update. rewrite lookup_union.
  destruct (o !! k), (d !! k); reflexivity.
Qed.

(** Override merging as the specification words it: a supplied key takes
    precedence, a key that is not supplied keeps its default, and no
    argument at all leaves the defaults. *)
Definition effective_option (overview_options : option (gmap string value))
    (k : string) : option value :=
  match overview_options with
  | None => GTIFF_OVR_DEFAULTS !! k
  | Some supplied =>
      match supplied !! k with
      | Some v => Some v
      | None => GTIFF_OVR_DEFAULTS !! k
      end
  end.

(** C8. [build_overviews] works on the defaults updated by the supplied
    options: with the effective [internal_storage], [resampling] and
    [factors] read that way, it opens the file, builds the overviews with
    the effective factors and the resampling method that the table gives
    for the effective resampling name, and records that name under the
    [rio_overview] tag namespace. *)
Theorem build_overviews_override_merging
    (filename : string) (overview_options : option (gmap string value))
    (storage factors : value) (name : string) (method : Resampling)
    (t : list event) :
  effective_option overview_options "internal_storage" = Some storage ->
  effective_option overview_options "resampling" = Some (VStr name) ->
  effective_option overview_options "factors" = Some factors ->
  GTIFF_OVR_RESAMPLING !! name = Some method ->
  build_overviews filename overview_options t =
    (t ++ [RioOpen filename (if truthy storage then "r+" else "r") ∅;
           RasterBuildOverviews filename factors method;
           RasterUpdateTags filename None (Some "rio_overview")
             {["resampling" := VStr name]};
           RioClose filename],
     Ok tt).
Proof.
  intros Hs Hr Hf Hm.
  unfold build_overviews.
  set (options := match overview_options with
                  | Some o => update GTIFF_OVR_DEFAULTS o
                  | None => GTIFF_OVR_DEFAULTS
                  end).
  assert (Hopt : forall k, options !! k = effective_option overview_options k).
  { intros k. unfold options, effective_option.
    destruct overview_options as [o|]; [apply lookup_update | reflexivity]. }
  unfold bind, lift, getitem, with_rio_open, finally, emit, bind, lift, getitem.
  rewrite !Hopt, Hs, Hr, Hf. cbn. unfold getitem. rewrite Hm. cbn.
  rewrite <- !app_assoc. reflexivity.
Qed.

(** C9. The statistics step does nothing: no call is made and the trace
    of calls made so far is returned as it was. *)
Theorem calc_stats_is_a_stub (filename : string) (stats_options : value)
    (t : list event) :
  calc_stats filename stats_options t = (t, Ok tt).
Proof. reflexivity. Qed.

(** Closes a goal from [Hin : e ∈ l] when no call of [l] is [e]. *)
Ltac no_such_call Hin :=
  cbn in Hin;
  repeat (apply elem_of_cons in Hin as [Hin|Hin]; [discriminate Hin|]);
  apply elem_of_nil in Hin; exact Hin.

(** *** Properties of [run_query] *)

(** The calls up to the search. *)
Definition search_calls (config : option string) (query terms : gmap string value)
    : list event :=
  [DatacubeOpen config "QGIS Plugin"; QueryNew query; SearchEager terms].

(** A run of [run_query], by the outcomes of its calls into the data cube
    engine. After a search that finds a dataset, the lookup of
    [log_message] raises: the load is not reached. *)
Lemma run_query_cases
    (product : string) (measurements date_range : value)
    (extent : float * float * float * float) (query_crs output_crs : option string)
    (output_res : option value) (config : option string) (dask_chunks : value)
    (t : list event) :
  let query := search_query product date_range extent query_crs in
  run_query product measurements date_range extent query_crs output_crs
    output_res config dask_chunks t
  = match datacube_Datacube config with
    | Raise e => (t ++ [DatacubeOpen config "QGIS Plugin"], Raise e)
    | Ok dc =>
        match search_terms dc query with
        | Raise e =>
            (t ++ [DatacubeOpen config "QGIS Plugin"; QueryNew query], Raise e)
        | Ok terms =>
            (t ++ search_calls config query terms,
             match search_eager dc terms with
             | Raise e => Raise e
             | Ok [] => Raise (Exn RuntimeError "No datasets found")
             | Ok (_ :: _) => Raise (Exn NameError "name 'log_message' is not defined")
             end)
        end
    end.
Proof.
  cbn zeta. unfold run_query, search_calls, bind, emit, lift, raise, log_message.
  destruct (datacube_Datacube config) as [dc|e]; [|reflexivity].
  destruct (search_terms dc _) as [terms|e]; rewrite <- ?app_assoc; [|reflexivity].
  destruct (search_eager dc terms) as [[|d ds]|e]; rewrite <- ?app_assoc; reflexivity.
Qed.

(** The dictionary that the code builds for the load has the fields
    [product], [measurements], [time], [x], [y], [crs], [group_by] and
    [dask_chunks], has [output_crs] exactly when an output CRS was supplied
    and [resolution] exactly when an output resolution was supplied, and has
    no other field. *)
Lemma load_query_fields
    (product : string) (measurements date_range : value)
    (xmin ymin xmax ymax : float) (query_crs output_crs : option string)
    (output_res : option value) (dask_chunks : value) :
  let q := load_query (search_query product date_range (xmin, ymin, xmax, ymax) query_crs)
             measurements dask_chunks output_crs output_res in
  q !! "product" = Some (VStr product) /\
  q !! "measurements" = Some measurements /\
  q !! "time" = Some date_range /\
  q !! "x" = Some (VTuple [VFloat xmin; VFloat xmax]) /\
  q !! "y" = Some (VTuple [VFloat ymin; VFloat ymax]) /\
  q !! "crs" = Some (VStr (str_of query_crs)) /\
  q !! "group_by" = Some (VStr "solar_day") /\
  q !! "dask_chunks" = Some dask_chunks /\
  q !! "output_crs" = VStr <$> output_crs /\
  q !! "resolution" = output_res /\
  dom q =
    list_to_set
      (["product"; "measurements"; "time"; "x"; "y"; "crs"; "group_by"; "dask_chunks"]
       ++ (if output_crs is Some _ then ["output_crs"] else [])
       ++ (if output_res is Some _ then ["resolution"] else [])).
Proof.
  cbn zeta. unfold load_query, search_query, dict_of. cbn [foldl fst snd].
  destruct output_crs as [c|], output_res as [res|]; cbn [fmap option_fmap option_map];
    repeat split; try (simplify_map_eq; reflexivity);
    rewrite ?dom_insert_L, dom_empty_L; cbn; set_solver.
Qed.

(** X13. The query that is searched for has the product, the extent, the time
    and the CRS, and nothing else: the measurements, the grouping and the
    output CRS and resolution play no part in the search. *)
Theorem run_query_search_fields
    (product : string) (measurements date_range : value)
    (xmin ymin xmax ymax : float) (query_crs output_crs : option string)
    (output_res : option value) (config : option string) (dask_chunks : value)
    (t t' calls : list event) (r : res Dataset) (q : gmap string value) :
  run_query product measurements date_range (xmin, ymin, xmax, ymax)
    query_crs output_crs output_res config dask_chunks t = (t', r) ->
  t' = t ++ calls ->
  QueryNew q ∈ calls ->
  q = dict_of [("product", VStr product);
               ("x", VTuple [VFloat xmin; VFloat xmax]);
               ("y", VTuple [VFloat ymin; VFloat ymax]);
               ("time", date_range);
               ("crs", VStr (str_of query_crs))] /\
  dom q = list_to_set ["product"; "x"; "y"; "time"; "crs"].
Proof.
  intros Hrun Hc Hin.
  assert (Hq : q = dict_of [("product", VStr product);
                            ("x", VTuple [VFloat xmin; VFloat xmax]);
                            ("y", VTuple [VFloat ymin; VFloat ymax]);
                            ("time", date_range);
                            ("crs", VStr (str_of query_crs))]).
  { rewrite run_query_cases in Hrun. cbn zeta in Hrun.
    change (search_query product date_range (xmin, ymin, xmax, ymax) query_crs)
      with (dict_of [("product", VStr product);
                     ("x", VTuple [VFloat xmin; VFloat xmax]);
                     ("y", VTuple [VFloat ymin; VFloat ymax]);
                     ("time", date_range);
                     ("crs", VStr (str_of query_crs))]) in Hrun.
    destruct (datacube_Datacube config) as [dc|e].
    2: { injection Hrun as <- <-. apply app_inv_head in Hc. subst calls.
         exfalso. no_such_call Hin. }
    destruct (search_terms dc _) as [terms|e];
      injection Hrun as <- <-; apply app_inv_head in Hc; subst calls;
      unfold search_calls in Hin;
      (apply elem_of_cons in Hin as [Hin|Hin]; [discriminate Hin|]);
      (apply elem_of_cons in Hin as [Hin|Hin]; [by injection Hin|]);
      exfalso; no_such_call Hin. }
  split; [exact Hq|]. subst q. unfold dict_of. cbn [foldl fst snd].
  rewrite !dom_insert_L, dom_empty_L. cbn. set_solver.
Qed.

(** X14. The load is never reached: every run of [run_query] ends with an
    exception, none returns a dataset, and no run calls the load. *)
Theorem run_query_never_loads
    (product : string) (measurements date_range : value)
    (extent : float * float * float * float) (query_crs output_crs : option string)
    (output_res : option value) (config : option string) (dask_chunks : value)
    (t : list event) :
  exists calls e,
    run_query product measurements date_range extent query_crs output_crs
      output_res config dask_chunks t = (t ++ calls, Raise e) /\
    forall q, Load q ∉ calls.
Proof.
  rewrite run_query_cases. cbn zeta.
  destruct (datacube_Datacube config) as [dc|e].
  2: { eexists [_], e. split; [reflexivity|]. intros q Hin. no_such_call Hin. }
  destruct (search_terms dc _) as [terms|e].
  2: { eexists [_; _], e. split; [reflexivity|]. intros q Hin. no_such_call Hin. }
  exists (search_calls config
            (search_query product date_range extent query_crs) terms).
  destruct (search_eager dc terms) as [[|d ds]|e]; eexists;
    (split; [reflexivity|]); intros q Hin; unfold search_calls in Hin;
    no_such_call Hin.
Qed.

(** X15. An exception of [run_query] is its own [RuntimeError] for an empty
    search result, the [NameError] of the name [log_message] for a search
    result that is not empty, or was raised by [datacube.Datacube], by the
    construction of the query or by the search of the index. *)
Theorem run_query_raises
    (product : string) (measurements date_range : value)
    (extent : float * float * float * float) (query_crs output_crs : option string)
    (output_res : option value) (config : option string) (dask_chunks : value)
    (t t' : list event) (e : exn) :
  run_query product measurements date_range extent query_crs output_crs
    output_res config dask_chunks t = (t', Raise e) ->
  (exists dc terms,
     datacube_Datacube config = Ok dc /\
     search_terms dc (search_query product date_range extent query_crs) = Ok terms /\
     ((search_eager dc terms = Ok [] /\ e = Exn RuntimeError "No datasets found") \/
      (exists found, search_eager dc terms = Ok found /\ found <> [] /\
                     e = Exn NameError "name 'log_message' is not defined") \/
      search_eager dc terms = Raise e)) \/
  datacube_Datacube config = Raise e \/
  exists dc,
    datacube_Datacube config = Ok dc /\
    search_terms dc (search_query product date_range extent query_crs) = Raise e.
Proof.
  rewrite run_query_cases. cbn zeta.
  destruct (datacube_Datacube config) as [dc|e0].
  2: { intros [= _ <-]. right. by left. }
  destruct (search_terms dc _) as [terms|e0] eqn:Hterms.
  2: { intros [= _ <-]. right. right. exists dc. by split. }
  intros [= _ Hraise]. left. exists dc, terms. split; [reflexivity|].
  split; [exact Hterms|].
  destruct (search_eager dc terms) as [[|d ds]|e0].
  - left. split; [reflexivity|]. by injection Hraise.
  - right. left. exists (d :: ds). split; [reflexivity|]. split; [done|].
    by injection Hraise.
  - right. right. by injection Hraise as ->.
Qed.

(** The contract of the query engine in the words of the specification,
    for a configured maximum, the datasets that the search finds and the
    outcome of the load: a result that is empty or larger than the maximum
    raises, and any other result gives what the load gives. *)
Definition run_query_contract (max_datasets : nat) (found : list string)
    (loaded outcome : res Dataset) : Prop :=
  match found with
  | [] => exists e, outcome = Raise e
  | _ :: _ =>
      if decide (max_datasets < length found) then exists e, outcome = Raise e
      else outcome = loaded
  end.

(** C2, as amended. [run_query] raises [RuntimeError] when the search of
    the index finds no dataset, after the calls that open the data cube,
    build the query and search. It takes no maximum, and what it does after
    a search that finds datasets does not depend on how many were found:
    two data cubes that differ in the datasets found only, both having
    found some, give one outcome. *)
Theorem run_query_empty_result
    (product : string) (measurements date_range : value)
    (extent : float * float * float * float) (query_crs output_crs : option string)
    (output_res : option value) (config : option string) (dask_chunks : value)
    (dc : Datacube) (terms : gmap string value) (t : list event) :
  datacube_Datacube config = Ok dc ->
  search_terms dc (search_query product date_range extent query_crs) = Ok terms ->
  (search_eager dc terms = Ok [] ->
   run_query product measurements date_range extent query_crs output_crs
     output_res config dask_chunks t
   = (t ++ search_calls config (search_query product date_range extent query_crs) terms,
      Raise (Exn RuntimeError "No datasets found"))) /\
  (forall config' dc' found found',
     datacube_Datacube config' = Ok dc' ->
     search_terms dc' (search_query product date_range extent query_crs) = Ok terms ->
     load dc' = load dc ->
     search_eager dc terms = Ok found -> found <> [] ->
     search_eager dc' terms = Ok found' -> found' <> [] ->
     (run_query product measurements date_range extent query_crs output_crs
        output_res config' dask_chunks t).2
     = (run_query product measurements date_range extent query_crs output_crs
          output_res config dask_chunks t).2).
Proof.
  intros Hdc Hterms. split.
  - intros Hfound. rewrite run_query_cases. cbn zeta.
    by rewrite Hdc, Hterms, Hfound.
  - intros config' dc' found found' Hdc' Hterms' _ Hfound Hne Hfound' Hne'.
    rewrite !run_query_cases. cbn zeta.
    rewrite Hdc, Hdc', Hterms, Hterms', Hfound, Hfound'. cbn [snd].
    destruct found; [done|]. by destruct found'.
Qed.

(** *** Properties of [write_geotiff] *)

(** X7. A dataset with no data variable, or with two data variables of
    different dtypes, fails the assertion before any file is opened. *)
Theorem write_geotiff_dtype_assertion
    (filename : string) (dataset : Dataset) (time_index : option nat)
    (profile_override : option (gmap string value)) (t : list event) :
  data_vars dataset = [] \/
  (exists var1 var2, var1 ∈ data_vars dataset /\ var2 ∈ data_vars dataset /\
                     da_dtype var1.2 <> da_dtype var2.2) ->
  write_geotiff filename dataset time_index profile_override t
  = (t, Raise (Exn AssertionError EmptyString)).
Proof.
  intros Hbad. unfold write_geotiff.
  destruct (remove_dups _) as [|d [|d' ds]] eqn:Hd; try reflexivity.
  exfalso. destruct Hbad as [Hnil|(var1 & var2 & H1 & H2 & Hne)].
  - rewrite Hnil in Hd. discriminate.
  - apply Hne.
    assert (Hin : forall var, var ∈ data_vars dataset -> da_dtype var.2 = d).
    { intros var Hvar.
      assert (da_dtype var.2 ∈ remove_dups
                (map (fun var => da_dtype var.2) (data_vars dataset))) as Hr.
      { apply elem_of_remove_dups. apply list_elem_of_fmap. eauto. }
      rewrite Hd in Hr. by apply list_elem_of_singleton in Hr. }
    by rewrite (Hin _ H1), (Hin _ H2).
Qed.

(** X16. [write_geotiff] never opens a file: every run ends with an
    exception and without a call into the raster library. The exception
    is the [AssertionError] of the check of the dtypes, an exception of
    [upcast] for a dtype that the raster library does not accept, a
    [KeyError] for a dimension of the CRS that the dataset does not have,
    or else the [AttributeError] of [iteritems] in [lcase_dict]. *)
Theorem write_geotiff_never_opens
    (filename : string) (dataset : Dataset) (time_index : option nat)
    (profile_override : option (gmap string value)) (t : list event) :
  exists e,
    write_geotiff filename dataset time_index profile_override t = (t, Raise e) /\
    (e = Exn AssertionError EmptyString \/
     (exists dtype, check_dtype dtype = false /\ upcast dataset dtype = Raise e) \/
     exn_cls e = KeyError \/
     e = Exn AttributeError "'dict' object has no attribute 'iteritems'").
Proof.
  unfold write_geotiff.
  destruct (remove_dups _) as [|dtype [|dtype' dtypes]].
  1,3: eexists; split; [reflexivity|by left].
  unfold bind at 1.
  destruct (check_dtype dtype) eqn:Hcheck.
  - unfold ret at 1. unfold bind, lift, getitem.
    destruct (dims dataset !! _) as [dimx|];
      [|eexists; split; [reflexivity|right; right; by left]].
    destruct (dims dataset !! _) as [dimy|];
      [|eexists; split; [reflexivity|right; right; by left]].
    eexists. split; [reflexivity|]. by repeat right.
  - unfold lift at 1. destruct (upcast dataset dtype) as [[dataset' dtype']|e] eqn:Hup.
    + unfold bind, lift, getitem.
      destruct (dims dataset' !! _) as [dimx|];
        [|eexists; split; [reflexivity|right; right; by left]].
      destruct (dims dataset' !! _) as [dimy|];
        [|eexists; split; [reflexivity|right; right; by left]].
      eexists. split; [reflexivity|]. by repeat right.
    + exists e. split; [reflexivity|]. right. left. by exists dtype.
Qed.

(** *** Properties of the other functions *)

(** X10. An option that is missing, or a resampling name that the table does
    not have, raises [KeyError] before the file is opened. *)
Theorem build_overviews_key_errors
    (filename : string) (overview_options : option (gmap string value))
    (t : list event) :
  (effective_option overview_options "internal_storage" = None ->
   build_overviews filename overview_options t
   = (t, Raise (Exn KeyError "internal_storage"))) /\
  (forall storage,
     effective_option overview_options "internal_storage" = Some storage ->
     effective_option overview_options "resampling" = None ->
     build_overviews filename overview_options t
     = (t, Raise (Exn KeyError "resampling"))) /\
  (forall storage name,
     effective_option overview_options "internal_storage" = Some storage ->
     effective_option overview_options "resampling" = Some (VStr name) ->
     GTIFF_OVR_RESAMPLING !! name = None ->
     build_overviews filename overview_options t
     = (t, Raise (Exn KeyError name))).
Proof.
  unfold build_overviews.
  set (options := match overview_options with
                  | Some o => update GTIFF_OVR_DEFAULTS o
                  | None => GTIFF_OVR_DEFAULTS
                  end).
  assert (Hopt : forall k, options !! k = effective_option overview_options k).
  { intros k. unfold options, effective_option.
    destruct overview_options as [o|]; [apply lookup_update | reflexivity]. }
  split; [|split].
  - intros Hs. unfold bind, lift, getitem. by rewrite Hopt, Hs.
  - intros storage Hs Hr. unfold bind, lift, getitem. by rewrite !Hopt, Hs, Hr.
  - intros storage name Hs Hr Hm. unfold bind, lift, getitem.
    rewrite !Hopt, Hs, Hr. cbn. unfold getitem. by rewrite Hm.
Qed.

(** X11. Once the file is open it is closed again, also when the factors are
    missing: then nothing is built and no tag is written. *)
Theorem build_overviews_closes_file
    (filename : string) (overview_options : option (gmap string value))
    (t t' : list event) (r : res unit) :
  build_overviews filename overview_options t = (t', r) ->
  t' = t \/
  exists mode calls,
    t' = t ++ RioOpen filename mode ∅ :: calls ++ [RioClose filename] /\
    (effective_option overview_options "factors" = None ->
     calls = [] /\ r = Raise (Exn KeyError "factors")).
Proof.
  unfold build_overviews.
  set (options := match overview_options with
                  | Some o => update GTIFF_OVR_DEFAULTS o
                  | None => GTIFF_OVR_DEFAULTS
                  end).
  assert (Hopt : forall k, options !! k = effective_option overview_options k).
  { intros k. unfold options, effective_option.
    destruct overview_options as [o|]; [apply lookup_update | reflexivity]. }
  unfold bind at 1. unfold lift at 1.
  destruct (getitem options "internal_storage") as [storage|e];
    [|intros [= <- _]; by left].
  unfold bind at 1. unfold lift at 1.
  destruct (getitem options "resampling") as [key|e] eqn:Hkey;
    [|intros [= <- _]; by left].
  unfold bind at 1. unfold lift at 1.
  destruct (resampling_of key) as [method|e]; [|intros [= <- _]; by left].
  unfold with_rio_open, finally, bind, emit, lift.
  unfold getitem at 1. rewrite Hopt.
  destruct (effective_option overview_options "factors") as [factors|];
    cbn; intros [= <- <-]; right.
  - eexists _, [_; _]. rewrite <- !app_assoc. split; [reflexivity|discriminate].
  - eexists _, []. rewrite <- !app_assoc. split; [reflexivity|done].
Qed.

(** X12. Sub-second precision is dropped, towards minus infinity: every instant
    of a second, before 1970 too, is formatted as that second. *)
Theorem datetime_to_str_whole_seconds (strftime_local : Z -> string -> res string)
    (seconds nanoseconds : Z) (str_format : string) :
  (0 <= nanoseconds < 1000000000)%Z ->
  datetime_to_str strftime_local (seconds * 1000000000 + nanoseconds) str_format
  = strftime_local seconds str_format.
Proof.
  intros Hns. unfold datetime_to_str. f_equal.
  symmetry. apply (Z.div_unique _ _ _ nanoseconds); lia.
Qed.

(** [len(s)] *)
Definition len (s : string) : Z := Z.of_nat (String.length s).

Fixpoint string_take (n : nat) (s : string) : string :=
  match n, s with
  | S n', String c rest => String c (string_take n' rest)
  | _, _ => EmptyString
  end.

(** [s[:stop]]: a negative [stop] counts from the end. *)
Definition slice_to (s : string) (stop : Z) : string :=
  let stop := if (stop <? 0)%Z then Z.max 0 (len s + stop) else stop in
  string_take (Z.to_nat stop) s.

Definition str_snip (str_to_snip : string) (max_len : Z) (suffix : string) : string :=
  let snip_len := (max_len - len suffix)%Z in
  if (len str_to_snip <=? max_len)%Z then str_to_snip
  else slice_to str_to_snip snip_len +:+ suffix.

Lemma string_take_length (n : nat) (s : string) :
  String.length (string_take n s) = n `min` String.length s.
Proof.
  revert s. induction n as [|n IH]; intros [|c rest]; cbn; try reflexivity.
  by rewrite IH.
Qed.

Lemma len_app (s1 s2 : string) : len (s1 +:+ s2) = (len s1 + len s2)%Z.
Proof.
  assert (H : String.length (s1 +:+ s2)
              = (String.length s1 + String.length s2)%nat).
  { induction s1 as [|c s1 IH]; [reflexivity|].
    change (String c s1 +:+ s2) with (String c (s1 +:+ s2)).
    cbn [String.length]. by rewrite IH. }
  unfold len. rewrite H. lia.
Qed.

Lemma len_slice_to (s : string) (stop : Z) :
  len (slice_to s stop)
  = (if (stop <? 0)%Z then Z.max 0 (len s + stop) else Z.min stop (len s))%Z.
Proof.
  unfold slice_to, len. rewrite string_take_length.
  destruct (Z.ltb_spec stop 0); lia.
Qed.

(** X1. A string within the limit is returned as it is; a longer one, when the
    suffix fits in the limit, is cut to exactly the limit: what is left of
    its beginning, then the suffix. *)
Theorem str_snip_fits (str_to_snip suffix : string) (max_len : Z) :
  (len suffix <= max_len)%Z ->
  (len (str_snip str_to_snip max_len suffix) <= max_len)%Z /\
  (len str_to_snip <= max_len -> str_snip str_to_snip max_len suffix = str_to_snip)%Z /\
  (max_len < len str_to_snip ->
   len (str_snip str_to_snip max_len suffix) = max_len /\
   str_snip str_to_snip max_len suffix
   = string_take (Z.to_nat (max_len - len suffix)) str_to_snip +:+ suffix)%Z.
Proof.
  intros Hfit. unfold str_snip.
  destruct (Z.leb_spec (len str_to_snip) max_len) as [Hshort|Hlong].
  - split; [exact Hshort|]. split; [reflexivity|lia].
  - assert (Hlen : len (slice_to str_to_snip (max_len - len suffix) +:+ suffix) = max_len).
    { rewrite len_app, len_slice_to.
      destruct (Z.ltb_spec (max_len - len suffix) 0); unfold len in *; lia. }
    split; [lia|]. split; [lia|]. intros _. split; [exact Hlen|].
    unfold slice_to. destruct (Z.ltb_spec (max_len - len suffix) 0); [lia|reflexivity].
Qed.

(** X2. When the suffix is longer than the limit, a string over the limit comes
    back longer than the limit: the negative slice bound counts from the
    end of the string, and the whole suffix is appended. *)
Theorem str_snip_overflows (str_to_snip suffix : string) (max_len : Z) :
  (max_len < len suffix)%Z ->
  (max_len < len str_to_snip)%Z ->
  (max_len < len (str_snip str_to_snip max_len suffix))%Z /\
  len (str_snip str_to_snip max_len suffix)
  = (Z.max 0 (len str_to_snip + max_len - len suffix) + len suffix)%Z.
Proof.
  intros Hsuffix Hlong. unfold str_snip.
  destruct (Z.leb_spec (len str_to_snip) max_len); [lia|].
  rewrite len_app, len_slice_to.
  destruct (Z.ltb_spec (max_len - len suffix) 0); unfold len in *; lia.
Qed.

End Utils.

(** *** The functions on sample data *)

Definition sample_ovr_defaults : gmap string value :=
  dict_of [("resampling", VStr "average");
           ("factors", VList [VInt 2; VInt 4; VInt 8; VInt 16; VInt 32]);
           ("internal_storage", VBool true)].

Definition sample_ovr_resampling : gmap string Resampling :=
  dict_of [("nearest", nearest); ("bilinear", bilinear); ("cubic", cubic);
           ("average", average); ("mode", mode); ("gauss", gauss)].

Definition sample_gtiff_defaults : gmap string value :=
  dict_of [("driver", VStr "GTiff"); ("interleave", VStr "band");
           ("tiled", VBool true); ("blockxsize", VInt 256);
           ("blockysize", VInt 256); ("compress", VStr "lzw")].

Definition sample_dtype_str (dtype : np_dtype) : string :=
  if decide (dtype = Dtype "u" 1) then "uint8"
  else if decide (dtype = Dtype "i" 2) then "int16"
  else if decide (dtype = Dtype "i" 4) then "int32"
  else if decide (dtype = Dtype "f" 4) then "float32"
  else "float64".

Definition sample_dataset : Dataset :=
  {| data_vars :=
       [("red", {| da_dtype := Dtype "i" 2; da_nodata := Some (VInt (-999));
                   da_dask := true |});
        ("nir", {| da_dtype := Dtype "i" 2; da_nodata := Some (VInt (-999));
                   da_dask := true |})];
     dims := dict_of [("time", 2%N); ("y", 400%N); ("x", 100%N)];
     crs_dimensions := ("y", "x");
     crs_str := "EPSG:3577";
     affine := VOpaque "Affine";
     time := [1514764800000000000%Z; 1516147200000000000%Z] |}.

(** [np.dtype] for the integer and floating-point dtypes of one, two,
    four and eight bytes. *)
Definition sample_np_dtype_of (kind : string) (n : N) : res np_dtype :=
  if bool_decide (kind ∈ ["i"; "u"; "f"]) && bool_decide (n ∈ [1; 2; 4; 8]%N)
  then Ok (Dtype kind n)
  else Raise (Exn TypeError "data type not understood").

(** [astype]: the new dtype for every data variable, and no attribute. *)
Definition sample_astype (dataset : Dataset) (dtype : np_dtype) : Dataset :=
  {| data_vars :=
       map (fun var : string * DataArray =>
              (var.1, {| da_dtype := dtype; da_nodata := None;
                         da_dask := da_dask var.2 |}))
           (data_vars dataset);
     dims := dims dataset;
     crs_dimensions := crs_dimensions dataset;
     crs_str := crs_str dataset;
     affine := affine dataset;
     time := time dataset |}.

(** [str.lower] on the letters A to Z. *)
Fixpoint sample_str_lower (s : string) : string :=
  match s with
  | EmptyString => EmptyString
  | String c rest =>
      let n := Ascii.N_of_ascii c in
      String (if ((65 <=? n) && (n <=? 90))%N then Ascii.ascii_of_N (n + 32) else c)
        (sample_str_lower rest)
  end.

(** A data cube whose search finds three datasets for every query. *)
Definition sample_datacube : Datacube :=
  {| search_terms := fun q => Ok q;
     search_eager := fun _ => Ok ["ds1"; "ds2"; "ds3"];
     load := fun _ => Ok sample_dataset |}.

Definition sample_query_run : list event * res Dataset :=
  run_query (fun _ => Ok sample_datacube)
    "ls8_nbar_albers" (VList [VStr "red"; VStr "nir"])
    (VList [VStr "2018-01-01"; VStr "2018-01-31"])
    (148, -36, 149, -35)%float (Some "EPSG:4326")
    (Some "EPSG:3577") None None (VDict [("time", VInt 1)]) [].

Lemma build_overviews_override_merging_witness :
  build_overviews sample_ovr_defaults sample_ovr_resampling "ls8_2018-01-01.tif"
    (Some {["resampling" := VStr "nearest"]}) []
  = ([RioOpen "ls8_2018-01-01.tif" "r+" ∅;
      RasterBuildOverviews "ls8_2018-01-01.tif"
        (VList [VInt 2; VInt 4; VInt 8; VInt 16; VInt 32]) nearest;
      RasterUpdateTags "ls8_2018-01-01.tif" None (Some "rio_overview")
        {["resampling" := VStr "nearest"]};
      RioClose "ls8_2018-01-01.tif"],
     Ok tt).
Proof.
  apply (build_overviews_override_merging sample_ovr_defaults sample_ovr_resampling
           "ls8_2018-01-01.tif" (Some {["resampling" := VStr "nearest"]})
           (VBool true) (VList [VInt 2; VInt 4; VInt 8; VInt 16; VInt 32])
           "nearest" nearest []);
    vm_compute; reflexivity.
Defined.

Definition sample_search_query : gmap string value :=
  dict_of [("product", VStr "ls8_nbar_albers");
           ("x", VTuple [VFloat 148; VFloat 149]);
           ("y", VTuple [VFloat (-36); VFloat (-35)]);
           ("time", VList [VStr "2018-01-01"; VStr "2018-01-31"]);
           ("crs", VStr "EPSG:4326")].

Definition sample_load_query : gmap string value :=
  dict_of [("product", VStr "ls8_nbar_albers");
           ("x", VTuple [VFloat 148; VFloat 149]);
           ("y", VTuple [VFloat (-36); VFloat (-35)]);
           ("time", VList [VStr "2018-01-01"; VStr "2018-01-31"]);
           ("crs", VStr "EPSG:4326");
           ("measurements", VList [VStr "red"; VStr "nir"]);
           ("dask_chunks", VDict [("time", VInt 1)]);
           ("group_by", VStr "solar_day");
           ("output_crs", VStr "EPSG:3577")].

(** A data cube whose search finds nothing. *)
Definition sample_empty_datacube : Datacube :=
  {| search_terms := fun q => Ok q;
     search_eager := fun _ => Ok [];
     load := fun _ => Ok sample_dataset |}.

(** The configuration file chooses the data cube. *)
Definition sample_datacube_Datacube (config : option string) : res Datacube :=
  match config with
  | None => Ok sample_datacube
  | Some _ => Ok sample_empty_datacube
  end.

Definition sample_empty_run : list event * res Dataset :=
  run_query sample_datacube_Datacube
    "ls8_nbar_albers" (VList [VStr "red"; VStr "nir"])
    (VList [VStr "2018-01-01"; VStr "2018-01-31"])
    (148, -36, 149, -35)%float (Some "EPSG:4326")
    (Some "EPSG:3577") None (Some "empty.conf") (VDict [("time", VInt 1)]) [].

(** C2, as stated, fails. Three datasets are found. With a configured
    maximum of one the contract wants an exception, with a maximum of a
    hundred it wants the outcome of the load, which is a dataset: no
    function that is not given the maximum does both, and the run, which
    ends with an exception, does not do the second. *)
Lemma run_query_takes_no_maximum :
  search_eager sample_datacube sample_search_query = Ok ["ds1"; "ds2"; "ds3"] /\
  load sample_datacube sample_load_query = Ok sample_dataset /\
  ~ (run_query_contract 1 ["ds1"; "ds2"; "ds3"] (Ok sample_dataset) sample_query_run.2 /\
     run_query_contract 100 ["ds1"; "ds2"; "ds3"] (Ok sample_dataset) sample_query_run.2) /\
  ~ run_query_contract 100 ["ds1"; "ds2"; "ds3"] (Ok sample_dataset) sample_query_run.2.
Proof.
  split; [reflexivity|]. split; [reflexivity|].
  split; [intros [[e He] H100]; cbn in H100; congruence|].
  intros H100. cbn in H100. discriminate H100.
Qed.

(** The search that finds nothing raises after the three calls. *)
Lemma run_query_empty_result_witness :
  sample_empty_run
  = ([DatacubeOpen (Some "empty.conf") "QGIS Plugin"; QueryNew sample_search_query;
      SearchEager sample_search_query],
     Raise (Exn RuntimeError "No datasets found")).
Proof.
  apply (run_query_empty_result sample_datacube_Datacube
           "ls8_nbar_albers" (VList [VStr "red"; VStr "nir"])
           (VList [VStr "2018-01-01"; VStr "2018-01-31"])
           (148, -36, 149, -35)%float (Some "EPSG:4326")
           (Some "EPSG:3577") None (Some "empty.conf") (VDict [("time", VInt 1)])
           sample_empty_datacube sample_search_query []); reflexivity.
Defined.

(** C7, at the failing input: a query for which the search finds three
    datasets. The dictionary for the load is built, with the fields of the
    claim, and is not passed on: the run ends with the [NameError] of
    [log_message] after the search, and the load is not called. *)
Theorem run_query_raises_before_load :
  sample_query_run
  = ([DatacubeOpen None "QGIS Plugin"; QueryNew sample_search_query;
      SearchEager sample_search_query],
     Raise (Exn NameError "name 'log_message' is not defined")) /\
  load_query
    (search_query "ls8_nbar_albers" (VList [VStr "2018-01-01"; VStr "2018-01-31"])
       (148, -36, 149, -35)%float (Some "EPSG:4326"))
    (VList [VStr "red"; VStr "nir"]) (VDict [("time", VInt 1)])
    (Some "EPSG:3577") None
  = sample_load_query /\
  forall q, Load q ∉ sample_query_run.1.
Proof.
  split; [reflexivity|]. split; [vm_compute; reflexivity|].
  intros q Hin. cbn in Hin.
  repeat (apply elem_of_cons in Hin as [Hin|Hin]; [discriminate Hin|]).
  by apply elem_of_nil in Hin.
Qed.

(** C10, at the failing input: the sample dataset is 100 pixels wide and
    the default blocks are 256 pixels wide, so that the block sizes are to
    be removed and the file written without tiles. The run ends with the
    [AttributeError] of [iteritems] before the block sizes are looked at,
    and no file is opened. *)
Theorem write_geotiff_raises_before_opening :
  merged_profile sample_gtiff_defaults sample_dtype_str sample_dataset 100 400
    (Dtype "i" 2) ∅ !! "blockxsize" = Some (VInt 256) /\
  dims sample_dataset !! "x" = Some 100%N /\
  write_geotiff sample_gtiff_defaults (fun _ => true) sample_dtype_str
    sample_np_dtype_of sample_astype sample_str_lower
    "ls8_2018-01-01.tif" sample_dataset (Some 0) None []
  = ([], Raise (Exn AttributeError "'dict' object has no attribute 'iteritems'")).
Proof. repeat split. Qed.

(** *** The other functions on sample data *)

Lemma str_snip_fits_witness :
  (len (str_snip "Landsat 8 NBAR 25 metre, 100km tile" 20 "...") <= 20)%Z.
Proof.
  apply (str_snip_fits "Landsat 8 NBAR 25 metre, 100km tile" "..." 20).
  unfold len. cbn. lia.
Defined.

Lemma str_snip_overflows_witness :
  (2 < len (str_snip "ls8_nbar" 2 "..."))%Z.
Proof.
  apply (str_snip_overflows "ls8_nbar" "..." 2); unfold len; cbn; lia.
Defined.

Definition sample_mixed_dataset : Dataset :=
  {| data_vars :=
       [("red", {| da_dtype := Dtype "i" 2; da_nodata := Some (VInt (-999));
                   da_dask := false |});
        ("ndvi", {| da_dtype := Dtype "f" 4; da_nodata := None;
                    da_dask := false |})];
     dims := dict_of [("y", 400%N); ("x", 100%N)];
     crs_dimensions := ("y", "x");
     crs_str := "EPSG:3577";
     affine := VOpaque "Affine";
     time := [] |}.

Lemma write_geotiff_dtype_assertion_witness :
  write_geotiff sample_gtiff_defaults (fun _ => true) sample_dtype_str
    sample_np_dtype_of sample_astype sample_str_lower
    "mixed.tif" sample_mixed_dataset None None []
  = ([], Raise (Exn AssertionError EmptyString)).
Proof.
  apply (write_geotiff_dtype_assertion sample_gtiff_defaults (fun _ => true)
           sample_dtype_str sample_np_dtype_of sample_astype sample_str_lower
           "mixed.tif" sample_mixed_dataset None None []).
  right. eexists _, _. split; [apply list_elem_of_here|].
  split; [apply list_elem_of_further, list_elem_of_here|]. discriminate.
Defined.

(** Defaults that give the width of a block and not its height. *)
Definition sample_ovr_no_factors : gmap string value :=
  dict_of [("resampling", VStr "average"); ("internal_storage", VBool false)].

Lemma build_overviews_closes_file_witness :
  [RioOpen "ls8_2018-01-01.tif" "r" ∅; RioClose "ls8_2018-01-01.tif"] = [] \/
  exists mode calls,
    [RioOpen "ls8_2018-01-01.tif" "r" ∅; RioClose "ls8_2018-01-01.tif"]
    = [] ++ RioOpen "ls8_2018-01-01.tif" mode ∅
           :: calls ++ [RioClose "ls8_2018-01-01.tif"] /\
    (effective_option sample_ovr_no_factors None "factors" = None ->
     calls = [] /\
     (Raise (Exn KeyError "factors") : res unit) = Raise (Exn KeyError "factors")).
Proof.
  apply (build_overviews_closes_file sample_ovr_no_factors sample_ovr_resampling
           "ls8_2018-01-01.tif" None []).
  vm_compute. reflexivity.
Defined.

Lemma datetime_to_str_whole_seconds_witness :
  datetime_to_str
    (fun seconds _ => Ok (if (seconds <? 0)%Z then "1969" else "1970")) (-1) "%Y"
  = Ok "1969".
Proof.
  apply (datetime_to_str_whole_seconds
           (fun seconds _ => Ok (if (seconds <? 0)%Z then "1969" else "1970"))
           (-1) 999999999 "%Y").
  lia.
Defined.

Lemma run_query_search_fields_witness :
  dom sample_search_query = list_to_set ["product"; "x"; "y"; "time"; "crs"].
Proof.
  assert (Hin : QueryNew sample_search_query ∈ sample_query_run.1).
  { vm_compute. apply list_elem_of_further, list_elem_of_here. }
  exact (proj2 (run_query_search_fields (fun _ => Ok sample_datacube)
                  "ls8_nbar_albers" (VList [VStr "red"; VStr "nir"])
                  (VList [VStr "2018-01-01"; VStr "2018-01-31"])
                  148 (-36) 149 (-35) (Some "EPSG:4326")
                  (Some "EPSG:3577") None None (VDict [("time", VInt 1)])
                  [] sample_query_run.1 sample_query_run.1 sample_query_run.2
                  sample_search_query eq_refl eq_refl Hin)).
Defined.

(** The run that finds three datasets ends with the [NameError]. *)
Lemma run_query_raises_witness :
  (exists dc terms,
     Ok sample_datacube = Ok dc /\
     search_terms dc sample_search_query = Ok terms /\
     ((search_eager dc terms = Ok [] /\
       Exn NameError "name 'log_message' is not defined"
       = Exn RuntimeError "No datasets found") \/
      (exists found,
         search_eager dc terms = Ok found /\ found <> [] /\
         Exn NameError "name 'log_message' is not defined"
         = Exn NameError "name 'log_message' is not defined") \/
      search_eager dc terms
      = Raise (Exn NameError "name 'log_message' is not defined"))) \/
  Ok sample_datacube = Raise (Exn NameError "name 'log_message' is not defined") \/
  exists dc,
    Ok sample_datacube = Ok dc /\
    search_terms dc sample_search_query
    = Raise (Exn NameError "name 'log_message' is not defined").
Proof.
  exact (run_query_raises (fun _ => Ok sample_datacube)
           "ls8_nbar_albers" (VList [VStr "red"; VStr "nir"])
           (VList [VStr "2018-01-01"; VStr "2018-01-31"])
           (148, -36, 149, -35)%float (Some "EPSG:4326")
           (Some "EPSG:3577") None None (VDict [("time", VInt 1)])
           [] sample_query_run.1
           (Exn NameError "name 'log_message' is not defined") eq_refl).
Defined.

End Utils.

(** ** [datacube_query/algs/query.py]: [DataCubeQueryAlgorithm] *)

Module Query.

(** *** Parameter validation *)

(** A [datetime] parsed with the format [%Y-%m-%d]: its time of day is
    midnight, so that the date orders it. *)
Record datetime : Type := Datetime { year : Z; month : Z; day : Z }.

(** [a > b] on such datetimes. *)
Definition datetime_gt (a b : datetime) : bool :=
  ((year b <? year a)
   || ((year b =? year a)
       && ((month b <? month a)
           || ((month b =? month a) && (day b <? day a)))))%Z.

Definition digit (c : Ascii.ascii) : option Z :=
  let n := Ascii.N_of_ascii c in
  if ((48 <=? n) && (n <=? 57))%N then Some (Z.of_N n - 48)%Z else None.

Definition is_leap (y : Z) : bool :=
  ((y mod 4 =? 0) && (negb (y mod 100 =? 0) || (y mod 400 =? 0)))%Z.

Definition days_in_month (y m : Z) : Z :=
  if (m =? 2)%Z then (if is_leap y then 29 else 28)%Z
  else if ((m =? 4) || (m =? 6) || (m =? 9) || (m =? 11))%Z then 30%Z
  else 31%Z.

(** The year of the format: four digits. *)
Definition parse_year (s : list Ascii.ascii) : option (Z * list Ascii.ascii) :=
  match s with
  | a :: b :: c :: d :: rest =>
      match digit a, digit b, digit c, digit d with
      | Some a, Some b, Some c, Some d =>
          Some (1000 * a + 100 * b + 10 * c + d, rest)%Z
      | _, _, _, _ => None
      end
  | _ => None
  end.

(** The month of the format: [1[0-2]|0[1-9]|[1-9]], first alternative first. *)
Definition parse_month (s : list Ascii.ascii) : option (Z * list Ascii.ascii) :=
  let two :=
    match s with
    | a :: b :: rest =>
        match digit a, digit b with
        | Some 1%Z, Some b => if (b <=? 2)%Z then Some ((10 + b)%Z, rest) else None
        | Some 0%Z, Some b => if (1 <=? b)%Z then Some (b, rest) else None
        | _, _ => None
        end
    | _ => None
    end in
  match two, s with
  | Some r, _ => Some r
  | None, a :: rest =>
      match digit a with
      | Some a => if (1 <=? a)%Z then Some (a, rest) else None
      | None => None
      end
  | None, [] => None
  end.

(** The day of the format: [3[0-1]|[1-2]\d|0[1-9]|[1-9]| [1-9]]. *)
Definition parse_day (s : list Ascii.ascii) : option (Z * list Ascii.ascii) :=
  let two :=
    match s with
    | a :: b :: rest =>
        match digit a, digit b with
        | Some 3%Z, Some b => if (b <=? 1)%Z then Some ((30 + b)%Z, rest) else None
        | Some 1%Z, Some b => Some ((10 + b)%Z, rest)
        | Some 2%Z, Some b => Some ((20 + b)%Z, rest)
        | Some 0%Z, Some b => if (1 <=? b)%Z then Some (b, rest) else None
        | None, Some b =>
            if (Ascii.N_of_ascii a =? 32)%N && (1 <=? b)%Z then Some (b, rest) else None
        | _, _ => None
        end
    | _ => None
    end in
  match two, s with
  | Some r, _ => Some r
  | None, a :: rest =>
      match digit a with
      | Some a => if (1 <=? a)%Z then Some (a, rest) else None
      | None => None
      end
  | None, [] => None
  end.

Definition is_dash (c : Ascii.ascii) : bool := (Ascii.N_of_ascii c =? 45)%N.

(** [datetime.strptime(d, '%Y-%m-%d')] on a string: the whole string has to
    match, and the date has to exist. *)
Definition strptime_ymd (d : string) : res datetime :=
  let bad := Raise (Exn ValueError "time data does not match format") in
  match parse_year (String.list_ascii_of_string d) with
  | Some (y, dash1 :: s1) =>
      match parse_month s1 with
      | Some (m, dash2 :: s2) =>
          match parse_day s2 with
          | Some (dd, []) =>
              if is_dash dash1 && is_dash dash2
                 && (1 <=? y)%Z && (dd <=? days_in_month y m)%Z
              then Ok (Datetime y m dd)
              else bad
          | _ => bad
          end
      | _ => bad
      end
  | _ => bad
  end.

(** [datetime.strptime(d, '%Y-%m-%d')] on a value decoded from JSON. *)
Definition strptime (d : value) : res datetime :=
  match d with
  | VStr s => strptime_ymd s
  | _ => Raise (Exn TypeError "strptime() argument 1 must be str")
  end.

(** [l[i]] *)
Definition index {A} (l : list A) (i : nat) : res A :=
  match l !! i with
  | Some x => Ok x
  | None => Raise (Exn IndexError "list index out of range")
  end.

Definition dquote : string := String (Ascii.ascii_of_N 34) EmptyString.
Definition newline : string := String (Ascii.ascii_of_N 10) EmptyString.

Definition MSG_PRODUCTS : string := "Please select at least one product".
Definition MSG_DATES : string := "Please select two dates or none at all".
Definition MSG_DATE_ORDER : string :=
  "The start date must be earlier than the end date".
Definition MSG_EXTENT_CRS : string :=
  "Please set a valid EPSG CRS for your project/layer".
Definition MSG_OUTPUT_RES : string :=
  "Please specify " +:+ dquote +:+ "Output Resolution" +:+ dquote
  +:+ " when specifying " +:+ dquote +:+ "Output CRS" +:+ dquote.
Definition MSG_OUTPUT_CRS : string :=
  "Please set a valid EPSG " +:+ dquote +:+ "Output CRS" +:+ dquote.

(** The parameter values as the host's accessors return them. *)
Record Parameters : Type :=
  { PARAM_PRODUCTS : string;                      (* parameterAsString *)
    PARAM_DATE_RANGE : list value;                (* json.loads(parameterAsString) *)
    PARAM_EXTENT : float * float * float * float; (* xMinimum, yMinimum, xMaximum, yMaximum *)
    extent_authid : string;                       (* parameterAsExtentCrs(...).authid() *)
    output_crs_isValid : bool;                    (* parameterAsCrs(...).isValid() *)
    output_crs_authid : string;                   (* parameterAsCrs(...).authid() *)
    PARAM_OUTPUT_RESOLUTION : float }.            (* parameterAsDouble *)

Section Validation.

(** [geometry.CRS] of the data cube engine, the translation function of the
    host, and the check of the base class. *)
Context (geometry_CRS : string -> res unit)
        (tr : string -> string)
        (super_checkParameterValues : Parameters -> bool * string).

(** [try: geometry.CRS(authid) except geometry.InvalidCRSError: msgs += [msg]] *)
Definition crs_msgs (authid msg : string) : res (list string) :=
  match geometry_CRS authid with
  | Ok _ => Ok []
  | Raise e =>
      match exn_cls e with
      | InvalidCRSError => Ok [msg]
      | _ => Raise e
      end
  end.

Definition product_msgs (parameters : Parameters) : list string :=
  if String.eqb (PARAM_PRODUCTS parameters) "{}" then [MSG_PRODUCTS] else [].

Definition date_msgs (parameters : Parameters) : res (list string) :=
  let date_range := PARAM_DATE_RANGE parameters in
  let msgs :=
    if negb (all date_range) && negb (forallb (fun d => negb (truthy d)) date_range)
    then [MSG_DATES] else [] in
  if all date_range then
    let? date_range := comprehension strptime date_range in
    let? d0 := index date_range 0 in
    let? d1 := index date_range 1 in
    if datetime_gt d0 d1 then Ok (msgs ++ [MSG_DATE_ORDER]) else Ok msgs
  else Ok msgs.

Definition extent_msgs (parameters : Parameters) : res (list string) :=
  let '(xmin, ymin, xmax, ymax) := PARAM_EXTENT parameters in
  let extent_crs :=
    if String.eqb (extent_authid parameters) EmptyString then None
    else Some (extent_authid parameters) in
  match extent_crs with
  | None =>
      if negb (PrimFloat.leb (-180) xmin && PrimFloat.leb (-90) ymin
               && PrimFloat.leb xmax 180 && PrimFloat.leb ymax 90)
      then Ok [MSG_EXTENT_CRS] else Ok []
  | Some extent_crs => crs_msgs extent_crs MSG_EXTENT_CRS
  end.

Definition output_msgs (parameters : Parameters) : res (list string) :=
  if output_crs_isValid parameters then
    let msgs :=
      if negb (float_truthy (PARAM_OUTPUT_RESOLUTION parameters))
      then [MSG_OUTPUT_RES] else [] in
    let? crs := crs_msgs (output_crs_authid parameters) MSG_OUTPUT_CRS in
    Ok (msgs ++ crs)
  else Ok [].

(** The list [msgs] when the checks are done. *)
Definition messages (parameters : Parameters) : res (list string) :=
  let msgs := product_msgs parameters in
  let? dates := date_msgs parameters in
  let msgs := msgs ++ dates in
  let? extent := extent_msgs parameters in
  let msgs := msgs ++ extent in
  let? output := output_msgs parameters in
  Ok (msgs ++ output).

Definition checkParameterValues (parameters : Parameters) : res (bool * string) :=
  let? msgs := messages parameters in
  if is_nil msgs then Ok (super_checkParameterValues parameters)
  else Ok (false, tr (String.concat newline msgs)).

(** *** Properties of the validation *)

Lemma crs_msgs_elem (authid msg : string) (l : list string) (m : string) :
  crs_msgs authid msg = Ok l -> m ∈ l -> m = msg.
Proof.
  unfold crs_msgs. destruct (geometry_CRS authid) as [[]|e].
  - intros [= <-] Hm. by apply elem_of_nil in Hm.
  - destruct (exn_cls e); try discriminate.
    intros [= <-] Hm. by apply list_elem_of_singleton in Hm.
Qed.

Lemma date_msgs_elem (parameters : Parameters) (l : list string) (m : string) :
  date_msgs parameters = Ok l -> m ∈ l -> m = MSG_DATES \/ m = MSG_DATE_ORDER.
Proof.
  unfold date_msgs.
  destruct (all (PARAM_DATE_RANGE parameters)); cbn [negb andb].
  - destruct (comprehension strptime _) as [ds|e]; [cbn|discriminate].
    destruct (index ds 0) as [d0|e]; [cbn|discriminate].
    destruct (index ds 1) as [d1|e]; [cbn|discriminate].
    destruct (datetime_gt d0 d1); intros [= <-] Hm.
    + apply list_elem_of_singleton in Hm. by right.
    + by apply elem_of_nil in Hm.
  - destruct (negb _); intros [= <-] Hm.
    + apply list_elem_of_singleton in Hm. by left.
    + by apply elem_of_nil in Hm.
Qed.

Lemma extent_msgs_elem (parameters : Parameters) (l : list string) (m : string) :
  extent_msgs parameters = Ok l -> m ∈ l -> m = MSG_EXTENT_CRS.
Proof.
  unfold extent_msgs. destruct (PARAM_EXTENT parameters) as [[[xmin ymin] xmax] ymax].
  destruct (String.eqb _ _).
  - destruct (negb _); intros [= <-] Hm.
    + by apply list_elem_of_singleton in Hm.
    + by apply elem_of_nil in Hm.
  - apply crs_msgs_elem.
Qed.

Lemma output_msgs_resolution (parameters : Parameters) (l : list string) :
  output_msgs parameters = Ok l ->
  MSG_OUTPUT_RES ∈ l <->
  output_crs_isValid parameters = true /\
  float_truthy (PARAM_OUTPUT_RESOLUTION parameters) = false.
Proof.
  unfold output_msgs. destruct (output_crs_isValid parameters).
  - destruct (crs_msgs _ _) as [crs|e] eqn:Hcrs; [cbn|discriminate].
    intros [= <-]. rewrite elem_of_app.
    destruct (float_truthy _); cbn [negb].
    + split; [|intros [_ ?]; discriminate].
      intros [Hm|Hm]; [by apply elem_of_nil in Hm|].
      apply (crs_msgs_elem _ _ _ _ Hcrs) in Hm. discriminate Hm.
    + split; [done|]. intros _. left. apply list_elem_of_here.
  - intros [= <-]. split; [intros Hm; by apply elem_of_nil in Hm|].
    intros [? _]. discriminate.
Qed.

(** The check that raises is the first that does, in the order of the
    checks. *)
Lemma messages_raise (parameters : Parameters) (e : exn) :
  messages parameters = Raise e ->
  date_msgs parameters = Raise e \/
  (exists dates, date_msgs parameters = Ok dates /\ extent_msgs parameters = Raise e) \/
  (exists dates extent,
     date_msgs parameters = Ok dates /\ extent_msgs parameters = Ok extent /\
     output_msgs parameters = Raise e).
Proof.
  unfold messages.
  destruct (date_msgs parameters) as [dates|e0]; cbn; [|intros [= ->]; by left].
  destruct (extent_msgs parameters) as [extent|e0]; cbn;
    [|intros [= ->]; right; left; by exists dates].
  destruct (output_msgs parameters) as [output|e0]; cbn; [discriminate|].
  intros [= ->]. right. right. by exists dates, extent.
Qed.

(** C4, as amended. For every parameter set, either all the checks return
    or one of them raises. When they return: the message about the
    resolution is reported exactly for a valid output CRS without an output
    resolution (for none that gives a resolution and no CRS); the messages
    are those of all the checks, in their order, and when there is one, the
    outcome is a failure with the messages joined by newlines. When a check
    raises, its exception leaves [checkParameterValues] and no message is
    reported. *)
Theorem checkParameterValues_reports (parameters : Parameters) :
  match messages parameters with
  | Ok msgs =>
      (MSG_OUTPUT_RES ∈ msgs <->
       output_crs_isValid parameters = true /\
       float_truthy (PARAM_OUTPUT_RESOLUTION parameters) = false) /\
      (exists dates extent output : list string,
         date_msgs parameters = Ok dates /\
         extent_msgs parameters = Ok extent /\
         output_msgs parameters = Ok output /\
         msgs = product_msgs parameters ++ dates ++ extent ++ output) /\
      (msgs <> [] ->
       checkParameterValues parameters
       = Ok (false, tr (String.concat newline msgs))) /\
      (msgs = [] ->
       checkParameterValues parameters = Ok (super_checkParameterValues parameters))
  | Raise e =>
      checkParameterValues parameters = Raise e /\
      (date_msgs parameters = Raise e \/
       (exists dates,
          date_msgs parameters = Ok dates /\ extent_msgs parameters = Raise e) \/
       (exists dates extent,
          date_msgs parameters = Ok dates /\ extent_msgs parameters = Ok extent /\
          output_msgs parameters = Raise e))
  end.
Proof.
  destruct (messages parameters) as [msgs|e] eqn:Hmsgs.
  2: { split; [|by apply messages_raise].
       unfold checkParameterValues. by rewrite Hmsgs. }
  unfold checkParameterValues. rewrite Hmsgs. cbn.
  unfold messages in Hmsgs.
  destruct (date_msgs parameters) as [dates|e] eqn:Hd; [cbn in Hmsgs|discriminate].
  destruct (extent_msgs parameters) as [extent|e] eqn:He; [cbn in Hmsgs|discriminate].
  destruct (output_msgs parameters) as [output|e] eqn:Ho; [cbn in Hmsgs|discriminate].
  injection Hmsgs as <-.
  split; [|split; [|split]].
  - rewrite <- (output_msgs_resolution _ _ Ho). rewrite !elem_of_app.
    split; [|auto]. intros [[[Hm|Hm]|Hm]|Hm]; [| | |exact Hm]; exfalso.
    + unfold product_msgs in Hm. destruct (String.eqb _ _).
      * apply list_elem_of_singleton in Hm. discriminate Hm.
      * by apply elem_of_nil in Hm.
    + destruct (date_msgs_elem _ _ _ Hd Hm) as [H|H]; discriminate H.
    + pose proof (extent_msgs_elem _ _ _ He Hm) as H. discriminate H.
  - exists dates, extent, output. by rewrite <- !app_assoc.
  - intros Hne. destruct ((_ ++ _) ++ output); [congruence|reflexivity].
  - intros ->. reflexivity.
Qed.

(** The message about the order of the dates, for a date range of two
    dates that parse. *)
Lemma date_order_message (parameters : Parameters) (d0 d1 : value)
    (start finish : datetime) :
  PARAM_DATE_RANGE parameters = [d0; d1] ->
  strptime d0 = Ok start ->
  strptime d1 = Ok finish ->
  truthy d0 = true -> truthy d1 = true ->
  date_msgs parameters = Ok (if datetime_gt start finish then [MSG_DATE_ORDER] else []).
Proof.
  intros Hr H0 H1 T0 T1. unfold date_msgs. rewrite Hr. cbn.
  rewrite T0, T1, H0, H1. cbn. by destruct (datetime_gt start finish).
Qed.

(** *** The messages, one by one *)

Lemma product_msgs_elem (parameters : Parameters) (m : string) :
  m ∈ product_msgs parameters -> m = MSG_PRODUCTS.
Proof.
  unfold product_msgs. destruct (String.eqb _ _); intros Hm.
  - by apply list_elem_of_singleton in Hm.
  - by apply elem_of_nil in Hm.
Qed.

Lemma output_msgs_elem (parameters : Parameters) (l : list string) (m : string) :
  output_msgs parameters = Ok l -> m ∈ l -> m = MSG_OUTPUT_RES \/ m = MSG_OUTPUT_CRS.
Proof.
  unfold output_msgs. destruct (output_crs_isValid parameters).
  - destruct (crs_msgs _ _) as [crs|e] eqn:Hcrs; [cbn|discriminate].
    intros [= <-] Hm. apply elem_of_app in Hm as [Hm|Hm].
    + destruct (negb _); [|by apply elem_of_nil in Hm].
      apply list_elem_of_singleton in Hm. by left.
    + right. exact (crs_msgs_elem _ _ _ _ Hcrs Hm).
  - intros [= <-] Hm. by apply elem_of_nil in Hm.
Qed.

(** The four groups of checks, once [messages] has returned. *)
Lemma messages_parts (parameters : Parameters) (msgs : list string) :
  messages parameters = Ok msgs ->
  exists dates extent output : list string,
    date_msgs parameters = Ok dates /\
    extent_msgs parameters = Ok extent /\
    output_msgs parameters = Ok output /\
    msgs = product_msgs parameters ++ dates ++ extent ++ output.
Proof.
  unfold messages.
  destruct (date_msgs parameters) as [dates|e]; [cbn|discriminate].
  destruct (extent_msgs parameters) as [extent|e]; [cbn|discriminate].
  destruct (output_msgs parameters) as [output|e]; [cbn|discriminate].
  intros [= <-]. exists dates, extent, output. by rewrite <- !app_assoc.
Qed.

Lemma crs_msgs_cases (authid msg : string) (l : list string) :
  crs_msgs authid msg = Ok l -> l = [] \/ l = [msg].
Proof.
  unfold crs_msgs. destruct (geometry_CRS authid) as [[]|e].
  - intros [= <-]. by left.
  - destruct (exn_cls e); try discriminate. intros [= <-]. by right.
Qed.

Lemma date_msgs_cases (parameters : Parameters) (l : list string) :
  date_msgs parameters = Ok l -> l = [] \/ l = [MSG_DATES] \/ l = [MSG_DATE_ORDER].
Proof.
  unfold date_msgs.
  destruct (all (PARAM_DATE_RANGE parameters)); cbn [negb andb].
  - destruct (comprehension strptime _) as [ds|e]; [cbn|discriminate].
    destruct (index ds 0) as [d0|e]; [cbn|discriminate].
    destruct (index ds 1) as [d1|e]; [cbn|discriminate].
    destruct (datetime_gt d0 d1); intros [= <-]; auto.
  - destruct (negb _); intros [= <-]; auto.
Qed.

Lemma extent_msgs_cases (parameters : Parameters) (l : list string) :
  extent_msgs parameters = Ok l -> l = [] \/ l = [MSG_EXTENT_CRS].
Proof.
  unfold extent_msgs. destruct (PARAM_EXTENT parameters) as [[[xmin ymin] xmax] ymax].
  destruct (String.eqb _ _).
  - destruct (negb _); intros [= <-]; auto.
  - apply crs_msgs_cases.
Qed.

Lemma output_msgs_cases (parameters : Parameters) (l : list string) :
  output_msgs parameters = Ok l ->
  l = [] \/ l = [MSG_OUTPUT_RES] \/ l = [MSG_OUTPUT_CRS]
  \/ l = [MSG_OUTPUT_RES; MSG_OUTPUT_CRS].
Proof.
  unfold output_msgs. destruct (output_crs_isValid parameters).
  - destruct (crs_msgs _ _) as [crs|e] eqn:Hcrs; [cbn|discriminate].
    destruct (crs_msgs_cases _ _ _ Hcrs) as [->| ->];
      destruct (negb _); intros [= <-]; auto.
  - intros [= <-]. auto.
Qed.

(** Decides [sublist] for lists of distinct messages. *)
Ltac in_this_order :=
  repeat first [apply sublist_nil | apply sublist_skip | apply sublist_cons].

(** X20. The messages come in one fixed order and each at most once; the two
    messages about the dates never come together, so that no more than
    five messages are reported. *)
Theorem messages_in_order (parameters : Parameters) (msgs : list string) :
  messages parameters = Ok msgs ->
  sublist msgs [MSG_PRODUCTS; MSG_DATES; MSG_EXTENT_CRS;
                MSG_OUTPUT_RES; MSG_OUTPUT_CRS] \/
  sublist msgs [MSG_PRODUCTS; MSG_DATE_ORDER; MSG_EXTENT_CRS;
                MSG_OUTPUT_RES; MSG_OUTPUT_CRS].
Proof.
  intros Hmsgs.
  destruct (messages_parts _ _ Hmsgs) as (dates & extent & output & Hd & He & Ho & ->).
  assert (Hp : product_msgs parameters = [] \/ product_msgs parameters = [MSG_PRODUCTS])
    by (unfold product_msgs; destruct (String.eqb _ _); auto).
  destruct Hp as [-> | ->];
    destruct (date_msgs_cases _ _ Hd) as [-> | [-> | ->]];
    destruct (extent_msgs_cases _ _ He) as [-> | ->];
    destruct (output_msgs_cases _ _ Ho) as [-> | [-> | [-> | ->]]];
    cbn [app];
    first [left; solve [in_this_order] | right; solve [in_this_order]].
Qed.

Lemma comprehension_raises {A B} (f : A -> res B) (l : list A) (x : A) (e : exn) :
  x ∈ l -> f x = Raise e ->
  exists x' e', x' ∈ l /\ f x' = Raise e' /\ comprehension f l = Raise e'.
Proof.
  induction l as [|y l IH]; intros Hx Hfx; [by apply elem_of_nil in Hx|].
  cbn [comprehension]. destruct (f y) as [b|e0] eqn:Hfy.
  - apply elem_of_cons in Hx as [->|Hx]; [congruence|].
    destruct (IH Hx Hfx) as (x' & e' & Hx' & Hfx' & ->).
    exists x', e'. split; [by apply list_elem_of_further|done].
  - exists y, e0. split; [apply list_elem_of_here|done].
Qed.

Lemma comprehension_length {A B} (f : A -> res B) (l : list A) :
  (forall x, x ∈ l -> exists y, f x = Ok y) ->
  exists ys, comprehension f l = Ok ys /\ length ys = length l.
Proof.
  induction l as [|x l IH]; intros Hall; [by exists []|].
  destruct (Hall x) as [y Hy]; [apply list_elem_of_here|].
  destruct IH as (ys & Hys & Hlen).
  { intros x' Hx'. apply Hall. by apply list_elem_of_further. }
  exists (y :: ys). cbn. rewrite Hy, Hys. split; [reflexivity|]. by rewrite Hlen.
Qed.

Lemma forallb_false {A} (f : A -> bool) (l : list A) :
  forallb f l = false -> exists x, x ∈ l /\ f x = false.
Proof.
  induction l as [|x l IH]; [discriminate|]. cbn.
  destruct (f x) eqn:Hx; cbn.
  - intros Hl. destruct (IH Hl) as (y & Hy & Hfy).
    exists y. split; [by apply list_elem_of_further|exact Hfy].
  - intros _. exists x. split; [apply list_elem_of_here|exact Hx].
Qed.

(** A date that parses is not the empty string. *)
Lemma strptime_truthy (d : value) (dt : datetime) : strptime d = Ok dt -> truthy d = true.
Proof. destruct d as [| | | |[|c s]| | | |]; try discriminate. reflexivity. Qed.

(** X21. When all the dates are given and one of them does not parse, the
    validation does not return: the exception of the first such date
    leaves [checkParameterValues], and no message is reported. *)
Theorem malformed_date_raises (parameters : Parameters) (d : value) (e : exn) :
  all (PARAM_DATE_RANGE parameters) = true ->
  d ∈ PARAM_DATE_RANGE parameters ->
  strptime d = Raise e ->
  exists d' e',
    d' ∈ PARAM_DATE_RANGE parameters /\ strptime d' = Raise e' /\
    checkParameterValues parameters = Raise e'.
Proof.
  intros Hall Hd Hraise.
  destruct (comprehension_raises strptime _ _ _ Hd Hraise) as (d' & e' & Hd' & He' & Hc).
  exists d', e'. split; [exact Hd'|]. split; [exact He'|].
  unfold checkParameterValues, messages, date_msgs. by rewrite Hall, Hc.
Qed.

(** X22. A date range of fewer than two dates, each of which parses, raises
    [IndexError]; so does the empty list. *)
Theorem short_date_range_raises (parameters : Parameters) :
  length (PARAM_DATE_RANGE parameters) < 2 ->
  (forall d, d ∈ PARAM_DATE_RANGE parameters -> exists dt, strptime d = Ok dt) ->
  checkParameterValues parameters = Raise (Exn IndexError "list index out of range").
Proof.
  intros Hshort Hparse.
  assert (Hall : all (PARAM_DATE_RANGE parameters) = true).
  { apply forallb_forall. intros d Hd. apply list_elem_of_In in Hd.
    destruct (Hparse d Hd) as [dt Hdt]. exact (strptime_truthy _ _ Hdt). }
  destruct (comprehension_length strptime _ Hparse) as (ds & Hds & Hlen).
  unfold checkParameterValues, messages, date_msgs. rewrite Hall, Hds. cbn.
  destruct ds as [|d0 [|d1 ds]]; [reflexivity|reflexivity|].
  cbn in Hlen. lia.
Qed.

(** X23. When exactly each message about the products and the dates is
    reported. *)
Theorem date_messages_exactly (parameters : Parameters) (msgs : list string) :
  messages parameters = Ok msgs ->
  (MSG_PRODUCTS ∈ msgs <-> PARAM_PRODUCTS parameters = "{}") /\
  (MSG_DATES ∈ msgs <->
   (exists d, d ∈ PARAM_DATE_RANGE parameters /\ truthy d = false) /\
   (exists d, d ∈ PARAM_DATE_RANGE parameters /\ truthy d = true)) /\
  (MSG_DATE_ORDER ∈ msgs <->
   all (PARAM_DATE_RANGE parameters) = true /\
   exists ds d0 d1,
     comprehension strptime (PARAM_DATE_RANGE parameters) = Ok ds /\
     ds !! 0 = Some d0 /\ ds !! 1 = Some d1 /\ datetime_gt d0 d1 = true).
Proof.
  intros Hmsgs.
  destruct (messages_parts _ _ Hmsgs) as (dates & extent & output & Hd & He & Ho & ->).
  assert (Hother : forall m, m ∈ extent ++ output ->
            m = MSG_EXTENT_CRS \/ m = MSG_OUTPUT_RES \/ m = MSG_OUTPUT_CRS).
  { intros m Hm. apply elem_of_app in Hm as [Hm|Hm].
    - left. exact (extent_msgs_elem _ _ _ He Hm).
    - right. exact (output_msgs_elem _ _ _ Ho Hm). }
  split; [|split].
  - rewrite !elem_of_app. split.
    + intros [Hm|[Hm|Hm]].
      * unfold product_msgs in Hm. destruct (String.eqb_spec (PARAM_PRODUCTS parameters) "{}");
          [done|by apply elem_of_nil in Hm].
      * destruct (date_msgs_elem _ _ _ Hd Hm) as [H|H]; discriminate H.
      * apply elem_of_app in Hm. destruct (Hother _ Hm) as [H|[H|H]]; discriminate H.
    + intros Hp. left. unfold product_msgs. rewrite Hp. apply list_elem_of_here.
  - assert (Hin : MSG_DATES ∈ product_msgs parameters ++ dates ++ extent ++ output
                  <-> MSG_DATES ∈ dates).
    { rewrite !elem_of_app. split; [|auto]. intros [Hm|[Hm|Hm]]; [|exact Hm|].
      - apply product_msgs_elem in Hm. discriminate Hm.
      - apply elem_of_app in Hm. destruct (Hother _ Hm) as [H|[H|H]]; discriminate H. }
    rewrite Hin. clear Hin. unfold date_msgs in Hd.
    destruct (all (PARAM_DATE_RANGE parameters)) eqn:Hall; cbn [negb andb] in Hd.
    + split.
      * intros Hm. exfalso.
        destruct (comprehension strptime _) as [ds|e]; [cbn in Hd|discriminate].
        destruct (index ds 0) as [d0|e]; [cbn in Hd|discriminate].
        destruct (index ds 1) as [d1|e]; [cbn in Hd|discriminate].
        destruct (datetime_gt d0 d1); injection Hd as <-.
        -- apply list_elem_of_singleton in Hm. discriminate Hm.
        -- by apply elem_of_nil in Hm.
      * intros [(d & Hdin & Hfalse) _]. exfalso.
        apply list_elem_of_In in Hdin.
        unfold all in Hall. rewrite forallb_forall in Hall.
        rewrite (Hall _ Hdin) in Hfalse. discriminate.
    + destruct (forallb (fun d => negb (truthy d)) (PARAM_DATE_RANGE parameters))
        eqn:Hnone; cbn [negb] in Hd; injection Hd as <-.
      * split; [intros Hm; by apply elem_of_nil in Hm|].
        intros [_ (d & Hdin & Htrue)]. exfalso.
        apply list_elem_of_In in Hdin. rewrite forallb_forall in Hnone.
        specialize (Hnone _ Hdin). rewrite Htrue in Hnone. discriminate.
      * split; [intros _|intros _; apply list_elem_of_here].
        split.
        -- unfold all in Hall. apply forallb_false in Hall.
           destruct Hall as (d & Hdin & Hf). by exists d.
        -- apply forallb_false in Hnone.
           destruct Hnone as (d & Hdin & Hf). exists d.
           split; [exact Hdin|]. by destruct (truthy d).
  - assert (Hin : MSG_DATE_ORDER ∈ product_msgs parameters ++ dates ++ extent ++ output
                  <-> MSG_DATE_ORDER ∈ dates).
    { rewrite !elem_of_app. split; [|auto]. intros [Hm|[Hm|Hm]]; [|exact Hm|].
      - apply product_msgs_elem in Hm. discriminate Hm.
      - apply elem_of_app in Hm. destruct (Hother _ Hm) as [H|[H|H]]; discriminate H. }
    rewrite Hin. clear Hin. unfold date_msgs in Hd.
    destruct (all (PARAM_DATE_RANGE parameters)) eqn:Hall; cbn [negb andb] in Hd.
    + destruct (comprehension strptime _) as [ds|e]; [cbn in Hd|discriminate].
      unfold index in Hd.
      destruct (ds !! 0) as [d0|] eqn:H0; [cbn in Hd|discriminate].
      destruct (ds !! 1) as [d1|] eqn:H1; [cbn in Hd|discriminate].
      destruct (datetime_gt d0 d1) eqn:Hgt; injection Hd as <-.
      * split; [intros _|intros _; apply list_elem_of_here].
        split; [reflexivity|]. by exists ds, d0, d1.
      * split; [intros Hm; by apply elem_of_nil in Hm|].
        intros [_ (ds' & d0' & d1' & [= <-] & H0' & H1' & Hgt')]. congruence.
    + split; [|intros [? _]; discriminate].
      intros Hm. exfalso. destruct (negb _); injection Hd as <-.
      * apply list_elem_of_singleton in Hm. discriminate Hm.
      * by apply elem_of_nil in Hm.
Qed.

(** X24. When exactly each message about a coordinate reference system is
    reported: for an extent without CRS, when it is not within the bounds
    of longitude and latitude; for a CRS, when the data cube engine rejects
    it as invalid. The bounds are not looked at when the extent has a CRS. *)
Theorem crs_messages_exactly (parameters : Parameters) (msgs : list string)
    (xmin ymin xmax ymax : float) :
  messages parameters = Ok msgs ->
  PARAM_EXTENT parameters = (xmin, ymin, xmax, ymax) ->
  (MSG_EXTENT_CRS ∈ msgs <->
   (extent_authid parameters = EmptyString /\
    (PrimFloat.leb (-180) xmin && PrimFloat.leb (-90) ymin
     && PrimFloat.leb xmax 180 && PrimFloat.leb ymax 90) = false) \/
   (extent_authid parameters <> EmptyString /\
    exists e, geometry_CRS (extent_authid parameters) = Raise e /\
              exn_cls e = InvalidCRSError)) /\
  (MSG_OUTPUT_CRS ∈ msgs <->
   output_crs_isValid parameters = true /\
   exists e, geometry_CRS (output_crs_authid parameters) = Raise e /\
             exn_cls e = InvalidCRSError).
Proof.
  intros Hmsgs Hext.
  destruct (messages_parts _ _ Hmsgs) as (dates & extent & output & Hd & He & Ho & ->).
  assert (Hcrs : forall authid msg l,
            crs_msgs authid msg = Ok l ->
            msg ∈ l <-> exists e, geometry_CRS authid = Raise e /\
                                  exn_cls e = InvalidCRSError).
  { intros authid msg l. unfold crs_msgs.
    destruct (geometry_CRS authid) as [[]|e] eqn:Hg.
    - intros [= <-]. split; [intros Hm; by apply elem_of_nil in Hm|].
      intros (e & [=] & _).
    - destruct (exn_cls e) eqn:Hcls; try discriminate.
      intros [= <-]. split; [|intros _; apply list_elem_of_here].
      intros _. by exists e. }
  split.
  - assert (Hin : MSG_EXTENT_CRS ∈ product_msgs parameters ++ dates ++ extent ++ output
                  <-> MSG_EXTENT_CRS ∈ extent).
    { rewrite !elem_of_app. split; [|auto]. intros [Hm|[Hm|[Hm|Hm]]]; [| |exact Hm|].
      - apply product_msgs_elem in Hm. discriminate Hm.
      - destruct (date_msgs_elem _ _ _ Hd Hm) as [H|H]; discriminate H.
      - destruct (output_msgs_elem _ _ _ Ho Hm) as [H|H]; discriminate H. }
    rewrite Hin. clear Hin. unfold extent_msgs in He. rewrite Hext in He.
    destruct (String.eqb_spec (extent_authid parameters) EmptyString) as [Hempty|Hcrs'].
    + destruct (_ && _); cbn [negb] in He; injection He as <-.
      * split; [intros Hm; by apply elem_of_nil in Hm|].
        intros [[_ ?]|[? _]]; [discriminate|done].
      * split; [intros _; by left|intros _; apply list_elem_of_here].
    + rewrite (Hcrs _ _ _ He). split; [intros H; by right|].
      intros [[? _]|[_ H]]; [done|exact H].
  - assert (Hin : MSG_OUTPUT_CRS ∈ product_msgs parameters ++ dates ++ extent ++ output
                  <-> MSG_OUTPUT_CRS ∈ output).
    { rewrite !elem_of_app. split; [|auto]. intros [Hm|[Hm|[Hm|Hm]]]; [| | |exact Hm].
      - apply product_msgs_elem in Hm. discriminate Hm.
      - destruct (date_msgs_elem _ _ _ Hd Hm) as [H|H]; discriminate H.
      - pose proof (extent_msgs_elem _ _ _ He Hm) as H. discriminate H. }
    rewrite Hin. clear Hin. unfold output_msgs in Ho.
    destruct (output_crs_isValid parameters).
    + destruct (crs_msgs _ _) as [crs|e] eqn:Hc; [cbn in Ho|discriminate].
      injection Ho as <-. rewrite elem_of_app, (Hcrs _ _ _ Hc).
      split; [|intros [_ H]; by right].
      intros [Hm|H]; [|done]. exfalso.
      destruct (negb _); [|by apply elem_of_nil in Hm].
      apply list_elem_of_singleton in Hm. discriminate Hm.
    + injection Ho as <-. split; [intros Hm; by apply elem_of_nil in Hm|].
      intros [? _]. discriminate.
Qed.

End Validation.
(** *** The export loop *)

(** The calls of [execute]: on the host's feedback object, and into
    [utils.py]. *)
Inductive event : Type :=
| SetProgress (percent : Z)
| SetProgressText (text : string)
| PushInfo (info : string)
| ReportError (msg : string)
| IsCanceled (answer : bool)
| BuildQuery (product : string) (measurements : value)
| RunQuery (query config_file max_datasets : value)
| WriteGeotiff (raster_path : string) (time_index : nat) (profile_override : value)
| UpdateTags (raster_path : string) (TIFFTAG_DATETIME : string)
| BuildOverviews (raster_path : string) (overview_options : value)
| CalculateStatistics (raster_path : string) (approx_ok : value).

(** What the loop over the timesteps leaves to the loop over the products:
    to go on with the next product, or to return from [execute]. *)
Inductive flow : Type :=
| Next (output_layers : gmap string string)
| Return (output_layers : gmap string string).

(** [except (NoDataError, TooManyDatasetsError, OSError)] *)
Definition retrieval_error (e : exn) : bool :=
  match exn_cls e with
  | NoDataError | TooManyDatasetsError | OSError => true
  | _ => false
  end.

(** Closes a goal from [Hin : e ∈ l] when no call of [l] is [e]. *)
Ltac no_such_event Hin :=
  cbn in Hin;
  repeat (apply elem_of_cons in Hin as [Hin|Hin]; [discriminate Hin|]);
  apply elem_of_nil in Hin; exact Hin.

Section Execute.

(** The functions [execute] calls and does not define: the query builder
    and the query engine of [utils.py], [repr], the formatting of local
    time and [template.format(arg)], which may raise, [str(Path(a, b))],
    the answer of [feedback.isCanceled()], and the outcome of a call of
    [write_geotiff], [update_tags], [build_overviews] or
    [calculate_statistics]. The last two may depend on all that happened
    so far. *)
Context (build_query :
           string -> value -> value -> value -> value -> value -> value ->
           value -> value -> value -> res value)
        (run_query : value -> value -> value -> res Utils.Dataset)
        (repr : value -> string)
        (strftime_local : Z -> string -> res string)
        (Path_str : string -> string -> string)
        (format : string -> string -> res string)
        (isCanceled : list event -> bool)
        (utils : list event -> event -> res unit).

(** The arguments of [execute] other than [products] and [feedback]. *)
Context (date_range extent extent_crs output_crs output_res : value)
        (output_folder : string)
        (config_file dask_chunks overviews calc_stats approx_ok : value)
        (gtiff_options gtiff_ovr_options group_by fuse_func max_datasets : value).

(** [feedback.isCanceled()] *)
Definition poll : M event bool :=
  fun t => let answer := isCanceled t in (t ++ [IsCanceled answer], Ok answer).

(** A call into [utils.py]: it is recorded, and returns or raises. *)
Definition call (e : event) : M event unit :=
  fun t => (t ++ [e], utils t e).

(** [int(k * progress_total)] *)
Definition percent (k : nat) (progress_total : float) : Z :=
  int_of_float (float_of_N (N.of_nat k) * progress_total).

(** The body of the [try] statement. *)
Definition retrieve (product : string) (measurements : value) : M event Utils.Dataset :=
  do! emit (BuildQuery product measurements) in
  let! query :=
    lift (build_query product measurements date_range extent extent_crs
            output_crs output_res dask_chunks group_by fuse_func) in
  do! emit (PushInfo ("Query: " +:+ repr query)) in
  do! emit (RunQuery query config_file max_datasets) in
  lift (run_query query config_file max_datasets).

Definition datetime_to_str := Utils.datetime_to_str strftime_local.

(** [ds] and [tag] of a timestep: with the time of day when the data is
    not grouped, the date alone otherwise. *)
Definition ds_of (dt : Z) : res string :=
  match group_by with
  | VNone => datetime_to_str dt "%Y-%m-%d_%H-%M-%S"
  | _ => datetime_to_str dt "%Y-%m-%d"
  end.

Definition tag_of (dt : Z) : res string :=
  match group_by with
  | VNone => datetime_to_str dt "%Y:%m:%d %H:%M:%S"
  | _ => datetime_to_str dt "%Y:%m:%d"
  end.

(** The body of the loop over the timesteps, up to its progress report:
    the map with the entry of the timestep. *)
Definition export_timestep (progress_total : float) (idx : nat)
    (basename basepath : string) (i : nat) (dt : Z)
    (output_layers : gmap string string) : M event (gmap string string) :=
  let! ds := lift (ds_of dt) in
  let! tag := lift (tag_of dt) in
  let! path := lift (format basepath ds) in
  let raster_path := path +:+ ".tif" in
  do! call (WriteGeotiff raster_path i gtiff_options) in
  do! call (UpdateTags raster_path tag) in
  do! (if truthy overviews
       then call (BuildOverviews raster_path gtiff_ovr_options) else ret tt) in
  do! (if truthy calc_stats
       then call (CalculateStatistics raster_path approx_ok) else ret tt) in
  let! lyr_name := lift (format basename ds) in
  let output_layers := <[raster_path := lyr_name]> output_layers in
  do! emit (SetProgress (percent (idx * 10 + i + 1) progress_total)) in
  ret output_layers.

(** [for i, dt in enumerate(data.time)], from index [i] on. *)
Fixpoint save_outputs (progress_total : float) (idx : nat)
    (basename basepath : string) (i : nat) (times : list Z)
    (output_layers : gmap string string) : M event flow :=
  match times with
  | [] => ret (Next output_layers)
  | dt :: rest =>
      let! output_layers :=
        export_timestep progress_total idx basename basepath i dt output_layers in
      let! canceled := poll in
      if canceled then ret (Return output_layers)
      else save_outputs progress_total idx basename basepath (S i) rest output_layers
  end.

Definition basename_of (product : string) : string := product +:+ "_{}".

Definition basepath_of (product : string) : string :=
  Path_str output_folder (basename_of product).

(** [for idx, (product, measurements) in enumerate(products.items())], from
    index [idx] on, and the final [return output_layers]. *)
Fixpoint process_products (progress_total : float) (idx : nat)
    (items : list (string * value)) (output_layers : gmap string string)
    : M event (gmap string string) :=
  match items with
  | [] => ret output_layers
  | (product, measurements) :: rest =>
      let! canceled := poll in
      if canceled then ret output_layers
      else
        do! emit (SetProgressText ("Processing " +:+ product)) in
        let! data := try_except retrieval_error (retrieve product measurements) in
        match data with
        | inl err =>
            do! emit (ReportError ("Error encountered processing " +:+ product
                                   +:+ ": " +:+ exn_msg err)) in
            do! emit (SetProgress (percent ((idx + 1) * 10) progress_total)) in
            process_products progress_total (S idx) rest output_layers
        | inr data =>
            let basename := basename_of product in
            let basepath := basepath_of product in
            do! emit (SetProgressText ("Saving outputs for " +:+ product)) in
            let! saved :=
              save_outputs progress_total idx basename basepath 0
                (Utils.time data) output_layers in
            match saved with
            | Return output_layers => ret output_layers
            | Next output_layers =>
                do! emit (SetProgress (percent ((idx + 1) * 10) progress_total)) in
                process_products progress_total (S idx) rest output_layers
            end
        end
  end.

(** [100 / (10*len(products))] *)
Definition progress_total_of (products : list (string * value)) : float :=
  (100 / float_of_N (10 * N.of_nat (length products)))%float.

(** [products] is [products.items()], in the dictionary's order. The
    computation starts with the trace of what happened before the call. *)
Definition execute (products : list (string * value))
    : M event (gmap string string) :=
  let output_layers : gmap string string := ∅ in
  if is_nil products then raise (Exn ZeroDivisionError "division by zero")
  else
    let progress_total := progress_total_of products in
    do! emit (SetProgress 0) in
    process_products progress_total 0 products output_layers.

(** *** Where a run of [execute] is *)

(** The run of [execute] on [products], begun with the trace [t], has come
    to iteration [idx] of the loop over the products with the map
    [output_layers] and the trace [u]: what [execute] does is what the loop
    does from there. *)
Definition at_product (products : list (string * value)) (t : list event)
    (idx : nat) (output_layers : gmap string string) (u : list event) : Prop :=
  execute products t
  = process_products (progress_total_of products) idx (drop idx products)
      output_layers u.

(** What follows the loop over the timesteps of the product at [idx]. *)
Definition finish_product (products : list (string * value)) (idx : nat)
    (saved : flow) : M event (gmap string string) :=
  match saved with
  | Return output_layers => ret output_layers
  | Next output_layers =>
      do! emit (SetProgress (percent ((idx + 1) * 10) (progress_total_of products))) in
      process_products (progress_total_of products) (S idx)
        (drop (S idx) products) output_layers
  end.

(** The run has come, for the product at [idx], to the timestep [i], with
    the timesteps [times] still to do. *)
Definition at_timestep (products : list (string * value)) (t : list event)
    (idx : nat) (product : string) (i : nat) (times : list Z)
    (output_layers : gmap string string) (u : list event) : Prop :=
  execute products t
  = (let! saved :=
       save_outputs (progress_total_of products) idx (basename_of product)
         (basepath_of product) i times output_layers in
     finish_product products idx saved) u.





(** The files written by a list of calls, each with its time index. *)
Fixpoint written (calls : list event) : list (string * nat) :=
  match calls with
  | [] => []
  | WriteGeotiff raster_path i _ :: rest => (raster_path, i) :: written rest
  | _ :: rest => written rest
  end.

(** *** What every run of the export loop keeps *)

Definition written_path (e : event) : option string :=
  match e with WriteGeotiff raster_path _ _ => Some raster_path | _ => None end.

Definition tagged_path (e : event) : option string :=
  match e with UpdateTags raster_path _ => Some raster_path | _ => None end.

Definition overview_path (e : event) : option string :=
  match e with BuildOverviews raster_path _ => Some raster_path | _ => None end.

Definition statistics_path (e : event) : option string :=
  match e with CalculateStatistics raster_path _ => Some raster_path | _ => None end.

Definition queried_product (e : event) : option string :=
  match e with BuildQuery product _ => Some product | _ => None end.

(** Every file that was written was tagged, and had its overviews built
    and its statistics computed when these are switched on: the files of
    each step are the files written, in the same order. *)
Definition post_processed (calls : list event) : Prop :=
  omap tagged_path calls = omap written_path calls /\
  omap overview_path calls
  = (if truthy overviews then omap written_path calls else []) /\
  omap statistics_path calls
  = (if truthy calc_stats then omap written_path calls else []).

(** A call into [utils.py] carries the options that [execute] was given. *)
Definition carries_options (e : event) : Prop :=
  match e with
  | RunQuery _ config max => config = config_file /\ max = max_datasets
  | WriteGeotiff _ _ options => options = gtiff_options
  | BuildOverviews _ options => options = gtiff_ovr_options
  | CalculateStatistics _ approx => approx = approx_ok
  | _ => True
  end.

(** An exception of the export of a timestep: of the formatting of a
    time, of the formatting of a name, or of a call into [utils.py]. *)
Definition export_error (e : exn) : Prop :=
  (exists dt str_format, datetime_to_str dt str_format = Raise e) \/
  (exists template arg, format template arg = Raise e) \/
  (exists u c, utils u c = Raise e).

(** An exception of the body of the [try] statement for a product: the call
    that raised it is the last call of the trace [t']. *)
Definition retrieve_error (product : string) (measurements : value)
    (t' : list event) (e : exn) : Prop :=
  (build_query product measurements date_range extent extent_crs output_crs
     output_res dask_chunks group_by fuse_func = Raise e /\
   last t' = Some (BuildQuery product measurements)) \/
  (exists query,
     build_query product measurements date_range extent extent_crs output_crs
       output_res dask_chunks group_by fuse_func = Ok query /\
     run_query query config_file max_datasets = Raise e /\
     last t' = Some (RunQuery query config_file max_datasets)).

(** An exception of the retrieval that the loop does not handle. *)
Definition query_error (items : list (string * value)) (t' : list event)
    (e : exn) : Prop :=
  retrieval_error e = false /\
  exists product measurements,
    (product, measurements) ∈ items /\ retrieve_error product measurements t' e.

Definition layers_of (saved : flow) : gmap string string :=
  match saved with Next output_layers | Return output_layers => output_layers end.

Lemma post_processed_app (calls1 calls2 : list event) :
  post_processed calls1 -> post_processed calls2 -> post_processed (calls1 ++ calls2).
Proof.
  unfold post_processed. rewrite !omap_app.
  intros (-> & -> & ->) (-> & -> & ->).
  by destruct (truthy overviews), (truthy calc_stats).
Qed.

(** Calls on [feedback] and to the query functions write no file. *)
Ltac no_file_call :=
  unfold post_processed; cbn;
  destruct (truthy overviews), (truthy calc_stats); done.

(** Closes an equation between unions of sets of files. *)
Ltac same_files :=
  cbn; rewrite ?dom_insert_L, ?dom_empty_L;
  rewrite ?(left_id_L (∅ : gset string) (∪)), ?(right_id_L (∅ : gset string) (∪));
  rewrite ?(assoc_L (∪));
  first [reflexivity | apply (comm_L (∪)) | f_equal; apply (comm_L (∪))].

Lemma ds_of_error (dt : Z) (e : exn) : ds_of dt = Raise e -> export_error e.
Proof. unfold ds_of. intros H. left. destruct group_by; eauto. Qed.

Lemma tag_of_error (dt : Z) (e : exn) : tag_of dt = Raise e -> export_error e.
Proof. unfold tag_of. intros H. left. destruct group_by; eauto. Qed.

(** The exception of a computation, when it raised. *)
Definition raised {A} (r : res A) : option exn :=
  match r with Ok _ => None | Raise e => Some e end.

(** The run ended with the exception of a call into [utils.py]. *)
Definition utils_error (o : option exn) : Prop :=
  exists e u c, o = Some e /\ utils u c = Raise e.

(** What a run of a part of the loop keeps: the calls carry the options,
    and every file written is post-processed, unless the run ended with
    the exception of a call into [utils.py]. *)
Definition kept (calls : list event) (o : option exn) : Prop :=
  Forall carries_options calls /\ (post_processed calls \/ utils_error o).

Lemma kept_nil (o : option exn) : kept [] o.
Proof. split; [constructor|]. left. no_file_call. Qed.

Lemma kept_app (calls1 calls2 : list event) (o : option exn) :
  kept calls1 None -> kept calls2 o -> kept (calls1 ++ calls2) o.
Proof.
  intros [Hopt1 [Hpost1|(e & u & c & Hnone & _)]] [Hopt2 Hpost2];
    [|discriminate Hnone].
  split; [apply Forall_app; by split|].
  destruct Hpost2 as [Hpost2|Herr]; [left|by right].
  by apply post_processed_app.
Qed.

Lemma kept_any (calls : list event) (o : option exn) :
  kept calls None -> kept calls o.
Proof.
  intros [Hopt [Hpost|(e & u & c & Hnone & _)]]; [|discriminate Hnone].
  split; [exact Hopt|by left].
Qed.

(** Calls on [feedback], and to the query functions with the options. *)
Ltac feedback_calls := split; [by repeat constructor|left; no_file_call].

Lemma export_timestep_keeps (progress_total : float) (idx : nat)
    (basename basepath : string) (i : nat) (dt : Z)
    (output_layers : gmap string string) (t : list event) :
  exists calls r,
    export_timestep progress_total idx basename basepath i dt output_layers t
    = (t ++ calls, r) /\
    kept calls (raised r) /\
    omap queried_product calls = [] /\
    (forall saved, r = Ok saved ->
       dom saved = dom output_layers ∪ list_to_set (omap written_path calls)) /\
    (forall e, r = Raise e -> export_error e).
Proof.
  assert (Hearly : forall e0 : exn,
            export_error e0 ->
            exists calls r,
              (t, @Raise (gmap string string) e0) = (t ++ calls, r) /\
              kept calls (raised r) /\
              omap queried_product calls = [] /\
              (forall saved, r = Ok saved ->
                 dom saved = dom output_layers ∪ list_to_set (omap written_path calls)) /\
              (forall e, r = Raise e -> export_error e)).
  { intros e0 He0. exists [], (Raise e0). rewrite app_nil_r.
    split; [reflexivity|]. split; [apply kept_nil|]. split; [reflexivity|].
    split; [discriminate|]. by intros e [= <-]. }
  unfold export_timestep.
  unfold bind at 1. unfold lift at 1.
  destruct (ds_of dt) as [ds|e0] eqn:Hds;
    [|apply Hearly; by eapply ds_of_error].
  unfold bind at 1. unfold lift at 1.
  destruct (tag_of dt) as [tag|e0] eqn:Htag;
    [|apply Hearly; by eapply tag_of_error].
  unfold bind at 1. unfold lift at 1.
  destruct (format basepath ds) as [path|e0] eqn:Hpath;
    [|apply Hearly; right; left; eauto].
  clear Hearly. unfold kept, post_processed, utils_error.
  destruct (truthy overviews) eqn:Hoverviews, (truthy calc_stats) eqn:Hstats.
  all: unfold bind, call, lift, emit, ret;
    repeat match goal with
           | |- context [utils ?u ?c] =>
               let Hcall := fresh "Hcall" in
               destruct (utils u c) as [[]|?] eqn:Hcall
           end;
    try (destruct (format basename ds) as [lyr_name|?] eqn:Hlyr);
    rewrite <- ?app_assoc; cbn [app];
    eexists _, _; (split; [reflexivity|]).
  all: split;
    [split;
       [by repeat constructor
       |first [by left; cbn; repeat split
              |by right; eexists _, _, _; split; [reflexivity|eassumption]]]
    |].
  all: split; [reflexivity|].
  all: split;
    [intros saved Hsaved; try discriminate Hsaved;
     injection Hsaved as <-; same_files|].
  all: intros e1 He; try discriminate He; injection He as <-.
  all: first [by right; right; eauto | by right; left; eauto].
Qed.

Lemma save_outputs_step (progress_total : float) (idx : nat)
    (basename basepath : string) (i : nat) (dt : Z) (rest : list Z)
    (output_layers : gmap string string) (t : list event) :
  save_outputs progress_total idx basename basepath i (dt :: rest) output_layers t
  = match export_timestep progress_total idx basename basepath i dt
            output_layers t with
    | (u, Ok saved) =>
        if isCanceled u then (u ++ [IsCanceled true], Ok (Return saved))
        else save_outputs progress_total idx basename basepath (S i) rest saved
               (u ++ [IsCanceled false])
    | (u, Raise e) => (u, Raise e)
    end.
Proof.
  cbn [save_outputs]. unfold bind at 1.
  destruct (export_timestep _ _ _ _ _ _ _ _) as [u [saved|e]]; [|reflexivity].
  unfold bind, poll, ret. by destruct (isCanceled u).
Qed.

Lemma save_outputs_keeps (progress_total : float) (idx : nat)
    (basename basepath : string) (times : list Z) (i : nat)
    (output_layers : gmap string string) (t : list event) :
  exists calls r,
    save_outputs progress_total idx basename basepath i times output_layers t
    = (t ++ calls, r) /\
    kept calls (raised r) /\
    omap queried_product calls = [] /\
    (forall saved, r = Ok saved ->
       dom (layers_of saved)
       = dom output_layers ∪ list_to_set (omap written_path calls)) /\
    (forall e, r = Raise e -> export_error e).
Proof.
  revert i output_layers t.
  induction times as [|dt rest IH]; intros i output_layers t.
  { exists [], (Ok (Next output_layers)). cbn. unfold ret. rewrite app_nil_r.
    split; [reflexivity|]. split; [apply kept_nil|]. split; [reflexivity|].
    split; [intros saved [= <-]; same_files|discriminate]. }
  rewrite save_outputs_step.
  destruct (export_timestep_keeps progress_total idx basename basepath i dt
              output_layers t)
    as (calls1 & r1 & -> & Hkept1 & Hqueried1 & Hdom1 & Herr1).
  destruct r1 as [saved1|e1].
  2: { exists calls1, (Raise e1). split; [reflexivity|]. split; [exact Hkept1|].
       split; [exact Hqueried1|]. split; [discriminate|].
       intros e [= <-]. by apply Herr1. }
  cbn [raised] in Hkept1. specialize (Hdom1 _ eq_refl).
  destruct (isCanceled (t ++ calls1)).
  - exists (calls1 ++ [IsCanceled true]), (Ok (Return saved1)).
    split; [by rewrite app_assoc|].
    split; [apply kept_app; [exact Hkept1|feedback_calls]|].
    split; [by rewrite omap_app, Hqueried1|].
    split; [|discriminate].
    intros saved [= <-]. cbn [layers_of]. rewrite Hdom1, omap_app.
    cbn. by rewrite app_nil_r.
  - destruct (IH (S i) saved1 ((t ++ calls1) ++ [IsCanceled false]))
      as (calls2 & r2 & -> & Hkept2 & Hqueried2 & Hdom2 & Herr2).
    exists (calls1 ++ IsCanceled false :: calls2), r2.
    split; [by rewrite <- !app_assoc|].
    split.
    { apply kept_app; [exact Hkept1|].
      apply (kept_app [IsCanceled false]); [feedback_calls|exact Hkept2]. }
    split; [rewrite omap_app, Hqueried1; exact Hqueried2|].
    split; [|exact Herr2].
    intros saved Hsaved. rewrite (Hdom2 _ Hsaved), Hdom1, omap_app.
    cbn. rewrite list_to_set_app_L. same_files.
Qed.

Lemma retrieve_keeps (product : string) (measurements : value) (t : list event) :
  exists calls r,
    retrieve product measurements t = (t ++ calls, r) /\
    kept calls None /\
    omap written_path calls = [] /\
    omap queried_product calls = [product] /\
    (forall answer, IsCanceled answer ∉ calls) /\
    (forall e, r = Raise e -> retrieve_error product measurements (t ++ calls) e).
Proof.
  unfold retrieve, retrieve_error, bind, emit, lift.
  destruct (build_query _ _ _ _ _ _ _ _ _ _) as [query|e0]; cbn.
  - eexists [_; _; _], _. rewrite <- !app_assoc.
    split; [reflexivity|]. split; [feedback_calls|]. split; [reflexivity|].
    split; [reflexivity|]. split; [intros answer Hin; no_such_event Hin|].
    intros e He. right. exists query. split; [reflexivity|].
    split; [exact He|].
    by rewrite last_app.
  - eexists [_], _. split; [reflexivity|]. split; [feedback_calls|].
    split; [reflexivity|]. split; [reflexivity|].
    split; [intros answer Hin; no_such_event Hin|].
    intros e [= <-]. left. split; [reflexivity|]. by rewrite last_snoc.
Qed.


(** One iteration of the loop over the products, with the trace written out. *)
Lemma process_products_step (progress_total : float) (idx : nat)
    (product : string) (measurements : value) (rest : list (string * value))
    (output_layers : gmap string string) (t : list event) :
  process_products progress_total idx ((product, measurements) :: rest) output_layers t
  = if isCanceled t then (t ++ [IsCanceled true], Ok output_layers)
    else
      match retrieve product measurements
              (t ++ [IsCanceled false; SetProgressText ("Processing " +:+ product)]) with
      | (t2, Raise err) =>
          if retrieval_error err then
            process_products progress_total (S idx) rest output_layers
              (t2 ++ [ReportError ("Error encountered processing " +:+ product
                                   +:+ ": " +:+ exn_msg err);
                      SetProgress (percent ((idx + 1) * 10) progress_total)])
          else (t2, Raise err)
      | (t2, Ok data) =>
          match save_outputs progress_total idx (basename_of product)
                  (basepath_of product) 0 (Utils.time data) output_layers
                  (t2 ++ [SetProgressText ("Saving outputs for " +:+ product)]) with
          | (t3, Ok (Return saved)) => (t3, Ok saved)
          | (t3, Ok (Next saved)) =>
              process_products progress_total (S idx) rest saved
                (t3 ++ [SetProgress (percent ((idx + 1) * 10) progress_total)])
          | (t3, Raise e) => (t3, Raise e)
          end
      end.
Proof.
  cbn [process_products]. unfold bind at 1. unfold poll at 1.
  destruct (isCanceled t); [reflexivity|].
  unfold bind at 1. unfold emit at 1. rewrite <- app_assoc. cbn [app].
  unfold bind at 1. unfold try_except.
  destruct (retrieve product measurements _) as [t2 [data|err]].
  - unfold bind at 1. unfold emit at 1. unfold bind at 1.
    destruct (save_outputs _ _ _ _ _ _ _ _) as [t3 [[saved|saved]|e]]; try reflexivity.
  - destruct (retrieval_error err); [|reflexivity].
    unfold bind at 1. unfold emit at 1. unfold bind at 1. unfold emit at 1.
    rewrite <- app_assoc. reflexivity.
Qed.

Lemma process_products_keeps (progress_total : float)
    (items : list (string * value)) (idx : nat)
    (output_layers : gmap string string) (t : list event) :
  exists calls r,
    process_products progress_total idx items output_layers t = (t ++ calls, r) /\
    kept calls (raised r) /\
    omap queried_product calls `prefix_of` map fst items /\
    (forall saved, r = Ok saved ->
       dom saved = dom output_layers ∪ list_to_set (omap written_path calls)).
Proof.
  revert idx output_layers t.
  induction items as [|[product measurements] rest IH]; intros idx output_layers t.
  { exists [], (Ok output_layers). cbn. unfold ret. rewrite app_nil_r.
    split; [reflexivity|]. split; [apply kept_nil|]. split; [reflexivity|].
    intros saved [= <-]; same_files. }
  rewrite process_products_step. destruct (isCanceled t).
  { exists [IsCanceled true], (Ok output_layers). split; [reflexivity|].
    split; [feedback_calls|]. split; [apply prefix_nil|].
    intros saved [= <-]; same_files. }
  set (start := [IsCanceled false; SetProgressText ("Processing " +:+ product)]).
  assert (Hstart : kept start None) by feedback_calls.
  destruct (retrieve_keeps product measurements (t ++ start))
    as (calls1 & r1 & -> & Hkept1 & Hwritten1 & Hqueried1 & _ & _).
  destruct r1 as [data|err].
  - set (saving := [SetProgressText ("Saving outputs for " +:+ product)]).
    assert (Hsaving : kept saving None) by feedback_calls.
    destruct (save_outputs_keeps progress_total idx (basename_of product)
                (basepath_of product) (Utils.time data) 0 output_layers
                (((t ++ start) ++ calls1) ++ saving))
      as (calls2 & r2 & -> & Hkept2 & Hqueried2 & Hdom2 & _).
    assert (Hkept12 : kept (start ++ calls1 ++ saving ++ calls2) (raised r2)).
    { apply kept_app; [exact Hstart|]. apply kept_app; [exact Hkept1|].
      by apply kept_app. }
    destruct r2 as [[saved|saved]|e].
    + specialize (Hdom2 _ eq_refl). cbn [layers_of] in Hdom2.
      set (done := [SetProgress (percent ((idx + 1) * 10) progress_total)]).
      destruct (IH (S idx) saved
                  (((((t ++ start) ++ calls1) ++ saving) ++ calls2) ++ done))
        as (calls3 & r & -> & Hkept3 & Hqueried3 & Hdom3).
      exists (start ++ calls1 ++ saving ++ calls2 ++ done ++ calls3), r.
      split; [by rewrite <- !app_assoc|].
      split; [|split].
      * rewrite !app_assoc. apply kept_app; [|exact Hkept3].
        apply kept_app; [|feedback_calls].
        rewrite <- !app_assoc. exact Hkept12.
      * rewrite !omap_app, Hqueried1, Hqueried2. cbn. by apply prefix_cons.
      * intros final Hfinal. rewrite (Hdom3 _ Hfinal), Hdom2.
        rewrite !omap_app, Hwritten1, !list_to_set_app_L. same_files.
    + specialize (Hdom2 _ eq_refl). cbn [layers_of] in Hdom2.
      exists (start ++ calls1 ++ saving ++ calls2), (Ok saved).
      split; [by rewrite <- !app_assoc|].
      split; [exact Hkept12|]. split.
      * rewrite !omap_app, Hqueried1, Hqueried2. cbn. apply prefix_cons, prefix_nil.
      * intros final [= <-]. rewrite Hdom2.
        rewrite !omap_app, Hwritten1, !list_to_set_app_L. same_files.
    + exists (start ++ calls1 ++ saving ++ calls2), (Raise e).
      split; [by rewrite <- !app_assoc|].
      split; [exact Hkept12|]. split; [|discriminate].
      rewrite !omap_app, Hqueried1, Hqueried2. cbn. apply prefix_cons, prefix_nil.
  - destruct (retrieval_error err).
    + set (skipped := [ReportError ("Error encountered processing " +:+ product
                                    +:+ ": " +:+ exn_msg err);
                       SetProgress (percent ((idx + 1) * 10) progress_total)]).
      destruct (IH (S idx) output_layers (((t ++ start) ++ calls1) ++ skipped))
        as (calls3 & r & -> & Hkept3 & Hqueried3 & Hdom3).
      exists (start ++ calls1 ++ skipped ++ calls3), r.
      split; [by rewrite <- !app_assoc|].
      split; [|split].
      * apply kept_app; [exact Hstart|]. apply kept_app; [exact Hkept1|].
        apply kept_app; [feedback_calls|exact Hkept3].
      * rewrite !omap_app, Hqueried1. cbn. by apply prefix_cons.
      * intros final Hfinal. rewrite (Hdom3 _ Hfinal).
        by rewrite !omap_app, Hwritten1.
    + exists (start ++ calls1), (Raise err).
      split; [by rewrite <- !app_assoc|].
      split; [|split; [|discriminate]].
      * apply kept_app; [exact Hstart|].
        by apply kept_any.
      * rewrite !omap_app, Hqueried1. cbn. apply prefix_cons, prefix_nil.
Qed.

(** *** The exceptions of a run *)

Lemma save_outputs_raises (progress_total : float) (idx : nat)
    (basename basepath : string) (times : list Z) (i : nat)
    (output_layers : gmap string string) (t t' : list event) (e : exn) :
  save_outputs progress_total idx basename basepath i times output_layers t
  = (t', Raise e) ->
  export_error e.
Proof.
  destruct (save_outputs_keeps progress_total idx basename basepath times i
              output_layers t) as (calls & r & -> & _ & _ & _ & Herr).
  intros [= _ ->]. by apply Herr.
Qed.

Lemma query_error_further (item : string * value) (items : list (string * value))
    (t' : list event) (e : exn) :
  query_error items t' e -> query_error (item :: items) t' e.
Proof.
  intros (Hclass & product & measurements & Hin & Hcall).
  split; [exact Hclass|]. exists product, measurements.
  split; [by apply list_elem_of_further|exact Hcall].
Qed.

Lemma process_products_raises (progress_total : float)
    (items : list (string * value)) (idx : nat)
    (output_layers : gmap string string) (t t' : list event) (e : exn) :
  process_products progress_total idx items output_layers t = (t', Raise e) ->
  query_error items t' e \/ export_error e.
Proof.
  revert idx output_layers t.
  induction items as [|[product measurements] rest IH]; intros idx output_layers t.
  { discriminate. }
  assert (Hrest : forall idx' layers u,
            process_products progress_total idx' rest layers u = (t', Raise e) ->
            query_error ((product, measurements) :: rest) t' e \/ export_error e).
  { intros idx' layers u Hu.
    destruct (IH _ _ _ Hu) as [Hquery|Hexport]; [left|by right].
    by apply query_error_further. }
  rewrite process_products_step. destruct (isCanceled t); [discriminate|].
  destruct (retrieve_keeps product measurements
              (t ++ [IsCanceled false; SetProgressText ("Processing " +:+ product)]))
    as (calls1 & r1 & -> & _ & _ & _ & _ & Herr1).
  destruct r1 as [data|err].
  - destruct (save_outputs _ _ _ _ _ _ _ _) as [t3 [[saved|saved]|e3]] eqn:Hsave;
      [apply Hrest|discriminate|].
    intros [= <- <-]. right. exact (save_outputs_raises _ _ _ _ _ _ _ _ _ _ Hsave).
  - destruct (retrieval_error err) eqn:Hclass; [apply Hrest|].
    intros [= <- <-]. left. split; [exact Hclass|].
    exists product, measurements. split; [apply list_elem_of_here|].
    by apply Herr1.
Qed.

(** *** Cancellation in a whole run *)

(** A trace in which no poll has reported a cancellation. *)
Definition uncancelled (t : list event) : Prop := IsCanceled true ∉ t.

Lemma uncancelled_app (t calls : list event) :
  uncancelled t -> (forall answer, IsCanceled answer ∉ calls) -> uncancelled (t ++ calls).
Proof.
  unfold uncancelled. intros Ht Hc Hin. apply elem_of_app in Hin as [Hin|Hin].
  - by apply Ht.
  - by apply (Hc true).
Qed.

Lemma uncancelled_poll (t : list event) :
  uncancelled t -> uncancelled (t ++ [IsCanceled false]).
Proof.
  unfold uncancelled. intros Ht Hin. apply elem_of_app in Hin as [Hin|Hin].
  - by apply Ht.
  - apply list_elem_of_singleton in Hin. discriminate Hin.
Qed.

(** The export of a timestep does not poll. *)
Lemma export_timestep_no_poll (progress_total : float) (idx : nat)
    (basename basepath : string) (i : nat) (dt : Z)
    (output_layers : gmap string string) (t : list event) :
  exists calls r,
    export_timestep progress_total idx basename basepath i dt output_layers t
    = (t ++ calls, r) /\
    forall answer, IsCanceled answer ∉ calls.
Proof.
  unfold export_timestep.
  unfold bind at 1. unfold lift at 1.
  destruct (ds_of dt) as [ds|e0].
  2: { exists [], (Raise e0). rewrite app_nil_r. split; [reflexivity|].
       intros answer. apply not_elem_of_nil. }
  unfold bind at 1. unfold lift at 1.
  destruct (tag_of dt) as [tag|e0].
  2: { exists [], (Raise e0). rewrite app_nil_r. split; [reflexivity|].
       intros answer. apply not_elem_of_nil. }
  unfold bind at 1. unfold lift at 1.
  destruct (format basepath ds) as [path|e0].
  2: { exists [], (Raise e0). rewrite app_nil_r. split; [reflexivity|].
       intros answer. apply not_elem_of_nil. }
  destruct (truthy overviews), (truthy calc_stats).
  all: unfold bind, call, lift, emit, ret;
    repeat match goal with
           | |- context [utils ?u ?c] => destruct (utils u c) as [[]|?]
           end;
    try (destruct (format basename ds) as [lyr_name|?]);
    rewrite <- ?app_assoc; cbn [app];
    eexists _, _; (split; [reflexivity|]);
    intros answer Hin; no_such_event Hin.
Qed.

(** The loop over the timesteps either ends with no cancellation reported,
    or returns at the poll that reported one, which is the last call. *)
Lemma save_outputs_cancel (progress_total : float) (idx : nat)
    (basename basepath : string) (times : list Z) (i : nat)
    (output_layers : gmap string string) (t t' : list event) (r : res flow) :
  uncancelled t ->
  save_outputs progress_total idx basename basepath i times output_layers t = (t', r) ->
  (uncancelled t' /\ forall saved, r <> Ok (Return saved)) \/
  (exists pre saved,
     t' = pre ++ [IsCanceled true] /\ uncancelled pre /\ r = Ok (Return saved)).
Proof.
  revert i output_layers t.
  induction times as [|dt rest IH]; intros i output_layers t Ht.
  - cbn. unfold ret. intros [= <- <-]. left. by split.
  - rewrite save_outputs_step.
    destruct (export_timestep_no_poll progress_total idx basename basepath i dt
                output_layers t) as (calls & r1 & -> & Hnopoll).
    assert (Hu : uncancelled (t ++ calls)) by by apply uncancelled_app.
    destruct r1 as [saved|e].
    + destruct (isCanceled _).
      * intros [= <- <-]. right. eauto.
      * apply IH. by apply uncancelled_poll.
    + intros [= <- <-]. left. by split.
Qed.

(** The same for the loop over the products. *)
Lemma process_products_cancel (progress_total : float)
    (items : list (string * value)) (idx : nat)
    (output_layers : gmap string string) (t t' : list event)
    (r : res (gmap string string)) :
  uncancelled t ->
  process_products progress_total idx items output_layers t = (t', r) ->
  uncancelled t' \/
  (exists pre saved, t' = pre ++ [IsCanceled true] /\ uncancelled pre /\ r = Ok saved).
Proof.
  revert idx output_layers t.
  induction items as [|[product measurements] rest IH]; intros idx output_layers t Ht.
  - cbn. unfold ret. intros [= <- <-]. by left.
  - rewrite process_products_step. destruct (isCanceled t).
    { intros [= <- <-]. right. eauto. }
    destruct (retrieve_keeps product measurements
                (t ++ [IsCanceled false; SetProgressText ("Processing " +:+ product)]))
      as (calls & r1 & -> & _ & _ & _ & Hnopoll & _).
    assert (Ht1 : uncancelled
                    (t ++ [IsCanceled false; SetProgressText ("Processing " +:+ product)])).
    { unfold uncancelled. intros Hin. apply elem_of_app in Hin as [Hin|Hin];
        [by apply Ht|no_such_event Hin]. }
    destruct r1 as [data|err].
    + destruct (save_outputs _ _ _ _ _ _ _ _) as [t3 saved] eqn:Hsave.
      apply save_outputs_cancel in Hsave.
      2: { apply uncancelled_app; [by apply uncancelled_app|].
           intros a Hin. no_such_event Hin. }
      destruct Hsave as [[Ht3 Hnot]|(pre & l & -> & Hpre & ->)].
      * destruct saved as [[saved|saved]|e].
        -- apply IH. apply uncancelled_app; [exact Ht3|].
           intros a Hin. no_such_event Hin.
        -- by destruct (Hnot saved).
        -- intros [= <- <-]. by left.
      * intros [= <- <-]. right. eauto.
    + destruct (retrieval_error err).
      * apply IH. apply uncancelled_app; [by apply uncancelled_app|].
        intros a Hin. no_such_event Hin.
      * intros [= <- <-]. left. by apply uncancelled_app.
Qed.

(** *** The steps of a run of [execute] *)

(** With at least one product, [execute] resets the progress and enters
    the loop over the products with an empty results map. *)
Lemma at_product_start (products : list (string * value)) (t : list event) :
  products <> [] -> at_product products t 0 ∅ (t ++ [SetProgress 0]).
Proof.
  intros Hne. unfold at_product, execute.
  destruct products as [|item items]; [done|]. reflexivity.
Qed.

(** After the last product, [execute] returns the results map. *)
Lemma at_product_end (products : list (string * value)) (t : list event)
    (idx : nat) (output_layers : gmap string string) (u : list event) :
  at_product products t idx output_layers u ->
  idx = length products ->
  execute products t = (u, Ok output_layers).
Proof.
  unfold at_product. intros -> ->. by rewrite drop_all.
Qed.

(** One iteration of the loop over the products: the poll, and then the
    retrieval, unless a cancellation was reported. *)
Lemma at_product_step (products : list (string * value)) (t : list event)
    (idx : nat) (product : string) (measurements : value)
    (output_layers : gmap string string) (u : list event) :
  products !! idx = Some (product, measurements) ->
  at_product products t idx output_layers u ->
  if isCanceled u
  then execute products t = (u ++ [IsCanceled true], Ok output_layers)
  else
    match retrieve product measurements
            (u ++ [IsCanceled false; SetProgressText ("Processing " +:+ product)]) with
    | (u', Ok data) =>
        at_timestep products t idx product 0 (Utils.time data) output_layers
          (u' ++ [SetProgressText ("Saving outputs for " +:+ product)])
    | (u', Raise err) =>
        if retrieval_error err
        then at_product products t (S idx) output_layers
               (u' ++ [ReportError ("Error encountered processing " +:+ product
                                    +:+ ": " +:+ exn_msg err);
                       SetProgress (percent ((idx + 1) * 10)
                                      (progress_total_of products))])
        else execute products t = (u', Raise err)
    end.
Proof.
  intros Hitem. unfold at_product, at_timestep. intros ->.
  rewrite (drop_S _ _ _ Hitem), process_products_step.
  destruct (isCanceled u); [reflexivity|].
  destruct (retrieve product measurements _) as [u' [data|err]].
  - unfold bind.
    by destruct (save_outputs _ _ _ _ _ _ _ _) as [t3 [[saved|saved]|e]].
  - by destruct (retrieval_error err).
Qed.

(** One iteration of the loop over the timesteps: the export, and then
    the poll. *)
Lemma at_timestep_step (products : list (string * value)) (t : list event)
    (idx : nat) (product : string) (i : nat) (dt : Z) (rest : list Z)
    (output_layers : gmap string string) (u : list event) :
  at_timestep products t idx product i (dt :: rest) output_layers u ->
  match export_timestep (progress_total_of products) idx (basename_of product)
          (basepath_of product) i dt output_layers u with
  | (u', Ok saved) =>
      if isCanceled u'
      then execute products t = (u' ++ [IsCanceled true], Ok saved)
      else at_timestep products t idx product (S i) rest saved
             (u' ++ [IsCanceled false])
  | (u', Raise e) => execute products t = (u', Raise e)
  end.
Proof.
  unfold at_timestep. intros Hat.
  destruct (export_timestep _ _ _ _ _ _ _ _) as [u' [saved|e]] eqn:Hexport.
  - destruct (isCanceled u') eqn:Hpoll; rewrite Hat; unfold bind at 1;
      by rewrite save_outputs_step, Hexport, Hpoll.
  - rewrite Hat. unfold bind at 1. by rewrite save_outputs_step, Hexport.
Qed.

(** After the last timestep of a product, the progress is set and the
    loop over the products goes on. *)
Lemma at_timestep_end (products : list (string * value)) (t : list event)
    (idx : nat) (product : string) (i : nat)
    (output_layers : gmap string string) (u : list event) :
  at_timestep products t idx product i [] output_layers u ->
  at_product products t (S idx) output_layers
    (u ++ [SetProgress (percent ((idx + 1) * 10) (progress_total_of products))]).
Proof. unfold at_timestep, at_product. by intros ->. Qed.

(** What every run of [execute] keeps. *)
Lemma execute_keeps (products : list (string * value)) (t : list event) :
  exists calls r,
    execute products t = (t ++ calls, r) /\
    kept calls (raised r) /\
    omap queried_product calls `prefix_of` map fst products /\
    (forall saved, r = Ok saved ->
       dom saved = list_to_set (omap written_path calls)).
Proof.
  unfold execute. destruct products as [|item items].
  { exists [], (Raise (Exn ZeroDivisionError "division by zero")).
    cbn. unfold raise. rewrite app_nil_r. split; [reflexivity|].
    split; [apply kept_nil|]. split; [reflexivity|discriminate]. }
  cbn [is_nil]. unfold bind at 1. unfold emit at 1.
  destruct (process_products_keeps (progress_total_of (item :: items))
              (item :: items) 0 ∅ (t ++ [SetProgress 0]))
    as (calls & r & -> & Hkept & Hqueried & Hdom).
  exists (SetProgress 0 :: calls), r.
  split; [by rewrite <- app_assoc|].
  split; [apply (kept_app [SetProgress 0]); [feedback_calls|exact Hkept]|].
  split; [exact Hqueried|].
  intros saved Hsaved. rewrite (Hdom _ Hsaved). same_files.
Qed.

Lemma execute_raise_cases (products : list (string * value))
    (t t' : list event) (e : exn) :
  execute products t = (t', Raise e) ->
  (products = [] /\ t' = t /\ e = Exn ZeroDivisionError "division by zero") \/
  query_error products t' e \/
  export_error e.
Proof.
  unfold execute. destruct products as [|item items].
  { intros [= <- <-]. by left. }
  cbn [is_nil]. unfold bind at 1. unfold emit at 1.
  intros Hrun. right. exact (process_products_raises _ _ _ _ _ _ _ Hrun).
Qed.

Lemma execute_options (products : list (string * value)) (t : list event) :
  exists calls r,
    execute products t = (t ++ calls, r) /\ Forall carries_options calls.
Proof.
  destruct (execute_keeps products t) as (calls & r & Hrun & [Hopt _] & _).
  by exists calls, r.
Qed.

(** *** The export of a timestep whose calls return *)








(** *** The trace of a product *)




(** C6. The flag is polled first in each iteration over the products and
    last in each iteration over the timesteps, and nowhere else. A run of
    [execute] that has come to a product polls: a reported cancellation
    makes [execute] return the results map as it is, the poll being its
    last call; otherwise the retrieval begins, and leads to the first
    timestep, to the next product or out of [execute]. A run that has come
    to a timestep exports it and polls: a reported cancellation makes
    [execute] return the results map with the entry of this timestep, the
    poll being its last call; otherwise the next timestep follows. After
    the last timestep comes the next product. In a whole run nothing is
    called after a poll has reported a cancellation, and the run returns
    a results map. *)
Theorem cancellation_is_cooperative (products : list (string * value))
    (t : list event) :
  (products <> [] -> at_product products t 0 ∅ (t ++ [SetProgress 0])) /\
  (forall idx product measurements output_layers u,
     products !! idx = Some (product, measurements) ->
     at_product products t idx output_layers u ->
     if isCanceled u
     then execute products t = (u ++ [IsCanceled true], Ok output_layers)
     else
       match retrieve product measurements
               (u ++ [IsCanceled false;
                      SetProgressText ("Processing " +:+ product)]) with
       | (u', Ok data) =>
           at_timestep products t idx product 0 (Utils.time data) output_layers
             (u' ++ [SetProgressText ("Saving outputs for " +:+ product)])
       | (u', Raise err) =>
           if retrieval_error err
           then at_product products t (S idx) output_layers
                  (u' ++ [ReportError ("Error encountered processing " +:+ product
                                       +:+ ": " +:+ exn_msg err);
                          SetProgress (percent ((idx + 1) * 10)
                                         (progress_total_of products))])
           else execute products t = (u', Raise err)
       end) /\
  (forall idx product i dt rest output_layers u,
     at_timestep products t idx product i (dt :: rest) output_layers u ->
     match export_timestep (progress_total_of products) idx (basename_of product)
             (basepath_of product) i dt output_layers u with
     | (u', Ok saved) =>
         if isCanceled u'
         then execute products t = (u' ++ [IsCanceled true], Ok saved)
         else at_timestep products t idx product (S i) rest saved
                (u' ++ [IsCanceled false])
     | (u', Raise e) => execute products t = (u', Raise e)
     end) /\
  (forall idx product i output_layers u,
     at_timestep products t idx product i [] output_layers u ->
     at_product products t (S idx) output_layers
       (u ++ [SetProgress (percent ((idx + 1) * 10) (progress_total_of products))])) /\
  (forall idx output_layers u,
     at_product products t idx output_layers u ->
     idx = length products ->
     execute products t = (u, Ok output_layers)) /\
  (forall t' r before after,
     IsCanceled true ∉ t ->
     execute products t = (t', r) ->
     t' = before ++ IsCanceled true :: after ->
     after = [] /\ exists saved, r = Ok saved).
Proof.
  split; [apply at_product_start|].
  split; [apply at_product_step|].
  split; [apply at_timestep_step|].
  split; [apply at_timestep_end|].
  split; [apply at_product_end|].
  intros t' r before after Ht Hrun Hcalls.
  unfold execute in Hrun. destruct products as [|item items].
  { cbn in Hrun. injection Hrun as <- <-. exfalso. apply Ht.
    rewrite Hcalls. apply elem_of_app. right. apply list_elem_of_here. }
  cbn [is_nil] in Hrun. unfold bind at 1 in Hrun. unfold emit at 1 in Hrun.
  apply process_products_cancel in Hrun.
  2: { apply uncancelled_app; [exact Ht|]. intros answer Hin. no_such_event Hin. }
  destruct Hrun as [Hclean|(pre & saved & -> & Hpre & ->)].
  + exfalso. apply Hclean. rewrite Hcalls. apply elem_of_app. right.
    apply list_elem_of_here.
  + split; [|eauto].
    destruct after as [|e after' _] using rev_ind; [reflexivity|].
    exfalso. apply Hpre.
    rewrite app_comm_cons, app_assoc in Hcalls.
    apply app_inj_tail in Hcalls as [-> _].
    apply elem_of_app. right. apply list_elem_of_here.
Qed.

(** X17. The files of the returned results map are the files that were
    written during the run, all of them and no other. *)
Theorem returned_layers_are_written_files (products : list (string * value))
    (t t' : list event) (saved : gmap string string) :
  execute products t = (t', Ok saved) ->
  exists calls,
    t' = t ++ calls /\ dom saved = list_to_set (omap written_path calls).
Proof.
  destruct (execute_keeps products t) as (calls & r & -> & _ & _ & Hdom).
  intros [= <- ->]. exists calls. split; [reflexivity|]. by apply Hdom.
Qed.

(** X18. However a run ends (with the map, by a cancellation, or with an
    exception of the query or of the formatting of a name), every file it
    has written has had its tag set, its overviews built when they are
    switched on and its statistics computed when they are switched on.
    The only other runs are those that end with the exception of a call
    into [utils.py]. *)
Theorem written_files_are_post_processed (products : list (string * value))
    (t t' : list event) (r : res (gmap string string)) :
  execute products t = (t', r) ->
  exists calls,
    t' = t ++ calls /\
    ((omap tagged_path calls = omap written_path calls /\
      omap overview_path calls
      = (if truthy overviews then omap written_path calls else []) /\
      omap statistics_path calls
      = (if truthy calc_stats then omap written_path calls else [])) \/
     (exists e u c, r = Raise e /\ utils u c = Raise e)).
Proof.
  destruct (execute_keeps products t) as (calls & r' & -> & [_ Hpost] & _).
  intros [= <- <-]. exists calls. split; [reflexivity|].
  destruct Hpost as [Hpost|(e & u & c & Hraised & Hcall)]; [by left|right].
  exists e, u, c. split; [|exact Hcall]. by destruct r' as [saved|e']; [|injection Hraised as ->].
Qed.

(** X19. The products are queried in the order of the dictionary, each at most
    once: the products of the [build_query] calls of a run are the first
    products of the dictionary. *)
Theorem products_are_queried_in_order (products : list (string * value))
    (t t' : list event) (r : res (gmap string string)) :
  execute products t = (t', r) ->
  exists calls,
    t' = t ++ calls /\
    omap queried_product calls `prefix_of` map fst products.
Proof.
  destruct (execute_keeps products t) as (calls & r' & -> & _ & Hprefix & _).
  intros [= <- <-]. by exists calls.
Qed.

(** X25. [execute] raises in three cases only. Without a product it divides
    by zero, before any call. An exception of [build_query] or of
    [run_query] for a product of the dictionary leaves [execute] when it
    is of none of the three classes that the loop handles, and the call
    that raised it is then the last call of the run. Every other
    exception was raised by the formatting of a time, by the formatting of
    a file or layer name, or by a call into [utils.py]. *)
Theorem execute_raises (products : list (string * value))
    (t t' : list event) (e : exn) :
  execute products t = (t', Raise e) ->
  (products = [] /\ t' = t /\ e = Exn ZeroDivisionError "division by zero") \/
  (retrieval_error e = false /\
   exists product measurements,
     (product, measurements) ∈ products /\
     ((build_query product measurements date_range extent extent_crs output_crs
         output_res dask_chunks group_by fuse_func = Raise e /\
       last t' = Some (BuildQuery product measurements)) \/
      (exists query,
         build_query product measurements date_range extent extent_crs output_crs
           output_res dask_chunks group_by fuse_func = Ok query /\
         run_query query config_file max_datasets = Raise e /\
         last t' = Some (RunQuery query config_file max_datasets)))) \/
  (exists dt str_format, datetime_to_str dt str_format = Raise e) \/
  (exists template arg, format template arg = Raise e) \/
  (exists u c, utils u c = Raise e).
Proof. apply execute_raise_cases. Qed.
End Execute.

(** *** [flags] *)

(** [super().flags() & ~self.FlagSupportsBatch], on the integers that the
    flags are. *)
Definition flags (super_flags FlagSupportsBatch : Z) : Z :=
  Z.land super_flags (Z.lnot FlagSupportsBatch).

(** X26. The algorithm never supports batch mode, whatever the base class says,
    and keeps every flag of the base class that shares no bit with the
    batch flag (the flag to cancel for one). *)
Theorem flags_drop_batch_only (super_flags FlagSupportsBatch : Z) :
  Z.land (flags super_flags FlagSupportsBatch) FlagSupportsBatch = 0%Z /\
  (forall flag,
     Z.land flag FlagSupportsBatch = 0%Z ->
     Z.land (flags super_flags FlagSupportsBatch) flag = Z.land super_flags flag) /\
  Z.lor (flags super_flags FlagSupportsBatch) (Z.land super_flags FlagSupportsBatch)
  = super_flags.
Proof.
  unfold flags. split; [|split].
  - apply Z.bits_inj'. intros n Hn.
    rewrite !Z.land_spec, Z.lnot_spec, Z.bits_0 by exact Hn.
    by destruct (Z.testbit super_flags n), (Z.testbit FlagSupportsBatch n).
  - intros flag Hflag. apply Z.bits_inj'. intros n Hn.
    assert (Hbit : Z.testbit (Z.land flag FlagSupportsBatch) n = false)
      by (rewrite Hflag; apply Z.bits_0).
    rewrite Z.land_spec in Hbit.
    rewrite !Z.land_spec, Z.lnot_spec by exact Hn.
    by destruct (Z.testbit super_flags n), (Z.testbit FlagSupportsBatch n),
         (Z.testbit flag n).
  - apply Z.bits_inj'. intros n Hn.
    rewrite Z.lor_spec, !Z.land_spec, Z.lnot_spec by exact Hn.
    by destruct (Z.testbit super_flags n), (Z.testbit FlagSupportsBatch n).
Qed.

(** *** [processAlgorithm] *)

(** An entry of [self.products], under the title shown in the tree of
    products: the name of the product in the data cube, and the
    measurements by their titles. The placeholder that [createInstance]
    makes when the data cube cannot be reached has no item ['product']. *)
Record product_entry : Type :=
  { entry_product : option string;
    entry_measurements : option (gmap string value) }.

(** [d[k]] for an item of a dictionary with fixed keys. *)
Definition item {A} (x : option A) (k : string) : res A :=
  match x with
  | Some a => Ok a
  | None => Raise (Exn KeyError k)
  end.

(** [products[product] += [measurement]] on a [defaultdict(list)]: a new
    product comes last. *)
Fixpoint add_measurement (products : list (string * list value))
    (product : string) (measurement : value) : list (string * list value) :=
  match products with
  | [] => [(product, [measurement])]
  | (p, ms) :: rest =>
      if String.eqb p product then (p, ms ++ [measurement]) :: rest
      else (p, ms) :: add_measurement rest product measurement
  end.

(** A [for] loop whose body may raise, on the state it updates. *)
Fixpoint for_each {A S} (body : S -> A -> res S) (l : list A) (s : S) : res S :=
  match l with
  | [] => Ok s
  | x :: rest =>
      match body s x with
      | Ok s' => for_each body rest s'
      | Raise e => Raise e
      end
  end.

(** The body of the loop [for m in v]. *)
Definition select_measurement (self_products : gmap string product_entry)
    (k : string) (products : list (string * list value)) (m : string)
    : res (list (string * list value)) :=
  let? entry := getitem self_products k in
  let? product := item (entry_product entry) "product" in
  let? measurements := item (entry_measurements entry) "measurements" in
  let? measurement := getitem measurements m in
  Ok (add_measurement products product measurement).

(** The loops that build [products] from the decoded parameter: an object
    of lists of measurement titles by product title, as the widget of the
    products writes it. *)
Definition select_products (self_products : gmap string product_entry)
    (product_descs : list (string * list string))
    : res (list (string * list value)) :=
  for_each (fun products kv => for_each (select_measurement self_products kv.1) kv.2 products)
    product_descs [].

(** [x or None] *)
Definition or_None (x : value) : value := if truthy x then x else VNone.

(** What [processAlgorithm] returns and what it leaves in [self.outputs]. *)
Record Results : Type :=
  { OUTPUT_FOLDER : string;
    OUTPUT_LAYERS : gset string;             (* output_layers.keys() *)
    outputs : gmap string string }.

(** *** Properties of the selection of products *)

(** The measurements that the title [k] with the selected titles [v]
    contributes to [product]. *)
Definition selected_by (self_products : gmap string product_entry)
    (product k : string) (v : list string) : list value :=
  match self_products !! k with
  | Some {| entry_product := Some p; entry_measurements := Some measurements |} =>
      if String.eqb p product then omap (fun m => measurements !! m) v else []
  | _ => []
  end.

(** The measurements selected for [product], in the order of the
    selection. *)
Definition selected_for (self_products : gmap string product_entry)
    (product : string) (product_descs : list (string * list string)) : list value :=
  flat_map (fun kv => selected_by self_products product kv.1 kv.2) product_descs.

(** [products[product]] without the side effect, the empty list for a
    product that is missing. *)
Fixpoint measurements_of (products : list (string * list value)) (product : string)
    : list value :=
  match products with
  | [] => []
  | (p, ms) :: rest =>
      if String.eqb p product then ms else measurements_of rest product
  end.

(** Every product once, and none without a measurement. *)
Definition well_grouped (products : list (string * list value)) : Prop :=
  NoDup (map fst products) /\ Forall (fun pm => pm.2 <> []) products.

Lemma add_measurement_keys (products : list (string * list value))
    (product : string) (measurement : value) (p : string) :
  p ∈ map fst (add_measurement products product measurement)
  <-> p ∈ map fst products \/ p = product.
Proof.
  induction products as [|[q ms] rest IH]; cbn.
  - rewrite list_elem_of_singleton, elem_of_nil. tauto.
  - destruct (String.eqb_spec q product) as [->|Hne]; cbn.
    + rewrite !elem_of_cons. tauto.
    + rewrite !elem_of_cons, IH. tauto.
Qed.

Lemma add_measurement_grouped (products : list (string * list value))
    (product : string) (measurement : value) :
  well_grouped products -> well_grouped (add_measurement products product measurement).
Proof.
  unfold well_grouped. induction products as [|[q ms] rest IH]; cbn.
  - intros _. split; [apply NoDup_singleton|]. by repeat constructor.
  - intros [Hdup Hall]. apply NoDup_cons in Hdup as [Hq Hdup].
    apply Forall_cons in Hall as [Hms Hall].
    destruct (String.eqb_spec q product) as [->|Hne]; cbn.
    + split; [by apply NoDup_cons|]. constructor; [|exact Hall].
      cbn. by destruct ms.
    + destruct (IH (conj Hdup Hall)) as [Hdup' Hall'].
      split; [|by constructor].
      apply NoDup_cons. split; [|exact Hdup'].
      rewrite add_measurement_keys. intros [Hin| ->]; [by apply Hq|by apply Hne].
Qed.

Lemma add_measurement_of (products : list (string * list value))
    (product : string) (measurement : value) (p : string) :
  measurements_of (add_measurement products product measurement) p
  = measurements_of products p ++ (if String.eqb product p then [measurement] else []).
Proof.
  induction products as [|[q ms] rest IH]; cbn.
  - by destruct (String.eqb product p).
  - destruct (String.eqb_spec q product) as [->|Hne]; cbn.
    + destruct (String.eqb product p); [reflexivity|by rewrite app_nil_r].
    + destruct (String.eqb_spec q p) as [->|Hne'].
      * destruct (String.eqb_spec product p) as [->|_]; [done|by rewrite app_nil_r].
      * exact IH.
Qed.

Lemma measurements_of_key (products : list (string * list value)) (product : string) :
  measurements_of products product <> [] -> product ∈ map fst products.
Proof.
  induction products as [|[q ms] rest IH]; cbn; [done|].
  destruct (String.eqb_spec q product) as [->|_].
  - intros _. apply list_elem_of_here.
  - intros H. apply list_elem_of_further. by apply IH.
Qed.

Lemma well_grouped_elem (products : list (string * list value))
    (product : string) (ms : list value) :
  well_grouped products ->
  (product, ms) ∈ products <-> ms <> [] /\ ms = measurements_of products product.
Proof.
  unfold well_grouped. induction products as [|[q ms'] rest IH]; cbn.
  - intros _. rewrite elem_of_nil. split; [done|]. by intros [Hne ->].
  - intros [Hdup Hall]. apply NoDup_cons in Hdup as [Hq Hdup].
    apply Forall_cons in Hall as [Hms Hall]. cbn in Hms.
    rewrite elem_of_cons, (IH (conj Hdup Hall)).
    destruct (String.eqb_spec q product) as [->|Hne].
    + split.
      * intros [[= ->]|[Hne ->]]; [done|].
        exfalso. apply Hq. by apply measurements_of_key.
      * intros [_ ->]. by left.
    + split.
      * intros [[= Hq' _]|H]; [by destruct Hne|exact H].
      * intros H. by right.
Qed.

Lemma selected_by_nil (self_products : gmap string product_entry) (product k : string) :
  selected_by self_products product k [] = [].
Proof.
  unfold selected_by.
  destruct (self_products !! k) as [[[p|] [measurements|]]|]; try reflexivity.
  by destruct (String.eqb p product).
Qed.

Lemma select_measurements_grouped (self_products : gmap string product_entry)
    (k : string) (v : list string) (acc products : list (string * list value)) :
  for_each (select_measurement self_products k) v acc = Ok products ->
  well_grouped acc ->
  well_grouped products /\
  forall product,
    measurements_of products product
    = measurements_of acc product ++ selected_by self_products product k v.
Proof.
  revert acc. induction v as [|m v IH]; intros acc; cbn [for_each].
  - intros [= <-] Hacc. split; [exact Hacc|]. intros product.
    by rewrite selected_by_nil, app_nil_r.
  - unfold select_measurement at 1. unfold getitem, item, res_bind.
    destruct (self_products !! k) as [[[p|] [measurements|]]|] eqn:Hk;
      cbn; try discriminate.
    destruct (measurements !! m) as [measurement|] eqn:Hm; cbn; [|discriminate].
    intros Hrest Hacc.
    destruct (IH _ Hrest (add_measurement_grouped _ p measurement Hacc))
      as [Hgrouped Hof].
    split; [exact Hgrouped|]. intros product.
    rewrite Hof, add_measurement_of, <- app_assoc. f_equal.
    unfold selected_by. rewrite Hk. cbn [omap list_omap]. rewrite Hm.
    by destruct (String.eqb p product).
Qed.

Lemma select_products_grouped (self_products : gmap string product_entry)
    (product_descs : list (string * list string))
    (acc products : list (string * list value)) :
  for_each (fun products kv =>
              for_each (select_measurement self_products kv.1) kv.2 products)
    product_descs acc = Ok products ->
  well_grouped acc ->
  well_grouped products /\
  forall product,
    measurements_of products product
    = measurements_of acc product ++ selected_for self_products product product_descs.
Proof.
  revert acc. induction product_descs as [|[k v] rest IH]; intros acc; cbn [for_each].
  - intros [= <-] Hacc. split; [exact Hacc|]. intros product.
    by rewrite app_nil_r.
  - cbn [fst snd].
    destruct (for_each (select_measurement self_products k) v acc)
      as [acc'|e] eqn:Hinner; [|discriminate].
    intros Hrest Hacc.
    destruct (select_measurements_grouped _ _ _ _ _ Hinner Hacc) as [Hacc' Hof'].
    destruct (IH _ Hrest Hacc') as [Hgrouped Hof].
    split; [exact Hgrouped|]. intros product.
    rewrite Hof, Hof', <- app_assoc. reflexivity.
Qed.

(** X27. The loops group the selected measurements by product: every product
    of the result is there once and has a measurement, and its measurements
    are those selected for it under all the titles that name it, in the
    order of the selection. *)
Theorem select_products_groups (self_products : gmap string product_entry)
    (product_descs : list (string * list string))
    (products : list (string * list value)) :
  select_products self_products product_descs = Ok products ->
  NoDup (map fst products) /\
  forall product ms,
    (product, ms) ∈ products
    <-> ms <> [] /\ ms = selected_for self_products product product_descs.
Proof.
  intros Hrun.
  destruct (select_products_grouped _ _ [] _ Hrun) as [Hgrouped Hof].
  { split; [apply NoDup_nil_2|constructor]. }
  split; [apply Hgrouped|]. intros product ms.
  rewrite (well_grouped_elem _ _ _ Hgrouped), Hof. reflexivity.
Qed.

Lemma select_measurements_raise (self_products : gmap string product_entry)
    (k : string) (v : list string) (acc : list (string * list value)) (e : exn) :
  for_each (select_measurement self_products k) v acc = Raise e ->
  v <> [] /\
  match self_products !! k with
  | None => e = Exn KeyError k
  | Some entry =>
      match entry_product entry, entry_measurements entry with
      | None, _ => e = Exn KeyError "product"
      | Some _, None => e = Exn KeyError "measurements"
      | Some _, Some measurements =>
          exists m, m ∈ v /\ measurements !! m = None /\ e = Exn KeyError m
      end
  end.
Proof.
  revert acc. induction v as [|m v IH]; intros acc; cbn [for_each]; [discriminate|].
  unfold select_measurement at 1. unfold getitem, item, res_bind.
  destruct (self_products !! k) as [[[p|] [measurements|]]|] eqn:Hk; cbn.
  - destruct (measurements !! m) as [measurement|] eqn:Hm.
    + intros Hrest. destruct (IH _ Hrest) as [_ Hcase]. split; [done|].
      cbn in Hcase. destruct Hcase as (m' & Hin & Hm' & ->).
      exists m'. split; [by apply list_elem_of_further|done].
    + intros [= <-]. split; [done|]. exists m. split; [apply list_elem_of_here|done].
  - intros [= <-]. done.
  - intros [= <-]. done.
  - intros [= <-]. done.
  - intros [= <-]. done.
Qed.

(** X28. The selection raises nothing but [KeyError], and only for a title
    with a measurement selected: for the title when [self.products] does
    not have it, for ['product'] when its entry is the placeholder of a
    data cube that could not be reached, for a measurement that the entry
    does not have. A title with no measurement selected is not looked up. *)
Theorem select_products_key_error (self_products : gmap string product_entry)
    (product_descs : list (string * list string)) (e : exn) :
  select_products self_products product_descs = Raise e ->
  exists k v,
    (k, v) ∈ product_descs /\ v <> [] /\
    match self_products !! k with
    | None => e = Exn KeyError k
    | Some entry =>
        match entry_product entry, entry_measurements entry with
        | None, _ => e = Exn KeyError "product"
        | Some _, None => e = Exn KeyError "measurements"
        | Some _, Some measurements =>
            exists m, m ∈ v /\ measurements !! m = None /\ e = Exn KeyError m
        end
    end.
Proof.
  unfold select_products. generalize (@nil (string * list value)) as acc.
  induction product_descs as [|[k v] rest IH]; intros acc; cbn [for_each];
    [discriminate|].
  cbn [fst snd].
  destruct (for_each (select_measurement self_products k) v acc)
    as [acc'|e'] eqn:Hinner.
  - intros Hrest. destruct (IH _ Hrest) as (k' & v' & Hin & Hcase).
    exists k', v'. split; [by apply list_elem_of_further|exact Hcase].
  - intros [= ->]. exists k, v. split; [apply list_elem_of_here|].
    exact (select_measurements_raise _ _ _ _ _ Hinner).
Qed.

Lemma select_products_nothing (self_products : gmap string product_entry)
    (product_descs : list (string * list string)) :
  (forall k v, (k, v) ∈ product_descs -> v = []) ->
  select_products self_products product_descs = Ok [].
Proof.
  unfold select_products. generalize (@nil (string * list value)) as acc.
  induction product_descs as [|[k v] rest IH]; intros acc Hnone; [reflexivity|].
  cbn [for_each fst snd]. rewrite (Hnone k v) by apply list_elem_of_here.
  cbn [for_each]. apply IH. intros k' v' Hin. apply (Hnone k').
  by apply list_elem_of_further.
Qed.

Section Process.

(** Besides the functions [execute] calls: [json.loads], [int],
    [processing.mkdir], the table [GROUP_BY_FUSE_FUNC] of [defaults.py] in
    its order, the settings of the plugin, and [self.products]. *)
Context (build_query :
           string -> value -> value -> value -> value -> value -> value ->
           value -> value -> value -> res value)
        (run_query : value -> value -> value -> res Utils.Dataset)
        (repr : value -> string)
        (strftime_local : Z -> string -> res string)
        (Path_str : string -> string -> string)
        (format : string -> string -> res string)
        (isCanceled : list event -> bool)
        (utils : list event -> event -> res unit)
        (json_loads : value -> res value)
        (int : value -> res Z)
        (mkdir : string -> res unit)
        (GROUP_BY_FUSE_FUNC : list (string * (value * value)))
        (settings : gmap string value)
        (self_products : gmap string product_entry).

(** [try: max_datasets = int(setting) except (TypeError, ValueError):
    max_datasets = None] *)
Definition max_datasets_of (setting : value) : res value :=
  match int setting with
  | Ok n => Ok (VInt n)
  | Raise e =>
      match exn_cls e with
      | TypeError | ValueError => Ok VNone
      | _ => Raise e
      end
  end.

(** The parameters are read with the accessors of the host: the decoded
    products, the date range and the extent as for the validation, the
    index of the grouping and the output folder. *)
Definition processAlgorithm (parameters : Parameters)
    (product_descs : list (string * list string)) (group_by_index : nat)
    (output_folder : string) : M event Results :=
  let! config_file := lift (getitem settings "datacube_config_file") in
  let config_file := or_None config_file in
  let! max_datasets := lift (getitem settings "datacube_max_datasets") in
  let! max_datasets := lift (max_datasets_of max_datasets) in
  let! gtiff_options := lift (getitem settings "datacube_gtiff_options") in
  let! gtiff_options := lift (json_loads gtiff_options) in
  let! gtiff_ovr_options := lift (getitem settings "datacube_gtiff_ovr_options") in
  let! gtiff_ovr_options := lift (json_loads gtiff_ovr_options) in
  let! overviews := lift (getitem settings "datacube_build_overviews") in
  let! calc_stats := lift (getitem settings "datacube_calculate_statistics") in
  let! approx_ok := lift (getitem settings "datacube_approx_statistics") in
  let! products := lift (select_products self_products product_descs) in
  let date_range :=
    if all (PARAM_DATE_RANGE parameters) then VList (PARAM_DATE_RANGE parameters)
    else VNone in
  let '(xmin, ymin, xmax, ymax) := PARAM_EXTENT parameters in
  let extent := VList [VFloat xmin; VFloat ymin; VFloat xmax; VFloat ymax] in
  let extent_crs :=
    if String.eqb (extent_authid parameters) EmptyString then VNone
    else VStr (extent_authid parameters) in
  let output_crs :=
    if String.eqb (output_crs_authid parameters) EmptyString then VNone
    else VStr (output_crs_authid parameters) in
  let output_res :=
    if float_truthy (PARAM_OUTPUT_RESOLUTION parameters)
    then VList [VFloat (PARAM_OUTPUT_RESOLUTION parameters);
                VFloat (PARAM_OUTPUT_RESOLUTION parameters)]
    else VNone in
  let! grouping := lift (index GROUP_BY_FUSE_FUNC group_by_index) in
  let '(group_by, fuse_func) := grouping.2 in
  do! emit (PushInfo ("output_folder: " +:+ repr (VStr output_folder))) in
  do! lift (mkdir output_folder) in
  let dask_chunks :=
    match date_range with
    | VNone => VNone
    | _ => VDict [("time", VInt 1)]
    end in
  let! output_layers :=
    execute build_query run_query repr strftime_local Path_str format isCanceled
      utils date_range extent extent_crs output_crs output_res output_folder
      config_file dask_chunks overviews calc_stats approx_ok
      gtiff_options gtiff_ovr_options group_by fuse_func max_datasets
      (map (fun product => (product.1, VList product.2)) products) in
  ret {| OUTPUT_FOLDER := output_folder;
         OUTPUT_LAYERS := dom output_layers;
         outputs := output_layers |}.

(** *** Properties of [processAlgorithm] *)

Lemma bind_lift {A B} (r : res A) (k : A -> M event B) (t : list event) :
  bind (lift r) k t = match r with Ok a => k a t | Raise e => (t, Raise e) end.
Proof. unfold bind, lift. by destruct r. Qed.

Lemma getitem_Ok {V} (d : gmap string V) (k : string) (v : V) :
  getitem d k = Ok v -> d !! k = Some v.
Proof. unfold getitem. destruct (d !! k); [by intros [= ->]|discriminate]. Qed.

(** Closes the case of an exception before the first call. *)
Ltac raised_at_once :=
  intros [= <- <-]; exists []; rewrite app_nil_r; split; [reflexivity|];
  (split; [|split]); intros * Hin; by apply elem_of_nil in Hin.

(** X29. The options of the calls into [utils.py] are the settings of the
    plugin: in any run, every call of [run_query] gets the configuration
    file of the settings, or [None] for an empty one, and the maximum of
    the settings as an integer, or [None] when [int] raises [TypeError] or
    [ValueError]; every call of [write_geotiff] gets the decoded GeoTIFF
    options, and every call of [calculate_statistics] the setting for
    approximate statistics. *)
Theorem settings_reach_calls (parameters : Parameters)
    (product_descs : list (string * list string)) (group_by_index : nat)
    (output_folder : string) (t t' : list event) (r : res Results) :
  processAlgorithm parameters product_descs group_by_index output_folder t = (t', r) ->
  exists calls,
    t' = t ++ calls /\
    (forall query config max,
       RunQuery query config max ∈ calls ->
       (exists setting,
          settings !! "datacube_config_file" = Some setting /\
          config = or_None setting) /\
       (exists setting,
          settings !! "datacube_max_datasets" = Some setting /\
          match int setting with
          | Ok n => max = VInt n
          | Raise e =>
              max = VNone /\ (exn_cls e = TypeError \/ exn_cls e = ValueError)
          end)) /\
    (forall raster_path i options,
       WriteGeotiff raster_path i options ∈ calls ->
       exists setting,
         settings !! "datacube_gtiff_options" = Some setting /\
         json_loads setting = Ok options) /\
    (forall raster_path approx,
       CalculateStatistics raster_path approx ∈ calls ->
       settings !! "datacube_approx_statistics" = Some approx).
Proof.
  unfold processAlgorithm.
  rewrite bind_lift.
  destruct (getitem settings "datacube_config_file") as [config|e] eqn:Hconfig;
    [|raised_at_once].
  rewrite bind_lift.
  destruct (getitem settings "datacube_max_datasets") as [max_setting|e] eqn:Hmax;
    [|raised_at_once].
  rewrite bind_lift.
  destruct (max_datasets_of max_setting) as [max_datasets|e] eqn:Hint;
    [|raised_at_once].
  rewrite bind_lift.
  destruct (getitem settings "datacube_gtiff_options") as [gtiff_setting|e] eqn:Hgtiff;
    [|raised_at_once].
  rewrite bind_lift.
  destruct (json_loads gtiff_setting) as [gtiff_options|e] eqn:Hoptions;
    [|raised_at_once].
  rewrite bind_lift.
  destruct (getitem settings "datacube_gtiff_ovr_options") as [ovr_setting|e];
    [|raised_at_once].
  rewrite bind_lift.
  destruct (json_loads ovr_setting) as [gtiff_ovr_options|e]; [|raised_at_once].
  rewrite bind_lift.
  destruct (getitem settings "datacube_build_overviews") as [overviews|e];
    [|raised_at_once].
  rewrite bind_lift.
  destruct (getitem settings "datacube_calculate_statistics") as [calc_stats|e];
    [|raised_at_once].
  rewrite bind_lift.
  destruct (getitem settings "datacube_approx_statistics") as [approx_ok|e] eqn:Happrox;
    [|raised_at_once].
  rewrite bind_lift.
  destruct (select_products self_products product_descs) as [products|e];
    [|raised_at_once].
  destruct (PARAM_EXTENT parameters) as [[[xmin ymin] xmax] ymax].
  rewrite bind_lift.
  destruct (index GROUP_BY_FUSE_FUNC group_by_index) as [[name [group_by fuse_func]]|e];
    [|raised_at_once].
  cbn [snd]. unfold bind at 1. unfold emit at 1. rewrite bind_lift.
  assert (Hfeedback : forall l : list event,
            (forall e, e ∈ l -> carries_options (or_None config) approx_ok
                                  gtiff_options gtiff_ovr_options max_datasets e) ->
            (forall query config' max,
               RunQuery query config' max ∈ l ->
               (exists setting,
                  settings !! "datacube_config_file" = Some setting /\
                  config' = or_None setting) /\
               (exists setting,
                  settings !! "datacube_max_datasets" = Some setting /\
                  match int setting with
                  | Ok n => max = VInt n
                  | Raise e =>
                      max = VNone /\ (exn_cls e = TypeError \/ exn_cls e = ValueError)
                  end)) /\
            (forall raster_path i options,
               WriteGeotiff raster_path i options ∈ l ->
               exists setting,
                 settings !! "datacube_gtiff_options" = Some setting /\
                 json_loads setting = Ok options) /\
            (forall raster_path approx,
               CalculateStatistics raster_path approx ∈ l ->
               settings !! "datacube_approx_statistics" = Some approx)).
  { intros l Hl. split; [|split].
    - intros query config' max Hin. destruct (Hl _ Hin) as [-> ->].
      split.
      + exists config. split; [by apply getitem_Ok|reflexivity].
      + exists max_setting. split; [by apply getitem_Ok|].
        unfold max_datasets_of in Hint.
        destruct (int max_setting) as [n|e]; [by injection Hint|].
        destruct (exn_cls e); try discriminate; injection Hint as <-; auto.
    - intros raster_path i options Hin. rewrite (Hl _ Hin).
      exists gtiff_setting. split; [by apply getitem_Ok|exact Hoptions].
    - intros raster_path approx Hin. rewrite (Hl _ Hin). by apply getitem_Ok. }
  destruct (mkdir output_folder) as [[]|e].
  2: { intros [= <- <-]. eexists [_]. split; [reflexivity|].
       apply Hfeedback. intros e' He'. apply list_elem_of_singleton in He' as ->.
       exact I. }
  unfold bind at 1.
  match goal with
  | |- context [execute _ _ _ _ _ _ _ _ ?dr ?ex ?ec ?oc ?ores _ _ ?dask ?ov ?cs _ _ _
                  ?gb ?ff _ ?ps ?u] =>
      destruct (execute_options build_query run_query repr strftime_local Path_str
                  format isCanceled utils dr ex ec oc ores output_folder (or_None config) dask ov cs
                  approx_ok gtiff_options gtiff_ovr_options gb ff max_datasets ps u)
        as (calls & r' & Hrun & Hopt)
  end.
  rewrite Hrun.
  assert (Hall : forall e, e ∈ PushInfo ("output_folder: " +:+ repr (VStr output_folder))
                               :: calls ->
                           carries_options (or_None config) approx_ok
                             gtiff_options gtiff_ovr_options max_datasets e).
  { intros e He. apply elem_of_cons in He as [->|He]; [exact I|].
    rewrite Forall_forall in Hopt. by apply Hopt. }
  destruct r' as [output_layers|e]; unfold ret; intros [= <- <-];
    eexists (_ :: calls); (split; [by rewrite <- app_assoc|]);
    apply Hfeedback; exact Hall.
Qed.

(** X30. When no measurement is selected, [processAlgorithm] never returns
    its results: if the settings and the grouping are read without an
    exception, the folder is made, and then [execute], called without a
    product, divides by zero. *)
Theorem nothing_selected_raises (parameters : Parameters)
    (product_descs : list (string * list string)) (group_by_index : nat)
    (output_folder : string) (t : list event) :
  (forall k v, (k, v) ∈ product_descs -> v = []) ->
  exists t' e,
    processAlgorithm parameters product_descs group_by_index output_folder t
    = (t', Raise e) /\
    (t' = t \/
     t' = t ++ [PushInfo ("output_folder: " +:+ repr (VStr output_folder))] /\
     (mkdir output_folder = Raise e \/
      mkdir output_folder = Ok tt /\ e = Exn ZeroDivisionError "division by zero")).
Proof.
  intros Hnone. unfold processAlgorithm.
  rewrite (select_products_nothing self_products product_descs Hnone).
  repeat (rewrite bind_lift;
          match goal with
          | |- context [match ?r with Ok _ => _ | Raise _ => _ end] =>
              destruct r; [|eexists _, _; split; [reflexivity|by left]]
          end).
  rewrite bind_lift. cbv beta iota.
  destruct (PARAM_EXTENT parameters) as [[[xmin ymin] xmax] ymax].
  rewrite bind_lift.
  destruct (index GROUP_BY_FUSE_FUNC group_by_index) as [[name [group_by fuse_func]]|e];
    [|eexists _, _; split; [reflexivity|by left]].
  cbn [snd]. unfold bind at 1. unfold emit at 1. rewrite bind_lift.
  destruct (mkdir output_folder) as [[]|e].
  - eexists _, _. split; [reflexivity|]. right. split; [reflexivity|]. by right.
  - eexists _, _. split; [reflexivity|]. right. split; [reflexivity|]. by left.
Qed.

End Process.

(** *** The plugin on sample data *)

Definition sample_geometry_CRS (authid : string) : res unit :=
  if String.prefix "EPSG:" authid then Ok tt
  else Raise (Exn InvalidCRSError "Not a valid CRS").

Definition sample_tr (s : string) : string := s.

Definition sample_super (parameters : Parameters) : bool * string :=
  (true, EmptyString).

(** A valid output CRS and no output resolution. *)
Definition sample_crs_only : Parameters :=
  {| PARAM_PRODUCTS := "{'ls8_nbar_albers': ['red']}";
     PARAM_DATE_RANGE := [VStr "2018-01-01"; VStr "2018-01-31"];
     PARAM_EXTENT := (148, -36, 149, -35)%float;
     extent_authid := "EPSG:4326";
     output_crs_isValid := true;
     output_crs_authid := "EPSG:3577";
     PARAM_OUTPUT_RESOLUTION := 0%float |}.

(** An output resolution and no output CRS. *)
Definition sample_res_only : Parameters :=
  {| PARAM_PRODUCTS := "{'ls8_nbar_albers': ['red']}";
     PARAM_DATE_RANGE := [VStr "2018-01-01"; VStr "2018-01-31"];
     PARAM_EXTENT := (148, -36, 149, -35)%float;
     extent_authid := "EPSG:4326";
     output_crs_isValid := false;
     output_crs_authid := EmptyString;
     PARAM_OUTPUT_RESOLUTION := 25%float |}.

(** A date range that starts and ends on the same day. *)
Definition sample_same_day : Parameters :=
  {| PARAM_PRODUCTS := "{'ls8_nbar_albers': ['red']}";
     PARAM_DATE_RANGE := [VStr "2018-01-01"; VStr "2018-01-01"];
     PARAM_EXTENT := (148, -36, 149, -35)%float;
     extent_authid := "EPSG:4326";
     output_crs_isValid := false;
     output_crs_authid := EmptyString;
     PARAM_OUTPUT_RESOLUTION := 0%float |}.

(** A valid output CRS and no output resolution, and a month that does not
    exist. *)
Definition sample_crs_only_bad_date : Parameters :=
  {| PARAM_PRODUCTS := "{'ls8_nbar_albers': ['red']}";
     PARAM_DATE_RANGE := [VStr "2018-13-01"; VStr "2018-01-31"];
     PARAM_EXTENT := (148, -36, 149, -35)%float;
     extent_authid := "EPSG:4326";
     output_crs_isValid := true;
     output_crs_authid := "EPSG:3577";
     PARAM_OUTPUT_RESOLUTION := 0%float |}.

(** The output CRS without a resolution is reported; with a date that
    does not parse it is not, the validation raises. *)
Lemma checkParameterValues_reports_witness :
  checkParameterValues sample_geometry_CRS sample_tr sample_super sample_crs_only
  = Ok (false, MSG_OUTPUT_RES) /\
  checkParameterValues sample_geometry_CRS sample_tr sample_super
    sample_crs_only_bad_date
  = Raise (Exn ValueError "time data does not match format").
Proof.
  split.
  - pose proof (checkParameterValues_reports sample_geometry_CRS sample_tr
                  sample_super sample_crs_only) as Hreports.
    change (messages sample_geometry_CRS sample_crs_only)
      with (Ok [MSG_OUTPUT_RES] : res (list string)) in Hreports.
    destruct Hreports as (_ & _ & Hfail & _).
    rewrite Hfail by discriminate. reflexivity.
  - pose proof (checkParameterValues_reports sample_geometry_CRS sample_tr
                  sample_super sample_crs_only_bad_date) as Hreports.
    change (messages sample_geometry_CRS sample_crs_only_bad_date)
      with (Raise (Exn ValueError "time data does not match format")
            : res (list string)) in Hreports.
    exact (proj1 Hreports).
Defined.

(** C4, as stated, fails: a parameter set with an output resolution and no
    output CRS gets no message, and the validation passes. *)
Lemma resolution_without_crs_passes :
  float_truthy (PARAM_OUTPUT_RESOLUTION sample_res_only) = true /\
  output_crs_isValid sample_res_only = false /\
  messages sample_geometry_CRS sample_res_only = Ok [] /\
  checkParameterValues sample_geometry_CRS sample_tr sample_super sample_res_only
  = Ok (true, EmptyString).
Proof. repeat split. Qed.

(** C5, at the failing input: both dates are present and the start date
    is the end date, so it is not earlier, and no message is reported. *)
Theorem equal_dates_pass_validation :
  strptime (VStr "2018-01-01") = Ok (Datetime 2018 1 1) /\
  datetime_gt (Datetime 2018 1 1) (Datetime 2018 1 1) = false /\
  date_msgs sample_same_day = Ok [] /\
  checkParameterValues sample_geometry_CRS sample_tr sample_super sample_same_day
  = Ok (true, EmptyString).
Proof. repeat split. Qed.

(** No product, the dates in the wrong order, an extent out of the bounds
    of longitude and latitude without a CRS, and an output CRS that the
    data cube engine rejects, without a resolution. *)
Definition sample_all_wrong : Parameters :=
  {| PARAM_PRODUCTS := "{}";
     PARAM_DATE_RANGE := [VStr "2018-02-01"; VStr "2018-01-01"];
     PARAM_EXTENT := (1480000, -3600000, 1490000, -3500000)%float;
     extent_authid := EmptyString;
     output_crs_isValid := true;
     output_crs_authid := "USER:100000";
     PARAM_OUTPUT_RESOLUTION := 0%float |}.

(** A start date and no end date. *)
Definition sample_half_range : Parameters :=
  {| PARAM_PRODUCTS := "{'ls8_nbar_albers': ['red']}";
     PARAM_DATE_RANGE := [VStr "2018-01-01"; VStr EmptyString];
     PARAM_EXTENT := (148, -36, 149, -35)%float;
     extent_authid := "EPSG:4326";
     output_crs_isValid := false;
     output_crs_authid := EmptyString;
     PARAM_OUTPUT_RESOLUTION := 0%float |}.

(** A month that does not exist. *)
Definition sample_malformed_date : Parameters :=
  {| PARAM_PRODUCTS := "{}";
     PARAM_DATE_RANGE := [VStr "2018-13-01"; VStr "2018-01-31"];
     PARAM_EXTENT := (148, -36, 149, -35)%float;
     extent_authid := "EPSG:4326";
     output_crs_isValid := false;
     output_crs_authid := EmptyString;
     PARAM_OUTPUT_RESOLUTION := 0%float |}.

(** A date range that is a list of one date. *)
Definition sample_one_date : Parameters :=
  {| PARAM_PRODUCTS := "{'ls8_nbar_albers': ['red']}";
     PARAM_DATE_RANGE := [VStr "2018-01-01"];
     PARAM_EXTENT := (148, -36, 149, -35)%float;
     extent_authid := "EPSG:4326";
     output_crs_isValid := false;
     output_crs_authid := EmptyString;
     PARAM_OUTPUT_RESOLUTION := 0%float |}.

(** Five messages, the most there can be. *)
Lemma messages_in_order_witness :
  messages sample_geometry_CRS sample_all_wrong
  = Ok [MSG_PRODUCTS; MSG_DATE_ORDER; MSG_EXTENT_CRS; MSG_OUTPUT_RES; MSG_OUTPUT_CRS] /\
  (sublist [MSG_PRODUCTS; MSG_DATE_ORDER; MSG_EXTENT_CRS; MSG_OUTPUT_RES; MSG_OUTPUT_CRS]
     [MSG_PRODUCTS; MSG_DATES; MSG_EXTENT_CRS; MSG_OUTPUT_RES; MSG_OUTPUT_CRS] \/
   sublist [MSG_PRODUCTS; MSG_DATE_ORDER; MSG_EXTENT_CRS; MSG_OUTPUT_RES; MSG_OUTPUT_CRS]
     [MSG_PRODUCTS; MSG_DATE_ORDER; MSG_EXTENT_CRS; MSG_OUTPUT_RES; MSG_OUTPUT_CRS]).
Proof.
  split; [reflexivity|].
  apply (messages_in_order sample_geometry_CRS sample_all_wrong). reflexivity.
Defined.

Lemma malformed_date_raises_witness :
  exists d' e',
    d' ∈ PARAM_DATE_RANGE sample_malformed_date /\ strptime d' = Raise e' /\
    checkParameterValues sample_geometry_CRS sample_tr sample_super sample_malformed_date
    = Raise e'.
Proof.
  apply (malformed_date_raises sample_geometry_CRS sample_tr sample_super
           sample_malformed_date (VStr "2018-13-01")
           (Exn ValueError "time data does not match format")).
  - reflexivity.
  - apply list_elem_of_here.
  - reflexivity.
Defined.

Lemma short_date_range_raises_witness :
  checkParameterValues sample_geometry_CRS sample_tr sample_super sample_one_date
  = Raise (Exn IndexError "list index out of range").
Proof.
  apply short_date_range_raises.
  - cbn. lia.
  - intros d Hd. apply list_elem_of_singleton in Hd as ->.
    by exists (Datetime 2018 1 1).
Defined.

(** A start date without an end date: the one message is the message
    about the two dates. *)
Lemma date_messages_exactly_witness :
  messages sample_geometry_CRS sample_half_range = Ok [MSG_DATES] /\
  (MSG_DATES ∈ [MSG_DATES] <->
   (exists d, d ∈ PARAM_DATE_RANGE sample_half_range /\ truthy d = false) /\
   (exists d, d ∈ PARAM_DATE_RANGE sample_half_range /\ truthy d = true)).
Proof.
  split; [reflexivity|].
  apply (date_messages_exactly sample_geometry_CRS sample_half_range [MSG_DATES]).
  reflexivity.
Defined.

Lemma crs_messages_exactly_witness :
  MSG_OUTPUT_CRS
    ∈ [MSG_PRODUCTS; MSG_DATE_ORDER; MSG_EXTENT_CRS; MSG_OUTPUT_RES; MSG_OUTPUT_CRS] <->
  output_crs_isValid sample_all_wrong = true /\
  exists e, sample_geometry_CRS (output_crs_authid sample_all_wrong) = Raise e /\
            exn_cls e = InvalidCRSError.
Proof.
  apply (crs_messages_exactly sample_geometry_CRS sample_all_wrong
           [MSG_PRODUCTS; MSG_DATE_ORDER; MSG_EXTENT_CRS; MSG_OUTPUT_RES; MSG_OUTPUT_CRS]
           1480000 (-3600000) 1490000 (-3500000)); reflexivity.
Defined.

Definition sample_build_query (product : string)
    (measurements date_range extent extent_crs output_crs output_res
       dask_chunks group_by fuse_func : value) : res value :=
  Ok (VDict [("product", VStr product); ("measurements", measurements);
             ("time", date_range); ("group_by", group_by)]).

(** A dataset with two timesteps on one day, at midnight and at noon. *)
Definition sample_one_day_dataset : Utils.Dataset :=
  {| Utils.data_vars := Utils.data_vars Utils.sample_dataset;
     Utils.dims := Utils.dims Utils.sample_dataset;
     Utils.crs_dimensions := Utils.crs_dimensions Utils.sample_dataset;
     Utils.crs_str := Utils.crs_str Utils.sample_dataset;
     Utils.affine := Utils.affine Utils.sample_dataset;
     Utils.time := [1514764800000000000%Z; 1514808000000000000%Z] |}.

(** A query engine with no data for one of the products, and with the
    two timesteps of one day for another. *)
Definition sample_run_query (query config_file max_datasets : value)
    : res Utils.Dataset :=
  match query with
  | VDict (("product", VStr "ls7_nbar_albers") :: _) =>
      Raise (Exn NoDataError "No data found")
  | VDict (("product", VStr "ls5_nbar_albers") :: _) => Ok sample_one_day_dataset
  | _ => Ok Utils.sample_dataset
  end.

Definition sample_repr (query : value) : string :=
  match query with
  | VDict (("product", VStr product) :: _) => "{'product': '" +:+ product +:+ "'}"
  | _ => "{}"
  end.

(** [date.fromtimestamp(timestamp).strftime(str_format)] in a time zone
    without offset, for the four formats of [execute] and the days of the
    sample data: a [date] has no time of day, so that the hours, minutes
    and seconds are zero. A timestamp before the year 1 raises. *)
Definition sample_strftime (timestamp : Z) (str_format : string) : res string :=
  if (timestamp <? -62135596800)%Z
  then Raise (Exn ValueError "year 0 is out of range")
  else
    let day := if (timestamp <? 1516147200)%Z then "01" else "17" in
    if String.eqb str_format "%Y-%m-%d" then Ok ("2018-01-" +:+ day)
    else if String.eqb str_format "%Y:%m:%d" then Ok ("2018:01:" +:+ day)
    else if String.eqb str_format "%Y-%m-%d_%H-%M-%S"
    then Ok ("2018-01-" +:+ day +:+ "_00-00-00")
    else if String.eqb str_format "%Y:%m:%d %H:%M:%S"
    then Ok ("2018:01:" +:+ day +:+ " 00:00:00")
    else Ok str_format.

Definition sample_Path_str (folder name : string) : string :=
  folder +:+ "/" +:+ name.

(** The name of a replacement field: the text before the closing brace. *)
Fixpoint field_name (s : string) : string :=
  match s with
  | String c rest =>
      if (Ascii.N_of_ascii c =? 125)%N then EmptyString
      else String c (field_name rest)
  | EmptyString => EmptyString
  end.

(** [template.format(arg)] for templates with the fields [{}] and
    [{name}] and with doubled braces: the first [{}] is replaced by
    [arg], a second one raises [IndexError], a named field raises
    [KeyError], and a single brace raises [ValueError]. [used] tells
    that [arg] has been used. *)
Fixpoint format_from (used : bool) (template arg : string) : res string :=
  match template with
  | EmptyString => Ok EmptyString
  | String c rest =>
      if (Ascii.N_of_ascii c =? 123)%N then
        match rest with
        | EmptyString =>
            Raise (Exn ValueError "Single '{' encountered in format string")
        | String c' rest' =>
            if (Ascii.N_of_ascii c' =? 125)%N then
              if used
              then Raise (Exn IndexError
                            "Replacement index 1 out of range for positional args tuple")
              else let? s := format_from true rest' arg in Ok (arg +:+ s)
            else if (Ascii.N_of_ascii c' =? 123)%N then
              let? s := format_from used rest' arg in Ok (String c s)
            else Raise (Exn KeyError ("'" +:+ field_name rest +:+ "'"))
        end
      else if (Ascii.N_of_ascii c =? 125)%N then
        match rest with
        | String c' rest' =>
            if (Ascii.N_of_ascii c' =? 125)%N then
              let? s := format_from used rest' arg in Ok (String c s)
            else Raise (Exn ValueError "Single '}' encountered in format string")
        | EmptyString =>
            Raise (Exn ValueError "Single '}' encountered in format string")
        end
      else let? s := format_from used rest arg in Ok (String c s)
  end.

Definition sample_format (template arg : string) : res string :=
  format_from false template arg.

(** The calls into [utils.py] return. *)
Definition sample_utils (t : list event) (e : event) : res unit := Ok tt.

(** The disk is full when the second file is written. *)
Definition sample_full_disk (t : list event) (e : event) : res unit :=
  match e with
  | WriteGeotiff _ 1 _ => Raise (Exn OSError "No space left on device")
  | _ => Ok tt
  end.

Definition sample_products : list (string * value) :=
  [("ls7_nbar_albers", VList [VStr "red"]);
   ("ls8_nbar_albers", VList [VStr "red"; VStr "nir"])].

(** A user who cancels once a file has been written. *)
Definition cancel_after_a_write (t : list event) : bool :=
  negb (is_nil (written t)).

Definition never_cancel (t : list event) : bool := false.

(** [execute] with the sample collaborators, overviews switched on and
    statistics switched off, the data grouped by day. *)
Definition sample_execute (isCanceled : list event -> bool) :=
  execute sample_build_query sample_run_query sample_repr sample_strftime
    sample_Path_str sample_format isCanceled sample_utils
    (VList [VStr "2018-01-01"; VStr "2018-01-31"])
    (VList [VFloat 148; VFloat (-36); VFloat 149; VFloat (-35)])
    (VStr "EPSG:4326") VNone VNone "/tmp/out" VNone (VDict [("time", VInt 1)])
    (VBool true) (VBool false) (VBool true) (VDict []) (VDict [])
    (VStr "solar_day") VNone (VInt 100).

Definition sample_ls7_query : value :=
  VDict [("product", VStr "ls7_nbar_albers");
         ("measurements", VList [VStr "red"]);
         ("time", VList [VStr "2018-01-01"; VStr "2018-01-31"]);
         ("group_by", VStr "solar_day")].

Definition sample_ls8_query : value :=
  VDict [("product", VStr "ls8_nbar_albers");
         ("measurements", VList [VStr "red"; VStr "nir"]);
         ("time", VList [VStr "2018-01-01"; VStr "2018-01-31"]);
         ("group_by", VStr "solar_day")].






(** A run that is cancelled after its first file: the poll that reports
    the cancellation is the last call, and the map holds that file. *)
Lemma cancellation_is_cooperative_witness :
  sample_execute cancel_after_a_write sample_products []
  = ([SetProgress 0; IsCanceled false;
      SetProgressText "Processing ls7_nbar_albers";
      BuildQuery "ls7_nbar_albers" (VList [VStr "red"]);
      PushInfo "Query: {'product': 'ls7_nbar_albers'}";
      RunQuery sample_ls7_query VNone (VInt 100);
      ReportError "Error encountered processing ls7_nbar_albers: No data found";
      SetProgress 50; IsCanceled false;
      SetProgressText "Processing ls8_nbar_albers";
      BuildQuery "ls8_nbar_albers" (VList [VStr "red"; VStr "nir"]);
      PushInfo "Query: {'product': 'ls8_nbar_albers'}";
      RunQuery sample_ls8_query VNone (VInt 100);
      SetProgressText "Saving outputs for ls8_nbar_albers";
      WriteGeotiff "/tmp/out/ls8_nbar_albers_2018-01-01.tif" 0 (VDict []);
      UpdateTags "/tmp/out/ls8_nbar_albers_2018-01-01.tif" "2018:01:01";
      BuildOverviews "/tmp/out/ls8_nbar_albers_2018-01-01.tif" (VDict []);
      SetProgress 55; IsCanceled true],
     Ok {["/tmp/out/ls8_nbar_albers_2018-01-01.tif" := "ls8_nbar_albers_2018-01-01"]}).
Proof.
  destruct (cancellation_is_cooperative
              sample_build_query sample_run_query sample_repr sample_strftime
              sample_Path_str sample_format cancel_after_a_write sample_utils
              (VList [VStr "2018-01-01"; VStr "2018-01-31"])
              (VList [VFloat 148; VFloat (-36); VFloat 149; VFloat (-35)])
              (VStr "EPSG:4326") VNone VNone "/tmp/out" VNone (VDict [("time", VInt 1)])
              (VBool true) (VBool false) (VBool true) (VDict []) (VDict [])
              (VStr "solar_day") VNone (VInt 100)
              sample_products [])
    as (_ & _ & Hstep & _).
  assert (Hat : at_timestep sample_build_query sample_run_query sample_repr sample_strftime
                  sample_Path_str sample_format cancel_after_a_write sample_utils
                  (VList [VStr "2018-01-01"; VStr "2018-01-31"])
                  (VList [VFloat 148; VFloat (-36); VFloat 149; VFloat (-35)])
                  (VStr "EPSG:4326") VNone VNone "/tmp/out" VNone (VDict [("time", VInt 1)])
                  (VBool true) (VBool false) (VBool true) (VDict []) (VDict [])
                  (VStr "solar_day") VNone (VInt 100)
                  sample_products [] 1 "ls8_nbar_albers" 0
                  (Utils.time Utils.sample_dataset) ∅
                  [SetProgress 0; IsCanceled false;
                   SetProgressText "Processing ls7_nbar_albers";
                   BuildQuery "ls7_nbar_albers" (VList [VStr "red"]);
                   PushInfo "Query: {'product': 'ls7_nbar_albers'}";
                   RunQuery sample_ls7_query VNone (VInt 100);
                   ReportError
                     "Error encountered processing ls7_nbar_albers: No data found";
                   SetProgress 50; IsCanceled false;
                   SetProgressText "Processing ls8_nbar_albers";
                   BuildQuery "ls8_nbar_albers" (VList [VStr "red"; VStr "nir"]);
                   PushInfo "Query: {'product': 'ls8_nbar_albers'}";
                   RunQuery sample_ls8_query VNone (VInt 100);
                   SetProgressText "Saving outputs for ls8_nbar_albers"]).
  { vm_compute. reflexivity. }
  exact (Hstep _ _ _ _ _ _ _ Hat).
Defined.

(** A query engine that fails with an error [execute] does not handle. *)
Definition sample_broken_run_query (query config_file max_datasets : value)
    : res Utils.Dataset :=
  Raise (Exn ValueError "Unknown measurement").

(** The error of the first product ends the run: the second product is
    not looked at, and nothing is reported. *)
Lemma unexpected_error_aborts :
  execute sample_build_query sample_broken_run_query sample_repr sample_strftime
    sample_Path_str sample_format never_cancel sample_utils
    (VList [VStr "2018-01-01"; VStr "2018-01-31"])
    (VList [VFloat 148; VFloat (-36); VFloat 149; VFloat (-35)])
    (VStr "EPSG:4326") VNone VNone "/tmp/out" VNone (VDict [("time", VInt 1)])
    (VBool true) (VBool false) (VBool true) (VDict []) (VDict [])
    (VStr "solar_day") VNone (VInt 100)
    sample_products []
  = ([SetProgress 0; IsCanceled false;
      SetProgressText "Processing ls7_nbar_albers";
      BuildQuery "ls7_nbar_albers" (VList [VStr "red"]);
      PushInfo "Query: {'product': 'ls7_nbar_albers'}";
      RunQuery sample_ls7_query VNone (VInt 100)],
     Raise (Exn ValueError "Unknown measurement")).
Proof. vm_compute. reflexivity. Qed.

(** An output folder with braces in its name. *)
Definition sample_braces_execute : list event * res (gmap string string) :=
  execute sample_build_query sample_run_query sample_repr sample_strftime
    sample_Path_str sample_format never_cancel sample_utils
    (VList [VStr "2018-01-01"; VStr "2018-01-31"])
    (VList [VFloat 148; VFloat (-36); VFloat 149; VFloat (-35)])
    (VStr "EPSG:4326") VNone VNone "/tmp/{out}" VNone (VDict [("time", VInt 1)])
    (VBool true) (VBool false) (VBool true) (VDict []) (VDict [])
    (VStr "solar_day") VNone (VInt 100)
    sample_products [].

(** The run into the folder with braces ends when the path of the first
    file is made. *)
Lemma braces_in_the_folder_raise :
  sample_braces_execute
  = ([SetProgress 0; IsCanceled false;
      SetProgressText "Processing ls7_nbar_albers";
      BuildQuery "ls7_nbar_albers" (VList [VStr "red"]);
      PushInfo "Query: {'product': 'ls7_nbar_albers'}";
      RunQuery sample_ls7_query VNone (VInt 100);
      ReportError "Error encountered processing ls7_nbar_albers: No data found";
      SetProgress 50; IsCanceled false;
      SetProgressText "Processing ls8_nbar_albers";
      BuildQuery "ls8_nbar_albers" (VList [VStr "red"; VStr "nir"]);
      PushInfo "Query: {'product': 'ls8_nbar_albers'}";
      RunQuery sample_ls8_query VNone (VInt 100);
      SetProgressText "Saving outputs for ls8_nbar_albers"],
     Raise (Exn KeyError "'out'")).
Proof. vm_compute. reflexivity. Qed.

(** The cases of its exception: the [KeyError] was raised by the
    formatting of the path. *)
Lemma execute_raises_witness :
  (sample_products = [] /\ sample_braces_execute.1 = [] /\
   Exn KeyError "'out'" = Exn ZeroDivisionError "division by zero") \/
  (retrieval_error (Exn KeyError "'out'") = false /\
   exists product measurements,
     (product, measurements) ∈ sample_products /\
     ((sample_build_query product measurements
         (VList [VStr "2018-01-01"; VStr "2018-01-31"])
         (VList [VFloat 148; VFloat (-36); VFloat 149; VFloat (-35)])
         (VStr "EPSG:4326") VNone VNone (VDict [("time", VInt 1)])
         (VStr "solar_day") VNone
       = Raise (Exn KeyError "'out'") /\
       last sample_braces_execute.1 = Some (BuildQuery product measurements)) \/
      (exists query,
         sample_build_query product measurements
           (VList [VStr "2018-01-01"; VStr "2018-01-31"])
           (VList [VFloat 148; VFloat (-36); VFloat 149; VFloat (-35)])
           (VStr "EPSG:4326") VNone VNone (VDict [("time", VInt 1)])
           (VStr "solar_day") VNone
         = Ok query /\
         sample_run_query query VNone (VInt 100) = Raise (Exn KeyError "'out'") /\
         last sample_braces_execute.1 = Some (RunQuery query VNone (VInt 100))))) \/
  (exists dt str_format,
     datetime_to_str sample_strftime dt str_format = Raise (Exn KeyError "'out'")) \/
  (exists template arg, sample_format template arg = Raise (Exn KeyError "'out'")) \/
  (exists u c, sample_utils u c = Raise (Exn KeyError "'out'")).
Proof.
  apply (execute_raises sample_build_query sample_run_query sample_repr sample_strftime
           sample_Path_str sample_format never_cancel sample_utils
           (VList [VStr "2018-01-01"; VStr "2018-01-31"])
           (VList [VFloat 148; VFloat (-36); VFloat 149; VFloat (-35)])
           (VStr "EPSG:4326") VNone VNone "/tmp/{out}" VNone (VDict [("time", VInt 1)])
           (VBool true) (VBool false) (VBool true) (VDict []) (VDict [])
           (VStr "solar_day") VNone (VInt 100)
           sample_products []).
  vm_compute. reflexivity.
Defined.

(** The map of the run that is cancelled after its first file holds that
    file, the one file the run has written. *)
Lemma returned_layers_are_written_files_witness :
  exists calls,
    (sample_execute cancel_after_a_write sample_products []).1 = [] ++ calls /\
    dom ({["/tmp/out/ls8_nbar_albers_2018-01-01.tif" := "ls8_nbar_albers_2018-01-01"]}
         : gmap string string)
    = list_to_set (omap written_path calls).
Proof.
  apply (returned_layers_are_written_files
           sample_build_query sample_run_query sample_repr sample_strftime
           sample_Path_str sample_format cancel_after_a_write sample_utils
           (VList [VStr "2018-01-01"; VStr "2018-01-31"])
           (VList [VFloat 148; VFloat (-36); VFloat 149; VFloat (-35)])
           (VStr "EPSG:4326") VNone VNone "/tmp/out" VNone (VDict [("time", VInt 1)])
           (VBool true) (VBool false) (VBool true) (VDict []) (VDict [])
           (VStr "solar_day") VNone (VInt 100)
           sample_products []).
  vm_compute. reflexivity.
Defined.

(** In the run that is never cancelled, with overviews switched on and
    statistics switched off, the two files written are the files tagged
    and the files with overviews, and no statistics are computed. *)
Lemma written_files_are_post_processed_witness :
  exists calls,
    (sample_execute never_cancel sample_products []).1 = [] ++ calls /\
    ((omap tagged_path calls = omap written_path calls /\
      omap overview_path calls
      = (if truthy (VBool true) then omap written_path calls else []) /\
      omap statistics_path calls
      = (if truthy (VBool false) then omap written_path calls else [])) \/
     (exists e u c,
        (sample_execute never_cancel sample_products []).2 = Raise e /\
        sample_utils u c = Raise e)).
Proof.
  apply (written_files_are_post_processed
           sample_build_query sample_run_query sample_repr sample_strftime
           sample_Path_str sample_format never_cancel sample_utils
           (VList [VStr "2018-01-01"; VStr "2018-01-31"])
           (VList [VFloat 148; VFloat (-36); VFloat 149; VFloat (-35)])
           (VStr "EPSG:4326") VNone VNone "/tmp/out" VNone (VDict [("time", VInt 1)])
           (VBool true) (VBool false) (VBool true) (VDict []) (VDict [])
           (VStr "solar_day") VNone (VInt 100)
           sample_products []
           (sample_execute never_cancel sample_products []).1
           (sample_execute never_cancel sample_products []).2).
  vm_compute. reflexivity.
Defined.

(** When the disk is full at the second file, the run ends with the
    exception of [write_geotiff]: the second file is not tagged. *)
Lemma full_disk_run :
  execute sample_build_query sample_run_query sample_repr sample_strftime
    sample_Path_str sample_format never_cancel sample_full_disk
    (VList [VStr "2018-01-01"; VStr "2018-01-31"])
    (VList [VFloat 148; VFloat (-36); VFloat 149; VFloat (-35)])
    (VStr "EPSG:4326") VNone VNone "/tmp/out" VNone (VDict [("time", VInt 1)])
    (VBool true) (VBool false) (VBool true) (VDict []) (VDict [])
    (VStr "solar_day") VNone (VInt 100)
    sample_products []
  = ([SetProgress 0; IsCanceled false;
      SetProgressText "Processing ls7_nbar_albers";
      BuildQuery "ls7_nbar_albers" (VList [VStr "red"]);
      PushInfo "Query: {'product': 'ls7_nbar_albers'}";
      RunQuery sample_ls7_query VNone (VInt 100);
      ReportError "Error encountered processing ls7_nbar_albers: No data found";
      SetProgress 50; IsCanceled false;
      SetProgressText "Processing ls8_nbar_albers";
      BuildQuery "ls8_nbar_albers" (VList [VStr "red"; VStr "nir"]);
      PushInfo "Query: {'product': 'ls8_nbar_albers'}";
      RunQuery sample_ls8_query VNone (VInt 100);
      SetProgressText "Saving outputs for ls8_nbar_albers";
      WriteGeotiff "/tmp/out/ls8_nbar_albers_2018-01-01.tif" 0 (VDict []);
      UpdateTags "/tmp/out/ls8_nbar_albers_2018-01-01.tif" "2018:01:01";
      BuildOverviews "/tmp/out/ls8_nbar_albers_2018-01-01.tif" (VDict []);
      SetProgress 55; IsCanceled false;
      WriteGeotiff "/tmp/out/ls8_nbar_albers_2018-01-17.tif" 1 (VDict [])],
     Raise (Exn OSError "No space left on device")).
Proof. vm_compute. reflexivity. Qed.

(** In the run that is cancelled after its first file, the products
    queried are the two products of the dictionary, in its order. *)
Lemma products_are_queried_in_order_witness :
  exists calls,
    (sample_execute cancel_after_a_write sample_products []).1 = [] ++ calls /\
    omap queried_product calls `prefix_of` map fst sample_products.
Proof.
  apply (products_are_queried_in_order
           sample_build_query sample_run_query sample_repr sample_strftime
           sample_Path_str sample_format cancel_after_a_write sample_utils
           (VList [VStr "2018-01-01"; VStr "2018-01-31"])
           (VList [VFloat 148; VFloat (-36); VFloat 149; VFloat (-35)])
           (VStr "EPSG:4326") VNone VNone "/tmp/out" VNone (VDict [("time", VInt 1)])
           (VBool true) (VBool false) (VBool true) (VDict []) (VDict [])
           (VStr "solar_day") VNone (VInt 100)
           sample_products []
           (sample_execute cancel_after_a_write sample_products []).1
           (sample_execute cancel_after_a_write sample_products []).2).
  vm_compute. reflexivity.
Defined.


(** The products of a data cube with two titles for one product. *)
Definition sample_self_products : gmap string product_entry :=
  dict_of
    [("Landsat 7 NBAR",
      {| entry_product := Some "ls7_nbar_albers";
         entry_measurements := Some (dict_of [("Red", VStr "red")]) |});
     ("Landsat 8 NBAR",
      {| entry_product := Some "ls8_nbar_albers";
         entry_measurements :=
           Some (dict_of [("Red", VStr "red"); ("Near infrared", VStr "nir")]) |});
     ("Landsat 8 NBAR (25m)",
      {| entry_product := Some "ls8_nbar_albers";
         entry_measurements :=
           Some (dict_of [("Red", VStr "red"); ("Near infrared", VStr "nir")]) |});
     ("Unable to connect to a running Data Cube instance",
      {| entry_product := None; entry_measurements := Some ∅ |})].

Definition sample_product_descs : list (string * list string) :=
  [("Landsat 8 NBAR", ["Red"]);
   ("Landsat 7 NBAR", ["Red"]);
   ("Unable to connect to a running Data Cube instance", []);
   ("Landsat 8 NBAR (25m)", ["Near infrared"])].

(** The two selections for the one product are merged, in their order,
    at the place of the first. *)
Lemma select_products_groups_witness :
  NoDup (map fst [("ls8_nbar_albers", [VStr "red"; VStr "nir"]);
                  ("ls7_nbar_albers", [VStr "red"])]) /\
  forall product ms,
    (product, ms) ∈ [("ls8_nbar_albers", [VStr "red"; VStr "nir"]);
                     ("ls7_nbar_albers", [VStr "red"])]
    <-> ms <> [] /\ ms = selected_for sample_self_products product sample_product_descs.
Proof.
  apply (select_products_groups sample_self_products sample_product_descs).
  vm_compute. reflexivity.
Defined.

(** A measurement selected under a title that [self.products] does not
    have. *)
Lemma select_products_key_error_witness :
  exists k v,
    (k, v) ∈ [("Landsat 8 NBAR", ["Red"]); ("Sentinel 2", ["Red"])] /\ v <> [] /\
    match sample_self_products !! k with
    | None => Exn KeyError "Sentinel 2" = Exn KeyError k
    | Some entry =>
        match entry_product entry, entry_measurements entry with
        | None, _ => Exn KeyError "Sentinel 2" = Exn KeyError "product"
        | Some _, None => Exn KeyError "Sentinel 2" = Exn KeyError "measurements"
        | Some _, Some measurements =>
            exists m, m ∈ v /\ measurements !! m = None /\
                      Exn KeyError "Sentinel 2" = Exn KeyError m
        end
    end.
Proof.
  apply (select_products_key_error sample_self_products
           [("Landsat 8 NBAR", ["Red"]); ("Sentinel 2", ["Red"])]).
  vm_compute. reflexivity.
Defined.

(** The settings of the plugin, as the host stores them: no configuration
    file and no maximum. *)
Definition sample_settings : gmap string value :=
  dict_of [("datacube_config_file", VStr EmptyString);
           ("datacube_max_datasets", VStr EmptyString);
           ("datacube_gtiff_options", VStr "{}");
           ("datacube_gtiff_ovr_options", VStr "{}");
           ("datacube_build_overviews", VBool true);
           ("datacube_calculate_statistics", VBool true);
           ("datacube_approx_statistics", VBool true)].

Definition sample_json_loads (s : value) : res value :=
  match s with
  | VStr "{}" => Ok (VDict [])
  | VStr _ => Raise (Exn ValueError "Expecting value")
  | _ => Raise (Exn TypeError "the JSON object must be str, bytes or bytearray")
  end.

Definition sample_int (x : value) : res Z :=
  match x with
  | VInt z => Ok z
  | VBool b => Ok (Z.b2z b)
  | VStr "100" => Ok 100%Z
  | VStr _ => Raise (Exn ValueError "invalid literal for int() with base 10")
  | _ => Raise (Exn TypeError "int() argument must be a string or a number")
  end.

Definition sample_mkdir (folder : string) : res unit := Ok tt.

Definition sample_GROUP_BY_FUSE_FUNC : list (string * (value * value)) :=
  [("Solar Day", (VStr "solar_day", VNone)); ("Time", (VNone, VNone))].

Definition sample_repr_any (x : value) : string :=
  match x with
  | VStr s => "'" +:+ s +:+ "'"
  | _ => sample_repr x
  end.

Definition sample_processAlgorithm (product_descs : list (string * list string))
    : list event * res Results :=
  processAlgorithm sample_build_query sample_run_query sample_repr_any
    sample_strftime sample_Path_str sample_format never_cancel sample_utils
    sample_json_loads sample_int sample_mkdir sample_GROUP_BY_FUSE_FUNC
    sample_settings sample_self_products
    sample_res_only product_descs 0 "/tmp/out" [].

(** The run for the sample selection: the one product with data is
    queried with no configuration file and no maximum. *)
Lemma settings_reach_calls_witness :
  exists calls,
    (sample_processAlgorithm sample_product_descs).1 = [] ++ calls /\
    (forall query config max,
       RunQuery query config max ∈ calls ->
       (exists setting,
          sample_settings !! "datacube_config_file" = Some setting /\
          config = or_None setting) /\
       (exists setting,
          sample_settings !! "datacube_max_datasets" = Some setting /\
          match sample_int setting with
          | Ok n => max = VInt n
          | Raise e =>
              max = VNone /\ (exn_cls e = TypeError \/ exn_cls e = ValueError)
          end)) /\
    (forall raster_path i options,
       WriteGeotiff raster_path i options ∈ calls ->
       exists setting,
         sample_settings !! "datacube_gtiff_options" = Some setting /\
         sample_json_loads setting = Ok options) /\
    (forall raster_path approx,
       CalculateStatistics raster_path approx ∈ calls ->
       sample_settings !! "datacube_approx_statistics" = Some approx).
Proof.
  apply (settings_reach_calls sample_build_query sample_run_query sample_repr_any
           sample_strftime sample_Path_str sample_format never_cancel
           sample_utils sample_json_loads sample_int sample_mkdir sample_GROUP_BY_FUSE_FUNC
           sample_settings sample_self_products
           sample_res_only sample_product_descs 0 "/tmp/out" []
           (sample_processAlgorithm sample_product_descs).1
           (sample_processAlgorithm sample_product_descs).2).
  apply surjective_pairing.
Defined.

(** A product title with no measurement selected: the folder is made and
    the run ends with the division by zero. *)
Lemma nothing_selected_raises_witness :
  exists t' e,
    sample_processAlgorithm [("Landsat 8 NBAR", [])] = (t', Raise e) /\
    (t' = [] \/
     t' = [] ++ [PushInfo ("output_folder: " +:+ sample_repr_any (VStr "/tmp/out"))] /\
     (sample_mkdir "/tmp/out" = Raise e \/
      sample_mkdir "/tmp/out" = Ok tt /\ e = Exn ZeroDivisionError "division by zero")).
Proof.
  apply (nothing_selected_raises sample_build_query sample_run_query sample_repr_any
           sample_strftime sample_Path_str sample_format never_cancel
           sample_utils sample_json_loads sample_int sample_mkdir sample_GROUP_BY_FUSE_FUNC
           sample_settings sample_self_products
           sample_res_only [("Landsat 8 NBAR", [])] 0 "/tmp/out" []).
  intros k v Hin. apply list_elem_of_singleton in Hin. by injection Hin.
Defined.

(** What these two runs are. *)
Lemma sample_runs :
  (sample_processAlgorithm [("Landsat 8 NBAR", [])]
   = ([PushInfo "output_folder: '/tmp/out'"],
      Raise (Exn ZeroDivisionError "division by zero"))) /\
  omap (fun e => match e with RunQuery _ config max => Some (config, max) | _ => None end)
    (sample_processAlgorithm sample_product_descs).1
  = [(VNone, VNone); (VNone, VNone)] /\
  omap written_path (sample_processAlgorithm sample_product_descs).1
  = ["/tmp/out/ls8_nbar_albers_2018-01-01.tif"; "/tmp/out/ls8_nbar_albers_2018-01-17.tif"].
Proof. vm_compute. repeat split. Qed.

End Query.
